(** * Mergin plugin for QGIS: version history pager and project validator

    A shallow embedding of [Mergin/project_history_dock.py] and
    [Mergin/validation.py] (with the helpers of [Mergin/utils.py] they call),
    followed by the properties established for them.

    Python objects are records, mutation is explicit state passing, Python
    exceptions are the [Raise] results of a small error monad.  The host
    application (QGIS, the operating system, the Mergin client library) is
    taken as data: records of the values and functions the plugin reads. *)

From Stdlib Require Import Ascii.
From stdpp Require Import base option list gmap strings pretty.

Open Scope Z_scope.

(** ** Python values, exceptions *)

Module Py.

Inductive exn : Type :=
| AssertionError
| AttributeError
| IndexError
| KeyError (key : string)
| TypeError
| ClientError (detail : string).

(** The outcome of a Python call: a value, or an exception that unwinds. *)
Inductive result (A : Type) : Type :=
| Ok (a : A)
| Raise (e : exn).
Arguments Ok {A} a.
Arguments Raise {A} e.

#[export] Instance result_ret : MRet result := fun _ a => Ok a.
#[export] Instance result_bind : MBind result := fun _ _ f m =>
  match m with
  | Ok a => f a
  | Raise e => Raise e
  end.

(** An attribute access or a call on an object that may be [None]. *)
Definition attr {A} (o : option A) : result A :=
  match o with
  | Some a => Ok a
  | None => Raise AttributeError
  end.

(** [for x in xs: body], with the loop state threaded through and an
    exception of the body ending the loop. *)
Fixpoint for_ {A S} (xs : list A) (body : A -> S -> result S) (s : S) : result S :=
  match xs with
  | [] => Ok s
  | x :: xs' => s' ← body x s; for_ xs' body s'
  end.

(** The values found in a widget configuration dictionary. *)
Inductive value : Type :=
| VNone
| VBool (b : bool)
| VInt (n : Z)
| VStr (s : string).

(** [v == 0]: an integer compares by value and [False == 0] holds. *)
Definition eq_zero (v : value) : bool :=
  match v with
  | VInt n => bool_decide (n = 0)
  | VBool b => negb b
  | _ => false
  end.

(** [d[key]] on a dict. *)
Definition getitem {V} (d : gmap string V) (key : string) : result V :=
  match d !! key with
  | Some v => Ok v
  | None => Raise (KeyError key)
  end.

(** [key in d] on a dict. *)
Definition contains {V} (d : gmap string V) (key : string) : bool :=
  bool_decide (is_Some (d !! key)).

(** [s[:k]] on a string, for any integer [k]. *)
Definition slice_to (k : Z) (s : string) : string :=
  let n := Z.of_nat (String.length s) in
  let stop := if bool_decide (k < 0) then Z.max 0 (n + k) else Z.min k n in
  String.substring 0 (Z.to_nat stop) s.

(** [s[k:]] on a string, for [k >= 0]. *)
Definition slice_from (k : nat) (s : string) : string :=
  String.substring k (String.length s - k) s.

(** [s.rfind(c)] for a one-character [c]: the last index of [c], or -1. *)
Fixpoint rfind_from (c : Ascii.ascii) (s : string) (i : Z) (last : Z) : Z :=
  match s with
  | EmptyString => last
  | String a s' => rfind_from c s' (i + 1) (if bool_decide (a = c) then i else last)
  end.
Definition rfind (c : Ascii.ascii) (s : string) : Z := rfind_from c s 0 (-1).

(** [s.split(c)[0]]: the text before the first [c], or all of [s]. *)
Fixpoint split_head (c : Ascii.ascii) (s : string) : string :=
  match s with
  | EmptyString => EmptyString
  | String a s' => if bool_decide (a = c) then EmptyString else String a (split_head c s')
  end.

Definition startswith (p s : string) : bool := String.prefix p s.

End Py.
Export Py.

(** ** The version history dock ([project_history_dock.py]) *)

Module History.

(** One entry of the ledger, a dict.  The entries the server sends have the
    three keys; those that [append] makes up have the name only. *)
Record Version : Type := {
  name : string;
  author : option string;
  created : option string }.

#[export] Instance Version_eq_dec : EqDecision Version.
Proof. solve_decision. Defined.

(** What the table model tells its view. *)
Inductive ModelSignal : Type :=
| rowsInserted (first last : Z)
| layoutChanged.

(** The attributes [oldest] and [latest] of the class are set to [None] and
    never used; they are left out. *)
Record VersionsTableModel : Type := {
  versions : list Version;          (* the deque, index 0 at the front *)
  current_version : option string;
  headers : list string;
  notified : list ModelSignal }.

Definition VersionsTableModel_init : VersionsTableModel :=
  {| versions := [];
     current_version := None;
     headers := ["Version"; "Author"; "Created"]%string;
     notified := [] |}.

Section Model.
(** [int_version] of the client library: the number of a version name,
    [None] for a name it does not accept. *)
Variable int_version : string -> option Z.

Definition latest_version (m : VersionsTableModel) : option Z :=
  match versions m with
  | [] => None
  | v :: _ => int_version (name v)
  end.

Definition oldest_version (m : VersionsTableModel) : option Z :=
  match versions m with
  | [] => None
  | _ => v ← last (versions m); int_version (name v)
  end.

Definition rowCount (m : VersionsTableModel) : nat := length (versions m).
Definition columnCount (m : VersionsTableModel) : nat := length (headers m).

Definition insertRows (row count : Z) (m : VersionsTableModel) : VersionsTableModel :=
  {| versions := versions m;
     current_version := current_version m;
     headers := headers m;
     notified := notified m ++ [rowsInserted row (row + count - 1)] |}.

Definition add_versions (vs : list Version) (m : VersionsTableModel) : VersionsTableModel :=
  let m1 := insertRows (Z.of_nat (length (versions m)) - 1) (Z.of_nat (length vs)) m in
  {| versions := versions m1 ++ vs;
     current_version := current_version m1;
     headers := headers m1;
     notified := notified m1 ++ [layoutChanged] |}.

(** The slot of the view-changes button. *)
Definition append (m : VersionsTableModel) : VersionsTableModel :=
  let to_append := [{| name := "azaz"; author := None; created := None |};
                    {| name := "rezer"; author := None; created := None |}] in
  let m1 := insertRows (Z.of_nat (length (versions m)) - 1) (Z.of_nat (length to_append)) m in
  {| versions := versions m1 ++ to_append;
     current_version := current_version m1;
     headers := headers m1;
     notified := notified m1 ++ [layoutChanged] |}.

(** [deque.extendleft] pushes the items one by one at the front, so they
    end up in reverse order. *)
Definition prepend_versions (vs : list Version) (m : VersionsTableModel) : VersionsTableModel :=
  let m1 := insertRows 0 (Z.of_nat (length vs)) m in
  {| versions := rev vs ++ versions m1;
     current_version := current_version m1;
     headers := headers m1;
     notified := notified m1 ++ [layoutChanged] |}.

Definition canFetchMore (m : VersionsTableModel) : bool :=
  match oldest_version m with
  | None => true
  | Some n => bool_decide (n >= 1)
  end.

End Model.

(** *** The fetch worker *)

Record ProjectInfo : Type := { version : string }.
Record WorkspaceUsage : Type := { view_history_allowed : bool }.

(** The client library's connection to the server. *)
Record MerginClient : Type := {
  project_info : string -> result ProjectInfo;
  project_versions : string -> Z -> Z -> result (list Version);
  workspace_usage : Z -> result WorkspaceUsage }.

(** What a worker thread does that others can observe. *)
Inductive Effect : Type :=
| logMessage (msg : string)
| call_project_info (project : string)
| call_project_versions (project : string) (since to : Z)
| finished_emit (page : list Version).

(** A worker computation: it extends the log of effects and returns or
    raises. *)
Definition Worker (A : Type) : Type := list Effect -> list Effect * result A.

#[export] Instance Worker_ret : MRet Worker := fun _ a log => (log, Ok a).
#[export] Instance Worker_bind : MBind Worker := fun _ _ f m log =>
  match m log with
  | (log', Ok a) => f a log'
  | (log', Raise e) => (log', Raise e)
  end.

Definition effect (e : Effect) : Worker unit := fun log => (log ++ [e], Ok tt).
Definition lift {A} (r : result A) : Worker A := fun log => (log, r).

Record VersionsFetcher : Type := {
  fetcher_mc : option MerginClient;
  fetcher_project_name : string;
  per_page : Z }.

Definition VersionsFetcher_init (mc : option MerginClient) (project_name : string)
  : VersionsFetcher :=
  {| fetcher_mc := mc; fetcher_project_name := project_name; per_page := 50 |}.

Section Fetcher.
Variable int_version : string -> option Z.

(** The window of the request, from its upper bound [to]. *)
Definition window_since (to : Z) : Z :=
  let since := to - 100 in
  if bool_decide (since < 0) then 1 else since.

Definition run (self : VersionsFetcher) (model : VersionsTableModel) : Worker unit :=
  effect (logMessage ("len: " +:+ pretty (length (versions model))));;
  to ← (if bool_decide (length (versions model) = 0%nat) then
          mc ← lift (attr (fetcher_mc self));
          effect (call_project_info (fetcher_project_name self));;
          info ← lift (project_info mc (fetcher_project_name self));
          effect (logMessage "intit");;
          mret (int_version (version info))
        else
          mret (oldest_version int_version model));
  match to with
  | None => lift (Raise TypeError)      (* [None - 100] *)
  | Some to =>
      let since := window_since to in
      mc ← lift (attr (fetcher_mc self));
      effect (call_project_versions (fetcher_project_name self) since to);;
      page ← lift (project_versions mc (fetcher_project_name self) since to);
      let page := rev page in
      effect (finished_emit page)
  end.

(** The pages handed to the [finished] signal, in order. *)
Definition emitted (log : list Effect) : list (list Version) :=
  omap (fun e => match e with finished_emit page => Some page | _ => None end) log.

(** The list-versions requests sent to the server, in order. *)
Definition list_requests (log : list Effect) : list (string * Z * Z) :=
  omap (fun e => match e with
                 | call_project_versions p since to => Some (p, since, to)
                 | _ => None
                 end) log.

(** *** The dock widget and its threads *)

Record MerginProject : Type := {
  dir : string;
  mp_version : string;
  project_full_name : string;
  workspace_id : result Z }.

Record ProjectHistoryDockWidget : Type := {
  mc : option MerginClient;
  mp : option MerginProject;
  project_path : option string;
  fetcher : option nat;            (* a reference to one of the threads *)
  model : VersionsTableModel;
  local_project_version : option string;
  info_label : string;
  stackedWidget : Z }.

(** A [VersionsFetcher] object as a [QThread]. *)
Record FetcherThread : Type := {
  thread_self : VersionsFetcher;
  isRunning : bool;
  entered : bool }.                (* [run] has been executed *)

(** The dock with everything around it that its methods touch. *)
Record World : Type := {
  dock : ProjectHistoryDockWidget;
  threads : list FetcherThread;    (* every fetcher created so far *)
  effects : list Effect;           (* what the workers did *)
  delivered : nat }.               (* emitted pages the slot has handled *)

Definition set_dock (d : ProjectHistoryDockWidget) (w : World) : World :=
  {| dock := d; threads := threads w; effects := effects w; delivered := delivered w |}.

Definition set_model (m : VersionsTableModel) (d : ProjectHistoryDockWidget)
  : ProjectHistoryDockWidget :=
  {| mc := mc d; mp := mp d; project_path := project_path d; fetcher := fetcher d;
     model := m; local_project_version := local_project_version d;
     info_label := info_label d; stackedWidget := stackedWidget d |}.

Definition set_fetcher (f : option nat) (d : ProjectHistoryDockWidget)
  : ProjectHistoryDockWidget :=
  {| mc := mc d; mp := mp d; project_path := project_path d; fetcher := f;
     model := model d; local_project_version := local_project_version d;
     info_label := info_label d; stackedWidget := stackedWidget d |}.

Definition show_info (text : string) (d : ProjectHistoryDockWidget)
  : ProjectHistoryDockWidget :=
  {| mc := mc d; mp := mp d; project_path := project_path d; fetcher := fetcher d;
     model := model d; local_project_version := local_project_version d;
     info_label := text; stackedWidget := 0 |}.

(** [self.fetcher and self.fetcher.isRunning()] *)
Definition fetcher_is_running (w : World) : bool :=
  match fetcher (dock w) with
  | None => false
  | Some i =>
      match threads w !! i with
      | Some t => isRunning t
      | None => false
      end
  end.

Definition fetch_from_server (w : World) : result World :=
  if fetcher_is_running w then
    (* Only fetching when previous is finished *)
    Ok w
  else
    p ← attr (mp (dock w));
    let f := VersionsFetcher_init (mc (dock w)) (project_full_name p) in
    let i := length (threads w) in
    (* [start()] marks the thread as running before it returns *)
    Ok {| dock := set_fetcher (Some i) (dock w);
          threads := threads w ++ [{| thread_self := f; isRunning := true; entered := false |}];
          effects := effects w;
          delivered := delivered w |}.

Definition on_scrollbar_changed (maximum value : Z) (w : World) : result World :=
  if bool_decide (maximum <= value) then fetch_from_server w else Ok w.

(** What [mergin_project_local_path], [check_mergin_subdirs] and the
    [MerginProject] constructor answer when the dock is built. *)
Record DockHost : Type := {
  mergin_project_local_path : option string;
  check_mergin_subdirs : string -> bool;
  MerginProject_open : string -> MerginProject }.

Definition ProjectHistoryDockWidget_init (host : DockHost) (client : option MerginClient)
  : result World :=
  let self :=
    {| mc := client; mp := None; project_path := mergin_project_local_path host;
       fetcher := None; model := VersionsTableModel_init;
       local_project_version := None; info_label := ""; stackedWidget := 0 |} in
  let world d := {| dock := d; threads := []; effects := []; delivered := 0 |} in
  match client with
  | None => Ok (world (show_info "Plugin is not configured." self))
  | Some c =>
      match project_path self with
      | None =>
          Ok (world (show_info
            "Current project is not saved. Project history is not available." self))
      | Some path =>
          if negb (check_mergin_subdirs host path) then
            Ok (world (show_info
              "Current project is not a Mergin project. Project history is not available."
              self))
          else
            let p := MerginProject_open host path in
            let self :=
              {| mc := client; mp := Some p; project_path := project_path self;
                 fetcher := None; model := model self;
                 local_project_version := Some (mp_version p);
                 info_label := info_label self; stackedWidget := stackedWidget self |} in
            match workspace_id p with
            | Raise (ClientError e) => Ok (world (show_info e self))
            | Raise e => Raise e
            | Ok ws_id =>
                usage ← workspace_usage c ws_id;
                if negb (view_history_allowed usage) then
                  Ok (world (show_info
                    "The workspace does not allow to view project history." self))
                else
                  let self :=
                    {| mc := mc self; mp := mp self; project_path := project_path self;
                       fetcher := None;
                       model := {| versions := versions (model self);
                                   current_version := Some (mp_version p);
                                   headers := headers (model self);
                                   notified := notified (model self) |};
                       local_project_version := local_project_version self;
                       info_label := info_label self; stackedWidget := 1 |} in
                  fetch_from_server (world self)
            end
      end
  end.

(** What can happen to a dock once it is built. *)
Inductive Event : Type :=
| fetch_requested                  (* a call of [fetch_from_server] *)
| scrolled (maximum value : Z)     (* the scroll bar's [valueChanged] *)
| view_changes_clicked             (* the button wired to [model.append] *)
| worker_runs (i : nat)            (* thread [i] executes [run] *)
| worker_exits (i : nat)           (* thread [i] ends *)
| page_delivered.                  (* a queued [finished] reaches its slot *)

(** An exception in a slot leaves the objects as they were. *)
Definition or_unchanged (w : World) (r : result World) : World :=
  match r with
  | Ok w' => w'
  | Raise _ => w
  end.

Definition step (w : World) (ev : Event) : World :=
  match ev with
  | fetch_requested => or_unchanged w (fetch_from_server w)
  | scrolled maximum value => or_unchanged w (on_scrollbar_changed maximum value w)
  | view_changes_clicked => set_dock (set_model (append (model (dock w))) (dock w)) w
  | worker_runs i =>
      match threads w !! i with
      | Some t =>
          if isRunning t && negb (entered t) then
            let '(log, _) := run (thread_self t) (model (dock w)) (effects w) in
            {| dock := dock w;
               threads := <[i := {| thread_self := thread_self t; isRunning := true;
                                    entered := true |}]> (threads w);
               effects := log;
               delivered := delivered w |}
          else w
      | None => w
      end
  | worker_exits i =>
      match threads w !! i with
      | Some t =>
          if isRunning t && entered t then
            {| dock := dock w;
               threads := <[i := {| thread_self := thread_self t; isRunning := false;
                                    entered := true |}]> (threads w);
               effects := effects w;
               delivered := delivered w |}
          else w
      | None => w
      end
  | page_delivered =>
      match emitted (effects w) !! delivered w with
      | Some page =>
          {| dock := set_model (add_versions page (model (dock w))) (dock w);
             threads := threads w;
             effects := effects w;
             delivered := S (delivered w) |}
      | None => w
      end
  end.

Definition steps (w : World) (evs : list Event) : World := foldl step w evs.

End Fetcher.

End History.

(** ** The project validator ([validation.py]) *)

Module Validation.
Import History.

Inductive Warning : Type :=
| PROJ_NOT_LOADED
| PROJ_NOT_FOUND
| MULTIPLE_PROJS
| ABSOLUTE_PATHS
| EDITABLE_NON_GPKG
| EXTERNAL_SRC
| NOT_FOR_OFFLINE
| NO_EDITABLE_LAYERS
| ATTACHMENT_ABSOLUTE_PATH
| ATTACHMENT_LOCAL_PATH
| ATTACHMENT_EXPRESSION_PATH
| ATTACHMENT_HYPERLINK
| DATABASE_SCHEMA_CHANGE.

#[export] Instance Warning_eq_dec : EqDecision Warning.
Proof. solve_decision. Defined.

(** An entry of the issue list: an object of one of the two warning
    classes. *)
Inductive Issue : Type :=
| MultipleLayersWarning (id : Warning) (layers : list string)
| SingleLayerWarning (layer_id : string) (warning : Warning).

#[export] Instance Issue_eq_dec : EqDecision Issue.
Proof. solve_decision. Defined.

(** *** The host: QGIS objects and the operating system *)

Inductive QgsMapLayerType : Type :=
| VectorLayer
| RasterLayer
| PluginLayer
| MeshLayer
| VectorTileLayer
| AnnotationLayer
| PointCloudLayer.

#[export] Instance QgsMapLayerType_eq_dec : EqDecision QgsMapLayerType.
Proof. solve_decision. Defined.

Record QgsDataProvider : Type := {
  provider_name : string;
  capabilities : Z;
  storageType : string }.

(** The capability flags of [QgsVectorDataProvider] that the validator
    tests. *)
Definition AddFeatures : Z := 1.
Definition ChangeAttributeValues : Z := 4.

Record QgsEditorWidgetSetup : Type := {
  widget_type : string;
  config : gmap string value }.

Record QgsMapLayer : Type := {
  id : string;
  type : QgsMapLayerType;
  dataProvider : option QgsDataProvider;
  publicSource : string;
  (* [editorWidgetSetup(i)] for [i] in [range(fields().count())]; [None]
     is a setup object that Python takes for false *)
  editorWidgetSetups : list (option QgsEditorWidgetSetup) }.

Record QgsProject : Type := {
  absolutePath : string;
  absoluteFilePath : string;
  readEntry : string -> string -> string * bool;
  mapLayers : list (string * QgsMapLayer) }.   (* in iteration order *)

Record Host : Type := {
  QgsProject_instance : QgsProject;
  os_walk : string -> list (string * list string * list string);
  os_path_splitext : string -> string * string;
  os_path_join : string -> string -> string;
  os_path_isabs : string -> bool;
  os_path_dirname : string -> string;
  Path_eq : string -> string -> bool;           (* [pathlib.Path(a) == pathlib.Path(b)] *)
  QgsExpression_isValid : string -> bool;
  (* the diff collaborator, imported from [utils] but not defined in these
     sources: it answers (has_change, message) *)
  has_schema_change : option MerginProject -> QgsMapLayer -> bool * string }.

Definition QGIS_NET_PROVIDERS : list string :=
  ["WFS"; "arcgisfeatureserver"; "arcgismapserver"; "geonode"; "ows"; "wcs"; "wms";
   "vectortile"]%string.
Definition QGIS_DB_PROVIDERS : list string :=
  ["postgres"; "mssql"; "oracle"; "hana"; "postgresraster"; "DB2"]%string.

(** *** [utils.py] *)

Definition find_qgis_files (h : Host) (directory : string) : list string :=
  foldl (fun qgis_files '(root, _, files) =>
           foldl (fun qgis_files f =>
                    let ext := snd (os_path_splitext h f) in
                    if bool_decide (ext ∈ [".qgs"; ".qgz"]%string)
                    then qgis_files ++ [os_path_join h root f]
                    else qgis_files)
                 qgis_files files)
        [] (os_walk h directory).

(** [not x] for a string that may be [None]. *)
Definition falsy (x : option string) : bool :=
  match x with
  | None => true
  | Some s => bool_decide (s = ""%string)
  end.

Definition same_dir (h : Host) (dir1 dir2 : option string) : bool :=
  match dir1, dir2 with
  | Some d1, Some d2 =>
      if falsy dir1 || falsy dir2 then false else Path_eq h d1 d2
  | _, _ => false
  end.

(** *** [MerginProjectValidator] *)

Record MerginProjectValidator : Type := {
  mp : option MerginProject;
  layers : option (list (string * QgsMapLayer));
  editable : option (list string);
  layers_by_prov : gmap string (list string);
  issues : list Issue;
  qgis_files : option (list string);
  qgis_proj : option QgsProject;
  qgis_proj_path : option string;
  qgis_proj_dir : option string }.

Definition MerginProjectValidator_init (mergin_project : option MerginProject)
  : MerginProjectValidator :=
  {| mp := mergin_project; layers := None; editable := None; layers_by_prov := ∅;
     issues := []; qgis_files := None; qgis_proj := None; qgis_proj_path := None;
     qgis_proj_dir := None |}.

Definition set_issues (l : list Issue) (v : MerginProjectValidator) : MerginProjectValidator :=
  {| mp := mp v; layers := layers v; editable := editable v;
     layers_by_prov := layers_by_prov v; issues := l; qgis_files := qgis_files v;
     qgis_proj := qgis_proj v; qgis_proj_path := qgis_proj_path v;
     qgis_proj_dir := qgis_proj_dir v |}.

Definition append_issue (i : Issue) (v : MerginProjectValidator) : MerginProjectValidator :=
  set_issues (issues v ++ [i]) v.

(** An operation other than an attribute access on a value that may be
    [None]. *)
Definition operand {A} (o : option A) : result A :=
  match o with
  | Some a => Ok a
  | None => Raise TypeError
  end.

(** [d[key]] on a [defaultdict(list)]: a missing key is inserted with an
    empty list. *)
Definition defaultdict_getitem (key : string) (d : gmap string (list string))
  : list string * gmap string (list string) :=
  match d !! key with
  | Some l => (l, d)
  | None => ([], <[key := []]> d)
  end.

Section Checks.
Variable h : Host.

Definition check_single_proj (project_dir : string) (v : MerginProjectValidator)
  : bool * MerginProjectValidator :=
  let files := find_qgis_files h project_dir in
  let v := {| mp := mp v; layers := layers v; editable := editable v;
              layers_by_prov := layers_by_prov v; issues := issues v;
              qgis_files := Some files; qgis_proj := qgis_proj v;
              qgis_proj_path := qgis_proj_path v; qgis_proj_dir := qgis_proj_dir v |} in
  if bool_decide (1 < length files)%nat then
    (false, append_issue (MultipleLayersWarning MULTIPLE_PROJS []) v)
  else if bool_decide (length files = 0)%nat then
    (* might be deleted after opening in QGIS *)
    (false, append_issue (MultipleLayersWarning PROJ_NOT_FOUND []) v)
  else (true, v).

Definition check_proj_loaded (v : MerginProjectValidator)
  : result (bool * MerginProjectValidator) :=
  files ← operand (qgis_files v);
  path ← match files with
         | f :: _ => Ok f
         | [] => Raise IndexError
         end;
  let loaded_proj_path := absoluteFilePath (QgsProject_instance h) in
  let is_loaded := same_dir h (Some path) (Some loaded_proj_path) in
  let v := {| mp := mp v; layers := layers v; editable := editable v;
              layers_by_prov := layers_by_prov v; issues := issues v;
              qgis_files := qgis_files v; qgis_proj := qgis_proj v;
              qgis_proj_path := Some path; qgis_proj_dir := qgis_proj_dir v |} in
  if negb is_loaded then
    Ok (is_loaded, append_issue (MultipleLayersWarning PROJ_NOT_LOADED []) v)
  else
    Ok (is_loaded,
        {| mp := mp v; layers := layers v; editable := editable v;
           layers_by_prov := layers_by_prov v; issues := issues v;
           qgis_files := qgis_files v; qgis_proj := Some (QgsProject_instance h);
           qgis_proj_path := qgis_proj_path v; qgis_proj_dir := qgis_proj_dir v |}).

Definition check_proj_paths_relative (v : MerginProjectValidator)
  : result MerginProjectValidator :=
  proj ← attr (qgis_proj v);
  let '(abs_paths, ok) := readEntry proj "Paths" "/Absolute" in
  if negb ok then Raise AssertionError
  else if negb (bool_decide (abs_paths = "false"%string)) then
    Ok (append_issue (MultipleLayersWarning ABSOLUTE_PATHS []) v)
  else Ok v.

(** [caps & AddFeatures or caps & ChangeAttributeValues], as a truth
    value. *)
Definition can_edit (caps : Z) : bool :=
  negb (bool_decide (Z.land caps AddFeatures = 0))
  || negb (bool_decide (Z.land caps ChangeAttributeValues = 0)).

Definition get_proj_layers (v : MerginProjectValidator) : result MerginProjectValidator :=
  proj ← attr (qgis_proj v);
  let layers := mapLayers proj in
  '(editable, by_prov) ←
    for_ layers
      (fun '(lid, layer) '(editable, by_prov) =>
         match dataProvider layer with
         | None => Ok (editable, by_prov)                         (* continue *)
         | Some dp =>
             let '(l, by_prov) := defaultdict_getitem (provider_name dp) by_prov in
             let by_prov := <[provider_name dp := l ++ [lid]]> by_prov in
             if bool_decide (type layer = VectorLayer) then
               if can_edit (capabilities dp)
               then Ok (editable ++ [id layer], by_prov)
               else Ok (editable, by_prov)
             else Ok (editable, by_prov)
         end)
      ([], layers_by_prov v);
  let v := {| mp := mp v; layers := Some layers; editable := Some editable;
              layers_by_prov := by_prov; issues := issues v;
              qgis_files := qgis_files v; qgis_proj := qgis_proj v;
              qgis_proj_path := qgis_proj_path v; qgis_proj_dir := qgis_proj_dir v |} in
  if bool_decide (length editable = 0)%nat then
    Ok (append_issue (MultipleLayersWarning NO_EDITABLE_LAYERS []) v)
  else Ok v.

Definition check_editable_vectors_format (v : MerginProjectValidator)
  : result MerginProjectValidator :=
  layers ← attr (layers v);
  issues ←
    for_ layers
      (fun '(lid, layer) issues =>
         editable ← operand (editable v);
         if negb (bool_decide (lid ∈ editable)) then Ok issues    (* continue *)
         else
           dp ← attr (dataProvider layer);
           if negb (bool_decide (storageType dp = "GPKG"%string)) then
             Ok (issues ++ [SingleLayerWarning lid EDITABLE_NON_GPKG])
           else Ok issues)
      (issues v);
  Ok (set_issues issues v).

(** The directory part of a layer's source, as the validator extracts
    it. *)
Definition layer_dir (layer : QgsMapLayer) : string :=
  let pub_src := publicSource layer in
  let l_path :=
    if startswith "GPKG:" pub_src then
      let pub_src := slice_from 5 pub_src in
      slice_to (rfind ":"%char pub_src) pub_src
    else split_head "|"%char (publicSource layer) in
  os_path_dirname h l_path.

Definition check_saved_in_proj_dir (v : MerginProjectValidator)
  : result MerginProjectValidator :=
  layers ← attr (layers v);
  '(by_prov, issues) ←
    for_ layers
      (fun '(lid, layer) '(by_prov, issues) =>
         let '(gdal, by_prov) := defaultdict_getitem "gdal" by_prov in
         let '(ogr, by_prov) := defaultdict_getitem "ogr" by_prov in
         if negb (bool_decide (lid ∈ gdal ++ ogr)) then Ok (by_prov, issues) (* continue *)
         else
           let l_dir := layer_dir layer in
           if negb (same_dir h (Some l_dir) (qgis_proj_dir v)) then
             Ok (by_prov, issues ++ [SingleLayerWarning lid EXTERNAL_SRC])
           else Ok (by_prov, issues))
      (layers_by_prov v, issues v);
  Ok {| mp := mp v; layers := Validation.layers v; editable := editable v;
        layers_by_prov := by_prov; issues := issues;
        qgis_files := qgis_files v; qgis_proj := qgis_proj v;
        qgis_proj_path := qgis_proj_path v; qgis_proj_dir := qgis_proj_dir v |}.

Definition check_offline (v : MerginProjectValidator) : result MerginProjectValidator :=
  layers ← attr (layers v);
  w_layers ←
    for_ layers
      (fun '(lid, layer) w_layers =>
         match dataProvider layer with
         | None => Ok w_layers            (* AttributeError caught: continue *)
         | Some dp =>
             if bool_decide (provider_name dp ∈ QGIS_NET_PROVIDERS ++ QGIS_DB_PROVIDERS)
             then Ok (w_layers ++ [lid])
             else Ok w_layers
         end)
      [];
  match w_layers with
  | [] => Ok v
  | _ => Ok (append_issue (MultipleLayersWarning NOT_FOR_OFFLINE w_layers) v)
  end.

(** A string argument of a library call. *)
Definition as_str (x : value) : result string :=
  match x with
  | VStr s => Ok s
  | _ => Raise TypeError
  end.

(** The body of the loop over the fields of one layer. *)
Definition check_widget (lid : string) (ws : option QgsEditorWidgetSetup)
    (issues : list Issue) : result (list Issue) :=
  match ws with
  | None => Ok issues
  | Some ws =>
      if negb (bool_decide (widget_type ws = "ExternalResource"%string)) then Ok issues
      else
        let cfg := config ws in
        (* check for relative paths *)
        rel ← getitem cfg "RelativeStorage";
        let issues :=
          if eq_zero rel then issues ++ [SingleLayerWarning lid ATTACHMENT_ABSOLUTE_PATH]
          else issues in
        if contains cfg "DefaultRoot" then
          (* default root should not be set to the local path *)
          root ← getitem cfg "DefaultRoot";
          root ← as_str root;
          let issues :=
            if os_path_isabs h root
            then issues ++ [SingleLayerWarning lid ATTACHMENT_LOCAL_PATH]
            else issues in
          (* expression-based path should be set with the data-defined override *)
          let issues :=
            if QgsExpression_isValid h root
            then issues ++ [SingleLayerWarning lid ATTACHMENT_EXPRESSION_PATH]
            else issues in
          (* using hyperlinks for document path is not allowed *)
          let issues :=
            if contains cfg "UseLink"
            then issues ++ [SingleLayerWarning lid ATTACHMENT_HYPERLINK]
            else issues in
          Ok issues
        else Ok issues
  end.

Definition check_attachment_widget (v : MerginProjectValidator)
  : result MerginProjectValidator :=
  layers ← attr (layers v);
  issues ←
    for_ layers
      (fun '(lid, layer) issues =>
         editable ← operand (editable v);
         if negb (bool_decide (lid ∈ editable)) then Ok issues    (* continue *)
         else for_ (editorWidgetSetups layer) (check_widget lid) issues)
      (issues v);
  Ok (set_issues issues v).

Definition check_db_schema (v : MerginProjectValidator) : result MerginProjectValidator :=
  layers ← attr (layers v);
  issues ←
    for_ layers
      (fun '(lid, layer) issues =>
         editable ← operand (editable v);
         if negb (bool_decide (lid ∈ editable)) then Ok issues    (* continue *)
         else
           dp ← attr (dataProvider layer);
           if bool_decide (storageType dp = "GPKG"%string) then
             let '(has_change, msg) := has_schema_change h (mp v) layer in
             if negb has_change then
               Ok (issues ++ [SingleLayerWarning lid DATABASE_SCHEMA_CHANGE])
             else Ok issues
           else Ok issues)
      (issues v);
  Ok (set_issues issues v).

(** [run_checks] returns [self.issues]; the validator it leaves behind
    is returned with it. *)
Definition run_checks (v : MerginProjectValidator)
  : result (list Issue * MerginProjectValidator) :=
  let proj_dir :=
    match mp v with
    | None =>
        (* preliminary check for current QGIS project, no Mergin project created yet *)
        absolutePath (QgsProject_instance h)
    | Some p => dir p
    end in
  let v := {| mp := mp v; layers := layers v; editable := editable v;
              layers_by_prov := layers_by_prov v; issues := issues v;
              qgis_files := qgis_files v; qgis_proj := qgis_proj v;
              qgis_proj_path := qgis_proj_path v; qgis_proj_dir := Some proj_dir |} in
  let '(single, v) := check_single_proj proj_dir v in
  if negb single then Ok (issues v, v)
  else
    '(loaded, v) ← check_proj_loaded v;
    if negb loaded then Ok (issues v, v)
    else
      v ← get_proj_layers v;
      v ← check_proj_paths_relative v;
      v ← check_saved_in_proj_dir v;
      v ← check_editable_vectors_format v;
      v ← check_offline v;
      v ← check_attachment_widget v;
      v ← check_db_schema v;
      Ok (issues v, v).

End Checks.

End Validation.

(** ** Notions used to state the properties *)

Module Notions.
Import History Validation.

Section Ledger.
Variable int_version : string -> option Z.

(** The version numbers of a sequence of versions, when every name has one. *)
Fixpoint numbers (vs : list Version) : option (list Z) :=
  match vs with
  | [] => Some []
  | v :: vs' =>
      match int_version (name v), numbers vs' with
      | Some n, Some ns => Some (n :: ns)
      | _, _ => None
      end
  end.

(** Each number is greater than the next one. *)
Fixpoint descending (ns : list Z) : bool :=
  match ns with
  | a :: (b :: _) as rest => bool_decide (b < a) && descending rest
  | _ => true
  end.

(** Each number is less than the next one. *)
Fixpoint ascending (ns : list Z) : bool :=
  match ns with
  | a :: (b :: _) as rest => bool_decide (a < b) && ascending rest
  | _ => true
  end.

Fixpoint minimum (ns : list Z) : option Z :=
  match ns with
  | [] => None
  | n :: rest =>
      match minimum rest with
      | None => Some n
      | Some m => Some (Z.min n m)
      end
  end.

(** The ledger after a sequence of [add_versions] calls. *)
Definition add_all (pages : list (list Version)) (m : VersionsTableModel)
  : VersionsTableModel :=
  foldl (fun m page => add_versions page m) m pages.

(** The upper bound [to] that [run] computes before it asks for a page. *)
Definition upper_bound (self : VersionsFetcher) (model : VersionsTableModel) : option Z :=
  match versions model with
  | [] =>
      match fetcher_mc self with
      | Some mc =>
          match project_info mc (fetcher_project_name self) with
          | Ok info => int_version (version info)
          | Raise _ => None
          end
      | None => None
      end
  | _ => oldest_version int_version model
  end.

End Ledger.

(** No thread other than the one [self.fetcher] refers to is running. *)
Definition only_current_runs (w : World) : Prop :=
  forall i t, threads w !! i = Some t -> isRunning t = true -> fetcher (dock w) = Some i.

(** *** The validator *)

(** The directory a validator built for [mergin_project] looks at. *)
Definition target_dir (h : Host) (mergin_project : option MerginProject) : string :=
  match mergin_project with
  | None => absolutePath (QgsProject_instance h)
  | Some p => dir p
  end.

(** The directory holds one project file and QGIS has it open. *)
Definition loaded (h : Host) (mergin_project : option MerginProject) : Prop :=
  exists path,
    find_qgis_files h (target_dir h mergin_project) = [path]
    /\ same_dir h (Some path) (Some (absoluteFilePath (QgsProject_instance h))) = true.

(** A vector layer whose provider can add features or change attribute
    values. *)
Definition is_editable (layer : QgsMapLayer) : bool :=
  match dataProvider layer with
  | Some dp => bool_decide (type layer = VectorLayer) && can_edit (capabilities dp)
  | None => false
  end.

Definition is_gpkg (layer : QgsMapLayer) : bool :=
  match dataProvider layer with
  | Some dp => bool_decide (storageType dp = "GPKG"%string)
  | None => false
  end.

Definition editable_ids (ls : list (string * QgsMapLayer)) : list string :=
  omap (fun '(lid, layer) => if is_editable layer then Some (id layer) else None) ls.

(** A widget configuration on which [check_widget] does not raise: an
    attachment widget has the key RelativeStorage, and its DefaultRoot, when
    present, is a string. *)
Definition widget_ok (ws : option QgsEditorWidgetSetup) : Prop :=
  match ws with
  | None => True
  | Some ws =>
      widget_type ws = "ExternalResource"%string ->
      is_Some (config ws !! "RelativeStorage"%string)
      /\ forall x, config ws !! "DefaultRoot"%string = Some x -> exists s, x = VStr s
  end.

(** The project as QGIS hands it out: the layer map is keyed by layer id,
    the entry Paths/Absolute can be read, the attachment widgets are
    configured as above. *)
Record well_formed (h : Host) : Prop := {
  wf_keys : NoDup (map fst (mapLayers (QgsProject_instance h)));
  wf_ids : Forall (fun '(lid, layer) => lid = id layer) (mapLayers (QgsProject_instance h));
  wf_entry : snd (readEntry (QgsProject_instance h) "Paths" "/Absolute") = true;
  wf_widgets : Forall (fun '(_, layer) => Forall widget_ok (editorWidgetSetups layer))
                      (mapLayers (QgsProject_instance h)) }.

(** The warning an issue stands for. *)
Definition kind (i : Issue) : Warning :=
  match i with
  | MultipleLayersWarning w _ => w
  | SingleLayerWarning _ w => w
  end.

(** The warnings of the checks that come before the attachment-widget
    check. *)
Definition early (i : Issue) : Prop :=
  kind i ∈ [NO_EDITABLE_LAYERS; ABSOLUTE_PATHS; EXTERNAL_SRC; EDITABLE_NON_GPKG;
            NOT_FOR_OFFLINE].

(** What [check_widget] appends for one field. *)
Definition widget_issues (h : Host) (lid : string) (ws : option QgsEditorWidgetSetup)
  : list Issue :=
  match check_widget h lid ws [] with
  | Ok l => l
  | Raise _ => []
  end.

Definition attachment_issues (h : Host) (ls : list (string * QgsMapLayer))
    (ed : list string) : list Issue :=
  flat_map (fun '(lid, layer) =>
              if bool_decide (lid ∈ ed)
              then flat_map (widget_issues h lid) (editorWidgetSetups layer)
              else []) ls.

Definition schema_issues (h : Host) (mergin_project : option MerginProject)
    (ls : list (string * QgsMapLayer)) (ed : list string) : list Issue :=
  flat_map (fun '(lid, layer) =>
              if bool_decide (lid ∈ ed) && is_gpkg layer
                 && negb (fst (has_schema_change h mergin_project layer))
              then [SingleLayerWarning lid DATABASE_SCHEMA_CHANGE]
              else []) ls.

(** No check after the single-project check has left a trace in the
    validator. *)
Definition stopped_early (v : MerginProjectValidator) : Prop :=
  qgis_proj_path v = None /\ qgis_proj v = None /\ layers v = None
  /\ editable v = None /\ layers_by_prov v = ∅.

(** [v'] is [v] with [new] appended to its issue list, and perhaps other
    providers recorded: the fields the checks read are the same. *)
Definition extends (v v' : MerginProjectValidator) (new : list Issue) : Prop :=
  mp v' = mp v /\ layers v' = layers v /\ editable v' = editable v
  /\ qgis_proj v' = qgis_proj v /\ qgis_proj_dir v' = qgis_proj_dir v
  /\ issues v' = issues v ++ new.

(** The issue list of a run, or the exception that ended it. *)
Definition issue_list (r : result (list Issue * MerginProjectValidator))
  : result (list Issue) :=
  match r with
  | Ok (l, _) => Ok l
  | Raise e => Raise e
  end.

(** The warnings of the attachment-widget check. *)
Definition attachment_kinds : list Warning :=
  [ATTACHMENT_ABSOLUTE_PATH; ATTACHMENT_LOCAL_PATH; ATTACHMENT_EXPRESSION_PATH;
   ATTACHMENT_HYPERLINK].


End Notions.

(** ** Sample data *)

Module Samples.
Import History Validation.

Definition digit (c : Ascii.ascii) : option Z :=
  let n := Z.of_nat (nat_of_ascii c) in
  if bool_decide (48 <= n) && bool_decide (n <= 57) then Some (n - 48) else None.

Fixpoint decimal (s : string) (acc : Z) : option Z :=
  match s with
  | EmptyString => Some acc
  | String c s' =>
      match digit c with
      | Some d => decimal s' (10 * acc + d)
      | None => None
      end
  end.

(** A stand-in for [int_version] of the client library ([mergin.utils]),
    which is not part of these sources; it is used for the sample data only.
    A version name is the letter v followed by the decimal number of the
    version. *)
Definition int_version (s : string) : option Z :=
  match s with
  | String "v" (String c rest) => decimal (String c rest) 0
  | _ => None
  end.

Definition ver (n : string) : Version :=
  {| name := n; author := Some "martin"%string;
     created := Some "2023-05-02T10:11:12Z"%string |}.

(** A server that holds versions v1 to v3 of every project. *)
Definition server : MerginClient :=
  {| project_info := fun _ => Ok {| version := "v3" |};
     project_versions := fun _ since to =>
       Ok (List.filter (fun v => match int_version (name v) with
                                 | Some n => bool_decide (since <= n <= to)
                                 | None => false
                                 end) [ver "v1"; ver "v2"; ver "v3"]);
     workspace_usage := fun _ => Ok {| view_history_allowed := true |} |}.

Definition ledger (vs : list Version) : VersionsTableModel :=
  {| versions := vs; current_version := Some "v3"%string;
     headers := headers VersionsTableModel_init; notified := [] |}.

Definition worker : VersionsFetcher := VersionsFetcher_init (Some server) "org/survey".

Definition project : MerginProject :=
  {| dir := "/home/anna/survey"; mp_version := "v3";
     project_full_name := "org/survey"; workspace_id := Ok 7 |}.

Definition dock_host : DockHost :=
  {| mergin_project_local_path := Some "/home/anna/survey"%string;
     check_mergin_subdirs := fun _ => true;
     MerginProject_open := fun _ => project |}.

(** A host in the manner of a POSIX system. *)
Definition splitext (f : string) : string * string :=
  let i := rfind "."%char f in
  if bool_decide (i <= 0) then (f, ""%string)
  else (slice_to i f, slice_from (Z.to_nat i) f).

Definition dirname (p : string) : string :=
  let i := rfind "/"%char p in
  if bool_decide (i < 0) then ""%string
  else if bool_decide (i = 0) then "/"%string
  else slice_to i p.

Definition attachment (cfg : list (string * value)) : option QgsEditorWidgetSetup :=
  Some {| widget_type := "ExternalResource"; config := list_to_map cfg |}.

Definition text_edit : option QgsEditorWidgetSetup :=
  Some {| widget_type := "TextEdit"; config := ∅ |}.

Definition ogr_gpkg : QgsDataProvider :=
  {| provider_name := "ogr"; capabilities := 7; storageType := "GPKG" |}.

Definition points : QgsMapLayer :=
  {| id := "points_1"; type := VectorLayer; dataProvider := Some ogr_gpkg;
     publicSource := "/home/anna/survey/data.gpkg|layername=points";
     editorWidgetSetups :=
       [text_edit;
        attachment [("RelativeStorage"%string, VInt 0);
                    ("DefaultRoot"%string, VStr "/srv/photos");
                    ("UseLink"%string, VBool false)]] |}.

Definition roads : QgsMapLayer :=
  {| id := "roads_1"; type := VectorLayer; dataProvider := Some ogr_gpkg;
     publicSource := "/home/anna/survey/data.gpkg|layername=roads";
     editorWidgetSetups :=
       [attachment [("RelativeStorage"%string, VInt 1); ("UseLink"%string, VBool true)]] |}.

Definition basemap : QgsMapLayer :=
  {| id := "osm_1"; type := RasterLayer;
     dataProvider := Some {| provider_name := "wms"; capabilities := 0; storageType := "" |};
     publicSource := "type=xyz&url=https://tile.openstreetmap.org";
     editorWidgetSetups := [] |}.

Definition qgis_project : QgsProject :=
  {| absolutePath := "/home/anna/survey";
     absoluteFilePath := "/home/anna/survey/survey.qgz";
     readEntry := fun _ _ => ("false"%string, true);
     mapLayers := [("osm_1"%string, basemap); ("points_1"%string, points);
                   ("roads_1"%string, roads)] |}.

(** The directory of the survey project, with the files listed in it; the
    schema of the layer points_1 has changed since the last synchronization,
    that of roads_1 has not. *)
Definition host (files : list string) : Host :=
  {| QgsProject_instance := qgis_project;
     os_walk := fun d => if bool_decide (d = "/home/anna/survey"%string)
                         then [(d, [], files)] else [];
     os_path_splitext := splitext;
     os_path_join := fun a b => a +:+ "/" +:+ b;
     os_path_isabs := startswith "/";
     os_path_dirname := dirname;
     Path_eq := String.eqb;
     QgsExpression_isValid := fun s => bool_decide (s ∈ ["@project_folder"; "/srv/photos"]%string);
     has_schema_change := fun _ layer =>
       if bool_decide (id layer = "points_1"%string)
       then (true, "Fields changed"%string)
       else (false, "No schema changes"%string) |}.

Definition survey : Host := host ["survey.qgz"; "data.gpkg"; "notes.txt"]%string.

End Samples.

(** ** More of [utils.py] *)

Module Utils.
Import History Validation.

Definition QGIS_MESH_PROVIDERS : list string := ["mdal"; "mesh_memory"]%string.
Definition QGIS_FILE_BASED_PROVIDERS : list string :=
  ["ogr"; "gdal"; "spatialite"; "delimitedtext"; "gpx"; "mdal"; "grass"; "grassraster"]%string.
Definition PACKABLE_PROVIDERS : list string :=
  ["ogr"; "gdal"; "delimitedtext"; "gpx"; "postgres"; "memory"]%string.

(** [s.split(c)] for a one-character separator. *)
Fixpoint split (c : Ascii.ascii) (s : string) : list string :=
  match s with
  | EmptyString => [EmptyString]
  | String a s' =>
      if bool_decide (a = c) then EmptyString :: split c s'
      else match split c s' with
           | w :: ws => String a w :: ws
           | [] => [String a EmptyString]
           end
  end.

(** [s.endswith(suffix)] *)
Definition endswith (suffix s : string) : bool :=
  let n := String.length s in
  let m := String.length suffix in
  bool_decide (m <= n)%nat && String.eqb (String.substring (n - m) m s) suffix.

(** What the plugin reads from the desktop besides the QGIS project: the
    settings group Mergin/localProjects (its keys in the order of
    [allKeys], with their values), the file system, the file dialogs and
    [str.format]. *)
Record Desktop : Type := {
  qgis : Host;
  local_projects : list (string * string);
  os_path_exists : string -> bool;
  os_path_isfile : string -> bool;
  os_path_abspath : string -> string;
  getExistingDirectory : string;        (* the directory the user picks, empty on cancel *)
  getSaveFileName : string;             (* the file the user picks, empty on cancel *)
  str_format : string -> nat -> result string; (* [template.format(i)], which may raise *)
  QGIS_VERSION_INT : Z }.

(** [settings.value(key)] inside the group. *)
Definition settings_value (d : Desktop) (key : string) : option string :=
  (fun r => snd (snd r)) <$> list_find (fun kv => fst kv = key) (local_projects d).

Definition get_qgis_version_str (d : Desktop) : string :=
  let qgis_ver_int := QGIS_VERSION_INT d in
  let qgis_ver_major := qgis_ver_int `div` 10000 in
  let qgis_ver_minor := (qgis_ver_int `mod` 10000) `div` 100 in
  let qgis_ver_patch := qgis_ver_int `mod` 100 in
  pretty qgis_ver_major +:+ "." +:+ pretty qgis_ver_minor +:+ "." +:+ pretty qgis_ver_patch.

Definition get_new_qgis_project_filepath (d : Desktop) (project_name : option string)
  : option string :=
  let project_file :=
    match project_name with
    | Some name => os_path_abspath d (os_path_join (qgis d) (getExistingDirectory d) name)
    | None => getSaveFileName d
    end in
  if negb (bool_decide (project_file = ""%string)) then
    if negb (endswith ".qgs" project_file || endswith ".qgz" project_file)
    then Some (project_file +:+ ".qgz")
    else Some project_file
  else None.

(** The loop of [get_unique_filename]: the first index from [i] on whose
    candidate is not a file, or the exception that [format] raises on the
    way; [None] when the fuel runs out first. *)
Fixpoint first_free (isfile : string -> bool) (candidate : nat -> result string)
    (fuel i : nat) : option (result nat) :=
  match fuel with
  | O => None
  | S fuel' =>
      match candidate i with
      | Ok name => if isfile name then first_free isfile candidate fuel' (S i) else Some (Ok i)
      | Raise e => Some (Raise e)
      end
  end.

(** [None] when the fuel runs out; otherwise the name returned or the
    exception of [format]. *)
Definition get_unique_filename (d : Desktop) (fuel : nat) (filename : string)
  : option (result string) :=
  if negb (os_path_exists d filename)
     && os_path_exists d (os_path_dirname (qgis d) filename)
  then Some (Ok filename)
  else
    let '(file_path_name, ext) := os_path_splitext (qgis d) filename in
    let new_filename := file_path_name +:+ "_{}" +:+ ext in
    match first_free (os_path_isfile d) (str_format d new_filename) fuel 0%nat with
    | None => None
    | Some (Raise e) => Some (Raise e)
    | Some (Ok i) => Some (str_format d new_filename i)
    end.

Definition is_layer_packable (layer : QgsMapLayer) : result bool :=
  dp ← attr (dataProvider layer);
  let provider_name := provider_name dp in
  if bool_decide (provider_name ∈ QGIS_DB_PROVIDERS) then
    Ok (bool_decide (type layer = VectorLayer))
  else Ok (bool_decide (provider_name ∈ PACKABLE_PROVIDERS)).

Definition find_packable_layers (d : Desktop) (qgis_project : option QgsProject)
  : result (list string) :=
  let qgis_project :=
    match qgis_project with
    | None => QgsProject_instance (qgis d)
    | Some p => p
    end in
  for_ (mapLayers qgis_project)
    (fun '(lid, layer) (packable : list string) =>
       b ← is_layer_packable layer;
       if b : bool then Ok (packable ++ [lid]) else Ok packable)
    [].

Definition get_local_mergin_projects_info (d : Desktop)
  : result (list (string * string * string)) :=
  for_ (map fst (local_projects d))
    (fun key (local_projects_info : list (string * string * string)) =>
       (* Expecting key in the following form: '<namespace>/<project_name>/path' *)
       let key_parts := split "/" key in
       if bool_decide (2 < length key_parts)%nat
          && bool_decide (key_parts !! 2%nat = Some "path"%string) then
         local_path ← operand (settings_value d key);
         (* double check if the path exists - it might get deleted manually *)
         if negb (os_path_exists d local_path) then Ok local_projects_info
         else
           owner ← match key_parts !! 0%nat with Some x => Ok x | None => Raise IndexError end;
           name ← match key_parts !! 1%nat with Some x => Ok x | None => Raise IndexError end;
           Ok (local_projects_info ++ [(local_path, owner, name)])
       else Ok local_projects_info)
    [].

(** The [for] loop with a [return] in it: the first registered project whose
    directory is the directory of the QGIS project. *)
Fixpoint first_same_dir (d : Desktop) (qgis_project_path : string)
    (infos : list (string * string * string)) : option string :=
  match infos with
  | [] => None
  | (local_path, _, _) :: rest =>
      if same_dir (qgis d) (Some local_path) (Some qgis_project_path)
      then Some qgis_project_path
      else first_same_dir d qgis_project_path rest
  end.

Definition mergin_project_local_path (d : Desktop) (project_name : option string)
  : result (option string) :=
  match project_name with
  | Some name =>
      let proj_path := settings_value d (name +:+ "/path") in
      match proj_path with
      | Some p =>
          if negb (bool_decide (p = ""%string)) then
            (* check local project dir was not unintentionally removed *)
            if negb (os_path_exists d p) then Ok None else Ok proj_path
          else Ok proj_path
      | None => Ok None
      end
  | None =>
      let qgis_project_path := absolutePath (QgsProject_instance (qgis d)) in
      if bool_decide (qgis_project_path = ""%string) then Ok None
      else
        infos ← get_local_mergin_projects_info d;
        Ok (first_same_dir d qgis_project_path infos)
  end.

(** The dock's view of the desktop: [mergin_project_local_path()] as
    [utils.py] computes it. *)
Definition dock_host (d : Desktop) (subdirs : string -> bool)
    (open_project : string -> MerginProject) : result DockHost :=
  path ← mergin_project_local_path d None;
  Ok {| History.mergin_project_local_path := path;
        check_mergin_subdirs := subdirs;
        MerginProject_open := open_project |}.

End Utils.

(** ** The messages of the warnings ([validation.py]) *)

Module Display.
Import Validation.

(** The links that [MerginHelp] supplies. *)
Record MerginHelp : Type := {
  howto_background_maps : string;
  howto_attachment_widget : string }.

Definition warning_display_string (help_mgr : MerginHelp) (warning_id : Warning) : string :=
  match warning_id with
  | PROJ_NOT_LOADED => "The QGIS project is not loaded. Open it to allow validation"
  | PROJ_NOT_FOUND => "No QGIS project found in the directory"
  | MULTIPLE_PROJS => "Multiple QGIS project files found in the directory"
  | ABSOLUTE_PATHS => "QGIS project saves layers using absolute paths"
  | EDITABLE_NON_GPKG => "Editable layer stored in a format other than GeoPackage"
  | EXTERNAL_SRC => "Layer stored out of the project directory"
  | NOT_FOR_OFFLINE =>
      "Layer might not be available when offline. <a href='"
        +:+ howto_background_maps help_mgr +:+ "'>Read more.</a>"
  | NO_EDITABLE_LAYERS => "No editable layers in the project"
  | ATTACHMENT_ABSOLUTE_PATH =>
      "Attachment widget uses absolute paths. <a href='"
        +:+ howto_attachment_widget help_mgr +:+ "'>Read more.</a>"
  | ATTACHMENT_LOCAL_PATH => "Attachment widget uses local path"
  | ATTACHMENT_EXPRESSION_PATH => "Attachment widget incorrectly uses expression-based path"
  | ATTACHMENT_HYPERLINK => "Attachment widget uses hyperlink"
  | DATABASE_SCHEMA_CHANGE => "Database schema was changed"
  end.

End Display.

(** ** The issue list of a run, part by part *)

Module Exact.
Import History Validation Notions.

(** The keys of the layers whose provider has the given name. *)
Definition provider_group (name : string) (ls : list (string * QgsMapLayer)) : list string :=
  omap (fun '(lid, layer) =>
          match dataProvider layer with
          | Some dp => if bool_decide (provider_name dp = name) then Some lid else None
          | None => None
          end) ls.

(** A layer read by GDAL or OGR. *)
Definition file_based (layer : QgsMapLayer) : bool :=
  match dataProvider layer with
  | Some dp => bool_decide (provider_name dp ∈ ["gdal"; "ogr"]%string)
  | None => false
  end.

(** A layer of a network or database provider. *)
Definition online (layer : QgsMapLayer) : bool :=
  match dataProvider layer with
  | Some dp => bool_decide (provider_name dp ∈ QGIS_NET_PROVIDERS ++ QGIS_DB_PROVIDERS)
  | None => false
  end.

Definition layers_issues (ls : list (string * QgsMapLayer)) : list Issue :=
  if bool_decide (length (editable_ids ls) = 0)%nat
  then [MultipleLayersWarning NO_EDITABLE_LAYERS []] else [].

Definition paths_issues (proj : QgsProject) : list Issue :=
  if negb (bool_decide (fst (readEntry proj "Paths" "/Absolute") = "false"%string))
  then [MultipleLayersWarning ABSOLUTE_PATHS []] else [].

Definition external_issues (h : Host) (group : list string) (proj_dir : option string)
    (ls : list (string * QgsMapLayer)) : list Issue :=
  flat_map (fun '(lid, layer) =>
              if bool_decide (lid ∈ group)
                 && negb (same_dir h (Some (layer_dir h layer)) proj_dir)
              then [SingleLayerWarning lid EXTERNAL_SRC] else []) ls.

Definition format_issues (ls : list (string * QgsMapLayer)) (ed : list string) : list Issue :=
  flat_map (fun '(lid, layer) =>
              if bool_decide (lid ∈ ed) && negb (is_gpkg layer)
              then [SingleLayerWarning lid EDITABLE_NON_GPKG] else []) ls.

Definition offline_layers (ls : list (string * QgsMapLayer)) : list string :=
  omap (fun '(lid, layer) => if online layer then Some lid else None) ls.

Definition offline_issues (ls : list (string * QgsMapLayer)) : list Issue :=
  match offline_layers ls with
  | [] => []
  | lids => [MultipleLayersWarning NOT_FOR_OFFLINE lids]
  end.

(** The issue list of a run on a loaded project, in the order of the
    checks. *)
Definition all_issues (h : Host) (mergin_project : option MerginProject) : list Issue :=
  let proj := QgsProject_instance h in
  let ls := mapLayers proj in
  let ed := editable_ids ls in
  layers_issues ls
  ++ paths_issues proj
  ++ external_issues h (provider_group "gdal" ls ++ provider_group "ogr" ls)
       (Some (target_dir h mergin_project)) ls
  ++ format_issues ls ed
  ++ offline_issues ls
  ++ attachment_issues h ls ed
  ++ schema_issues h mergin_project ls ed.

(** The same entries of the provider map, read with the default of a
    [defaultdict]. *)
Definition same_groups (bp bp' : gmap string (list string)) : Prop :=
  forall k, default [] (bp' !! k) = default [] (bp !! k).

(** The threads whose [run] has been executed. *)
Fixpoint entered_count (ts : list FetcherThread) : nat :=
  match ts with
  | [] => 0
  | t :: ts' => ((if entered t then 1 else 0) + entered_count ts')%nat
  end.

(** Deliveries, pages, list requests and executed workers are bounded by
    one another. *)
Definition bounded (w : World) : Prop :=
  (delivered w <= length (emitted (effects w)))%nat
  /\ (length (emitted (effects w)) <= length (list_requests (effects w)))%nat
  /\ (length (list_requests (effects w)) <= entered_count (threads w))%nat
  /\ (entered_count (threads w) <= length (threads w))%nat.

(** The [call_project_info] requests in a log. *)
Definition info_requests (log : list Effect) : list string :=
  omap (fun e => match e with call_project_info p => Some p | _ => None end) log.

(** A check that returns has kept the project data it was given and the
    issues it found there. *)
Definition keeps (v v' : MerginProjectValidator) : Prop :=
  mp v' = mp v /\ layers v' = layers v /\ editable v' = editable v
  /\ qgis_proj v' = qgis_proj v /\ qgis_proj_dir v' = qgis_proj_dir v
  /\ issues v `prefix_of` issues v'.

(** The part of the issue list in which the issues with a given warning
    are found. *)
Definition part_of (h : Host) (mergin_project : option MerginProject) (w : Warning)
  : list Issue :=
  let proj := QgsProject_instance h in
  let ls := mapLayers proj in
  let ed := editable_ids ls in
  match w with
  | NO_EDITABLE_LAYERS => layers_issues ls
  | ABSOLUTE_PATHS => paths_issues proj
  | EXTERNAL_SRC =>
      external_issues h (provider_group "gdal" ls ++ provider_group "ogr" ls)
        (Some (target_dir h mergin_project)) ls
  | EDITABLE_NON_GPKG => format_issues ls ed
  | NOT_FOR_OFFLINE => offline_issues ls
  | ATTACHMENT_ABSOLUTE_PATH | ATTACHMENT_LOCAL_PATH | ATTACHMENT_EXPRESSION_PATH
  | ATTACHMENT_HYPERLINK => attachment_issues h ls ed
  | DATABASE_SCHEMA_CHANGE => schema_issues h mergin_project ls ed
  | PROJ_NOT_LOADED | PROJ_NOT_FOUND | MULTIPLE_PROJS => []
  end.

(** [l'] is [l] with issues added at the end that all satisfy [P]. *)
Definition adds (P : Issue -> Prop) (l l' : list Issue) : Prop :=
  exists new, l' = l ++ new /\ Forall P new.

(** A field on which [check_widget] does not raise. *)
Definition passes (h : Host) (lid : string) (ws : option QgsEditorWidgetSetup) : Prop :=
  exists l, check_widget h lid ws [] = Ok l.


(** The same layers under every provider, counted or not more than once. *)
Definition same_members (bp bp' : gmap string (list string)) : Prop :=
  forall k x, x ∈ default [] (bp' !! k) <-> x ∈ default [] (bp !! k).


End Exact.

(** ** More sample data *)

Module MoreSamples.
Import History Validation Utils.

(** The sample host with another project open in QGIS. *)
Definition host_with (proj : QgsProject) : Host :=
  {| QgsProject_instance := proj;
     os_walk := os_walk Samples.survey;
     os_path_splitext := os_path_splitext Samples.survey;
     os_path_join := os_path_join Samples.survey;
     os_path_isabs := os_path_isabs Samples.survey;
     os_path_dirname := os_path_dirname Samples.survey;
     Path_eq := Path_eq Samples.survey;
     QgsExpression_isValid := QgsExpression_isValid Samples.survey;
     has_schema_change := has_schema_change Samples.survey |}.

(** A layer whose attachment widget has no RelativeStorage. *)
Definition photos : QgsMapLayer :=
  {| id := "photos_1"; type := VectorLayer; dataProvider := Some Samples.ogr_gpkg;
     publicSource := "/home/anna/survey/data.gpkg|layername=photos";
     editorWidgetSetups :=
       [Samples.attachment [("DefaultRoot"%string, VStr "@project_folder")]] |}.

(** The sample layer points_1 next to that layer. *)
Definition cluttered_project : QgsProject :=
  {| absolutePath := "/home/anna/survey";
     absoluteFilePath := "/home/anna/survey/survey.qgz";
     readEntry := fun _ _ => ("false"%string, true);
     mapLayers := [("photos_1"%string, photos); ("points_1"%string, Samples.points)] |}.



Definition broken_project : QgsProject :=
  {| absolutePath := "/home/anna/survey";
     absoluteFilePath := "/home/anna/survey/survey.qgz";
     readEntry := fun _ _ => ("false"%string, true);
     mapLayers := [("photos_1"%string, photos)] |}.

(** A shapefile kept outside the project directory, and a database table. *)
Definition parcels : QgsMapLayer :=
  {| id := "parcels_1"; type := VectorLayer;
     dataProvider :=
       Some {| provider_name := "ogr"; capabilities := 7; storageType := "ESRI Shapefile" |};
     publicSource := "/srv/cadastre/parcels.shp";
     editorWidgetSetups := [] |}.

Definition buildings : QgsMapLayer :=
  {| id := "buildings_1"; type := VectorLayer;
     dataProvider :=
       Some {| provider_name := "postgres"; capabilities := 0; storageType := "PostgreSQL" |};
     publicSource := "dbname='gis' table=buildings";
     editorWidgetSetups := [] |}.

Definition mixed_project : QgsProject :=
  {| absolutePath := "/home/anna/survey";
     absoluteFilePath := "/home/anna/survey/survey.qgz";
     readEntry := fun _ _ => ("true"%string, true);
     mapLayers := [("buildings_1"%string, buildings); ("osm_1"%string, Samples.basemap);
                   ("parcels_1"%string, parcels); ("points_1"%string, Samples.points)] |}.

Definition mixed : Host := host_with mixed_project.

(** The string holds a brace. *)
Fixpoint has_brace (s : string) : bool :=
  match s with
  | EmptyString => false
  | String a s' => bool_decide (a = "{"%char) || bool_decide (a = "}"%char) || has_brace s'
  end.

(** A desktop with two downloaded projects, one of them removed from the
    disk since. *)
Definition desktop : Desktop :=
  {| qgis := Samples.survey;
     local_projects := [("anna/survey/path"%string, "/home/anna/survey"%string);
                        ("org/roads/path"%string, "/home/anna/roads"%string)];
     os_path_exists := fun p => bool_decide (p ∈ ["/home/anna/survey"; "/home/anna";
                                                  "/home/anna/survey/survey.qgz";
                                                  "/home/anna/survey/export.gpkg";
                                                  "/home/anna/survey/export_0.gpkg"]%string);
     os_path_isfile := fun p => bool_decide (p ∈ ["/home/anna/survey/survey.qgz";
                                                  "/home/anna/survey/export.gpkg";
                                                  "/home/anna/survey/export_0.gpkg"]%string);
     os_path_abspath := fun p => p;
     getExistingDirectory := "/home/anna";
     getSaveFileName := "/home/anna/new project";
     str_format := fun template i =>
       (* a stand-in for [str.format] with one number: exact on the templates
          whose only braces are those of one pair, which is what the samples
          use; on the other templates with a brace Python raises KeyError,
          IndexError or ValueError, or formats the template when the braces
          are doubled, and the stand-in raises KeyError *)
       let k := Z.to_nat (rfind "{"%char template) in
       let before := String.substring 0 k template in
       let after := slice_from (k + 2) template in
       if bool_decide (String.substring k 2 template = "{}"%string)
          && negb (has_brace before) && negb (has_brace after)
       then Ok (before +:+ pretty i +:+ after)
       else Raise (KeyError template);
     QGIS_VERSION_INT := 32208 |}.

(** The same desktop when the directory of the open project is not among
    the registered ones. *)
Definition unregistered : Desktop :=
  {| qgis := qgis desktop;
     local_projects := [("anna/home/path"%string, "/home/anna"%string)];
     os_path_exists := os_path_exists desktop;
     os_path_isfile := os_path_isfile desktop;
     os_path_abspath := os_path_abspath desktop;
     getExistingDirectory := getExistingDirectory desktop;
     getSaveFileName := getSaveFileName desktop;
     str_format := str_format desktop;
     QGIS_VERSION_INT := QGIS_VERSION_INT desktop |}.

End MoreSamples.

(** ** Notions for the local projects registered in the settings *)

Module Registry.
Import History Validation Utils.

(** The character occurs in the string. *)
Fixpoint has_char (c : Ascii.ascii) (s : string) : bool :=
  match s with
  | EmptyString => false
  | String a s' => bool_decide (a = c) || has_char c s'
  end.

(** What a key of the settings group contributes to the list of local
    projects. *)
Definition local_project (d : Desktop) (key : string) : option (string * string * string) :=
  match split "/" key with
  | owner :: name :: part :: _ =>
      if bool_decide (part = "path"%string) then
        match settings_value d key with
        | Some local_path =>
            if os_path_exists d local_path then Some (local_path, owner, name) else None
        | None => None
        end
      else None
  | _ => None
  end.

(** The files of a directory tree that [find_qgis_files] keeps, with their
    paths. *)
Definition project_files (h : Host) (walk : list (string * list string * list string))
  : list string :=
  flat_map (fun '(root, _, files) =>
              map (os_path_join h root)
                (List.filter (fun f => bool_decide (snd (os_path_splitext h f)
                                                      ∈ [".qgs"; ".qgz"]%string)) files))
           walk.

(** The candidate names of [get_unique_filename]. *)
Definition candidate (d : Desktop) (filename : string) (i : nat) : result string :=
  str_format d (fst (os_path_splitext (qgis d) filename) +:+ "_{}"
                  +:+ snd (os_path_splitext (qgis d) filename)) i.

(** A layer that [is_layer_packable] accepts. *)
Definition packable (layer : QgsMapLayer) : bool :=
  match dataProvider layer with
  | Some dp =>
      if bool_decide (provider_name dp ∈ QGIS_DB_PROVIDERS)
      then bool_decide (type layer = VectorLayer)
      else bool_decide (provider_name dp ∈ PACKABLE_PROVIDERS)
  | None => false
  end.

(** A layer with a data provider. *)
Definition has_provider (layer : QgsMapLayer) : bool :=
  match dataProvider layer with
  | Some _ => true
  | None => false
  end.

End Registry.

(** Case analysis on membership in a list that is written out. *)
Ltac in_list H :=
  repeat (apply elem_of_cons in H as [H | H]; [try subst; try discriminate | ]);
  try (apply elem_of_nil in H; contradiction).

(** The attachment widgets of a project that is written out are configured
    as [widget_ok] asks. *)
Ltac widgets_ok :=
  repeat match goal with
         | |- Forall _ [] => apply Forall_nil_2
         | |- Forall _ (_ :: _) => apply Forall_cons_2
         | |- True => exact I
         | |- _ = _ -> _ =>
             let Ht := fresh in
             intros Ht;
             first [ discriminate Ht
                   | split;
                     [ eexists; reflexivity
                     | let Hx := fresh in
                       intros ? Hx; vm_compute in Hx;
                       first [ discriminate Hx
                             | injection Hx as <-; eexists; reflexivity ] ] ]
         | _ => progress cbn
         end.

(** ** Properties of the version history *)

Import History Validation Notions.

Section LedgerFacts.
Variable int_version : string -> option Z.

Lemma oldest_version_last (m : VersionsTableModel) :
  oldest_version int_version m = last (versions m) ≫= (fun v => int_version (name v)).
Proof.
  unfold oldest_version. destruct (versions m); reflexivity.
Qed.

Lemma canFetchMore_spec (m : VersionsTableModel) :
  canFetchMore int_version m = true <->
  oldest_version int_version m = None \/
  exists n, oldest_version int_version m = Some n /\ 1 <= n.
Proof.
  unfold canFetchMore. destruct (oldest_version int_version m) as [n|].
  - rewrite bool_decide_eq_true. split.
    + intros Hn. right. exists n. split; [reflexivity | lia].
    + intros [Hn | (k & Hk & Hle)]; [discriminate | ]. injection Hk as ->. lia.
  - split; [intros _; left; reflexivity | reflexivity].
Qed.

End LedgerFacts.

(** C2 (as the code has it).  When the oldest known version is the root
    version 1, [canFetchMore] still answers true: the test is [>= 1], so the
    ledger never reports that there is nothing older to fetch. *)
Theorem canFetchMore_at_root_version :
  forall (int_version : string -> option Z) (m : VersionsTableModel),
    oldest_version int_version m = Some 1 ->
    canFetchMore int_version m = true.
Proof.
  intros iv m H. apply canFetchMore_spec. right. exists 1. split; [exact H | lia].
Qed.

Lemma canFetchMore_at_root_version_witness :
  oldest_version Samples.int_version (Samples.ledger [Samples.ver "v2"; Samples.ver "v1"]) = Some 1
  /\ canFetchMore Samples.int_version (Samples.ledger [Samples.ver "v2"; Samples.ver "v1"]) = true.
Proof.
  split; [reflexivity | ].
  apply (canFetchMore_at_root_version Samples.int_version). reflexivity.
Defined.

(** *** The fetch window *)

Lemma window_since_cases (to : Z) :
  (to < 100 /\ window_since to = 1) \/
  (to = 100 /\ window_since to = 0) \/
  (100 < to /\ window_since to = to - 100).
Proof.
  unfold window_since. case_bool_decide; lia.
Qed.

(** The clamp agrees with [max(1, to - 100)] at every upper bound but 100. *)
Lemma window_since_max (to : Z) :
  window_since to = Z.max 1 (to - 100) <-> to <> 100.
Proof.
  destruct (window_since_cases to) as [[? ->] | [[? ->] | [? ->]]]; lia.
Qed.

Section RunFacts.
Variable int_version : string -> option Z.

(** What [run] does once its upper bound and the server's answer are known. *)
Lemma run_unfold (self : VersionsFetcher) (model : VersionsTableModel)
    (mc : MerginClient) (to : Z) (page : list Version) (log : list Effect) :
  fetcher_mc self = Some mc ->
  upper_bound int_version self model = Some to ->
  project_versions mc (fetcher_project_name self) (window_since to) to = Ok page ->
  exists pre,
    Forall (fun e => match e with
                     | finished_emit _ | call_project_versions _ _ _ => False
                     | _ => True
                     end) pre /\
    run int_version self model log =
      (log ++ pre ++ [call_project_versions (fetcher_project_name self) (window_since to) to;
                      finished_emit (rev page)], Ok tt).
Proof.
  intros Hmc Hto Hpage. unfold run, upper_bound in *. rewrite Hmc in *.
  destruct (versions model) as [|v0 vs] eqn:Hvs.
  - destruct (project_info mc (fetcher_project_name self)) as [info|] eqn:Hinfo;
      [ | discriminate].
    exists [logMessage ("len: " +:+ pretty 0%nat);
            call_project_info (fetcher_project_name self);
            logMessage "intit"].
    split; [repeat constructor | ].
    cbn [length]. rewrite bool_decide_eq_true_2 by reflexivity.
    unfold mbind, Worker_bind, effect, lift, mret, Worker_ret. cbn.
    rewrite Hinfo. cbn. rewrite Hto. cbn. rewrite Hpage. cbn.
    rewrite <- !app_assoc. reflexivity.
  - exists [logMessage ("len: " +:+ pretty (length (v0 :: vs)))].
    split; [repeat constructor | ].
    cbn [length]. rewrite bool_decide_eq_false_2 by discriminate.
    unfold mbind, Worker_bind, effect, lift, mret, Worker_ret. cbn.
    unfold oldest_version in *. rewrite Hvs in *. rewrite Hto. cbn.
    rewrite Hpage. cbn. rewrite <- !app_assoc. reflexivity.
Qed.

Lemma emitted_app (l1 l2 : list Effect) : emitted (l1 ++ l2) = emitted l1 ++ emitted l2.
Proof. unfold emitted. apply omap_app. Qed.

Lemma list_requests_app (l1 l2 : list Effect) :
  list_requests (l1 ++ l2) = list_requests l1 ++ list_requests l2.
Proof. unfold list_requests. apply omap_app. Qed.

Lemma quiet_prefix (pre : list Effect) :
  Forall (fun e => match e with
                   | finished_emit _ | call_project_versions _ _ _ => False
                   | _ => True
                   end) pre ->
  emitted pre = [] /\ list_requests pre = [].
Proof.
  unfold emitted, list_requests.
  induction 1 as [|e pre He _ [IH1 IH2]]; [split; reflexivity | ].
  destruct e; try contradiction; cbn; rewrite ?IH1, ?IH2; split; reflexivity.
Qed.

End RunFacts.

(** C3 (as the code has it).  A fetch whose upper bound is version 100 asks
    the server for the window since = 0, to = 100: the clamp to 1 is applied
    only when [to - 100] is negative, so the lower bound falls below 1 and
    differs from [max(1, to - 100)]. *)
Theorem run_window_at_100 :
  forall (int_version : string -> option Z) (self : VersionsFetcher)
         (model : VersionsTableModel) (mc : MerginClient) (page : list Version),
    fetcher_mc self = Some mc ->
    upper_bound int_version self model = Some 100 ->
    project_versions mc (fetcher_project_name self) 0 100 = Ok page ->
    list_requests (fst (run int_version self model [])) =
      [(fetcher_project_name self, 0, 100)]
    /\ 0 <> Z.max 1 (100 - 100).
Proof.
  intros iv self model mc page Hmc Hto Hpage.
  destruct (run_unfold iv self model mc 100 page [] Hmc Hto Hpage) as (pre & Hpre & ->).
  destruct (quiet_prefix pre Hpre) as [_ Hreq].
  cbn [fst]. rewrite app_nil_l, list_requests_app, Hreq. split; [reflexivity | lia].
Qed.

Lemma run_window_at_100_witness :
  list_requests (fst (run Samples.int_version Samples.worker
                          (Samples.ledger [Samples.ver "v100"]) [])) =
    [("org/survey"%string, 0, 100)]
  /\ 0 <> Z.max 1 (100 - 100).
Proof.
  apply (run_window_at_100 Samples.int_version Samples.worker
           (Samples.ledger [Samples.ver "v100"]) Samples.server
           [Samples.ver "v1"; Samples.ver "v2"; Samples.ver "v3"]);
    reflexivity.
Defined.

(** *** Order of version numbers *)

Section Order.
Variable int_version : string -> option Z.

Lemma numbers_app (l1 l2 : list Version) (ns : list Z) :
  numbers int_version (l1 ++ l2) = Some ns ->
  exists n1 n2,
    numbers int_version l1 = Some n1 /\ numbers int_version l2 = Some n2 /\ ns = n1 ++ n2.
Proof.
  revert ns. induction l1 as [|v l1 IH]; intros ns H; cbn in *.
  - exists [], ns. auto.
  - destruct (int_version (name v)) as [n|]; [ | discriminate].
    destruct (numbers int_version (l1 ++ l2)) as [ns'|] eqn:E; [ | discriminate].
    injection H as <-. destruct (IH ns' eq_refl) as (n1 & n2 & -> & H2 & ->).
    exists (n :: n1), n2. auto.
Qed.

Lemma numbers_snoc (l : list Version) (v : Version) (ns : list Z) (n : Z) :
  numbers int_version l = Some ns -> int_version (name v) = Some n ->
  numbers int_version (l ++ [v]) = Some (ns ++ [n]).
Proof.
  revert ns. induction l as [|u l IH]; intros ns Hl Hv; cbn in *.
  - injection Hl as <-. rewrite Hv. reflexivity.
  - destruct (int_version (name u)) as [k|]; [ | discriminate].
    destruct (numbers int_version l) as [ns'|]; [ | discriminate].
    injection Hl as <-. rewrite (IH ns' eq_refl Hv). reflexivity.
Qed.

Lemma numbers_rev (l : list Version) (ns : list Z) :
  numbers int_version l = Some ns -> numbers int_version (rev l) = Some (rev ns).
Proof.
  revert ns. induction l as [|v l IH]; intros ns H; cbn in *.
  - injection H as <-. reflexivity.
  - destruct (int_version (name v)) as [n|] eqn:Hn; [ | discriminate].
    destruct (numbers int_version l) as [ns'|]; [ | discriminate].
    injection H as <-. cbn. apply numbers_snoc; auto.
Qed.

Lemma numbers_last (l : list Version) (ns : list Z) :
  numbers int_version l = Some ns ->
  last l ≫= (fun v => int_version (name v)) = last ns.
Proof.
  revert ns. induction l as [|v l IH]; intros ns H.
  - injection H as <-. reflexivity.
  - cbn in H. destruct (int_version (name v)) as [n|] eqn:Hn; [ | discriminate].
    destruct (numbers int_version l) as [ns'|] eqn:Hl; [ | discriminate].
    injection H as <-. specialize (IH ns' eq_refl).
    destruct l as [|u l].
    + cbn in Hl. injection Hl as <-. cbn. exact Hn.
    + destruct ns' as [|k ns']; [ | exact IH].
      cbn in Hl. destruct (int_version (name u)); [ | discriminate].
      destruct (numbers int_version l); discriminate.
Qed.

End Order.

Lemma descending_cons (a : Z) (ns : list Z) :
  descending (a :: ns) = true -> descending ns = true.
Proof.
  destruct ns as [|b ns]; [reflexivity | ]. cbn. intros H.
  apply andb_true_iff in H. tauto.
Qed.

Lemma descending_app_l (n1 n2 : list Z) :
  descending (n1 ++ n2) = true -> descending n1 = true.
Proof.
  induction n1 as [|a n1 IH]; [reflexivity | ]. intros H.
  destruct n1 as [|b n1]; [reflexivity | ].
  cbn in H |- *. apply andb_true_iff in H as [Hab H].
  rewrite Hab. cbn. apply IH. exact H.
Qed.

Lemma descending_snoc (ns : list Z) (a b : Z) :
  descending (ns ++ [a]) = true -> b < a -> descending ((ns ++ [a]) ++ [b]) = true.
Proof.
  induction ns as [|c ns IH]; intros H Hba; cbn in *.
  - rewrite bool_decide_eq_true_2 by lia. reflexivity.
  - destruct ns as [|d ns]; cbn in *.
    + apply andb_true_iff in H as [-> _]. rewrite bool_decide_eq_true_2 by lia. reflexivity.
    + apply andb_true_iff in H as [-> H]. cbn. apply IH; assumption.
Qed.

Lemma minimum_le_head (a : Z) (l : list Z) (m : Z) :
  minimum (a :: l) = Some m -> m <= a.
Proof.
  cbn. destruct (minimum l); intros [= <-]; lia.
Qed.

(** In a descending sequence the last number is the least. *)
Lemma descending_minimum (ns : list Z) :
  descending ns = true -> minimum ns = last ns.
Proof.
  induction ns as [|a ns IH]; [reflexivity | ]. intros H.
  specialize (IH (descending_cons _ _ H)).
  destruct ns as [|b ns]; [reflexivity | ].
  cbn in H. apply andb_true_iff in H as [Hba _]. apply bool_decide_eq_true in Hba.
  change (last (a :: b :: ns)) with (last (b :: ns)). rewrite <- IH.
  change (minimum (a :: b :: ns)) with
    (match minimum (b :: ns) with None => Some a | Some m => Some (Z.min a m) end).
  destruct (minimum (b :: ns)) as [m|] eqn:E.
  - apply minimum_le_head in E. f_equal. lia.
  - cbn in E. destruct (minimum ns); discriminate.
Qed.

Lemma add_all_versions (pages : list (list Version)) (m : VersionsTableModel) :
  versions (add_all pages m) = versions m ++ concat pages.
Proof.
  revert m. induction pages as [|p pages IH]; intros m; cbn.
  - rewrite app_nil_r. reflexivity.
  - unfold add_all in IH. rewrite IH. cbn. rewrite app_assoc. reflexivity.
Qed.

(** C7.  Start from a ledger and append pages whose version numbers,
    read after those already in the ledger, are strictly decreasing.  Then
    after each call (after the first [k] pages, for every [k]) the rows of
    the ledger are the rows it started with followed by the versions of the
    pages inserted so far, in the order given; their numbers are the first
    numbers of the whole sequence, strictly descending; and
    [oldest_version] is the least of the numbers inserted so far. *)
Theorem add_versions_keeps_order :
  forall (int_version : string -> option Z) (m0 : VersionsTableModel)
         (pages : list (list Version)) (ns : list Z) (k : nat),
    numbers int_version (versions m0 ++ concat pages) = Some ns ->
    descending ns = true ->
    versions (add_all (take k pages) m0) = versions m0 ++ concat (take k pages)
    /\ exists ns_k later,
         numbers int_version (versions m0 ++ concat (take k pages)) = Some ns_k
         /\ ns = ns_k ++ later
         /\ descending ns_k = true
         /\ oldest_version int_version (add_all (take k pages) m0) = minimum ns_k.
Proof.
  intros iv m0 pages ns k Hns Hdesc.
  split; [apply add_all_versions | ].
  rewrite <- (take_drop k pages), concat_app, app_assoc in Hns.
  apply numbers_app in Hns as (n1 & n2 & H1 & _ & ->).
  exists n1, n2. split; [exact H1 | ]. split; [reflexivity | ].
  pose proof (descending_app_l _ _ Hdesc) as Hd1. split; [exact Hd1 | ].
  rewrite oldest_version_last, add_all_versions, (descending_minimum _ Hd1).
  apply numbers_last. exact H1.
Qed.

Lemma add_versions_keeps_order_witness :
  versions (add_all (take 2 [[Samples.ver "v9"; Samples.ver "v8"]; [Samples.ver "v7"];
                             [Samples.ver "v5"; Samples.ver "v2"]])
                    VersionsTableModel_init)
  = [Samples.ver "v9"; Samples.ver "v8"; Samples.ver "v7"]
  /\ exists ns_k later,
       numbers Samples.int_version [Samples.ver "v9"; Samples.ver "v8"; Samples.ver "v7"]
       = Some ns_k
       /\ [9; 8; 7; 5; 2] = ns_k ++ later
       /\ descending ns_k = true
       /\ oldest_version Samples.int_version
            (add_all (take 2 [[Samples.ver "v9"; Samples.ver "v8"]; [Samples.ver "v7"];
                              [Samples.ver "v5"; Samples.ver "v2"]])
                     VersionsTableModel_init) = minimum ns_k.
Proof.
  apply (add_versions_keeps_order Samples.int_version VersionsTableModel_init
           [[Samples.ver "v9"; Samples.ver "v8"]; [Samples.ver "v7"];
            [Samples.ver "v5"; Samples.ver "v2"]] [9; 8; 7; 5; 2] 2%nat);
    reflexivity.
Defined.

(** *** Delivery of a page *)

Lemma ascending_rev (ns : list Z) :
  ascending ns = true -> descending (rev ns) = true.
Proof.
  induction ns as [|a ns IH]; [reflexivity | ]. intros H.
  destruct ns as [|b ns]; [reflexivity | ].
  cbn in H. apply andb_true_iff in H as [Hab H]. apply bool_decide_eq_true in Hab.
  specialize (IH H). change (rev (a :: b :: ns)) with ((rev ns ++ [b]) ++ [a]).
  apply descending_snoc; assumption.
Qed.

(** C4.  When the upper bound of the window is known and the server
    answers the list-versions request with a page, [run] ends normally
    having sent that one request and having emitted [finished] exactly once,
    with the whole page in reverse order; a page in ascending order of
    version number is thereby delivered in descending order. *)
Theorem run_delivers_reversed_page :
  forall (int_version : string -> option Z) (self : VersionsFetcher)
         (model : VersionsTableModel) (mc : MerginClient) (to : Z) (page : list Version),
    fetcher_mc self = Some mc ->
    upper_bound int_version self model = Some to ->
    project_versions mc (fetcher_project_name self) (window_since to) to = Ok page ->
    snd (run int_version self model []) = Ok tt
    /\ emitted (fst (run int_version self model [])) = [rev page]
    /\ list_requests (fst (run int_version self model [])) =
         [(fetcher_project_name self, window_since to, to)]
    /\ forall ns, numbers int_version page = Some ns -> ascending ns = true ->
         numbers int_version (rev page) = Some (rev ns) /\ descending (rev ns) = true.
Proof.
  intros iv self model mc to page Hmc Hto Hpage.
  destruct (run_unfold iv self model mc to page [] Hmc Hto Hpage) as (pre & Hpre & ->).
  destruct (quiet_prefix pre Hpre) as [Hem Hreq].
  cbn [fst snd]. rewrite app_nil_l, emitted_app, list_requests_app, Hem, Hreq.
  repeat split; try reflexivity.
  - apply numbers_rev. assumption.
  - apply ascending_rev. assumption.
Qed.

Lemma run_delivers_reversed_page_witness :
  snd (run Samples.int_version Samples.worker (Samples.ledger []) []) = Ok tt
  /\ emitted (fst (run Samples.int_version Samples.worker (Samples.ledger []) [])) =
       [[Samples.ver "v3"; Samples.ver "v2"; Samples.ver "v1"]].
Proof.
  destruct (run_delivers_reversed_page Samples.int_version Samples.worker
              (Samples.ledger []) Samples.server 3
              [Samples.ver "v1"; Samples.ver "v2"; Samples.ver "v3"]
              eq_refl eq_refl eq_refl) as (H1 & H2 & _).
  split; [exact H1 | exact H2].
Defined.

(** If the worker raises, nothing has been emitted: a page is delivered
    whole or not at all. *)
Lemma run_raises_emits_nothing (int_version : string -> option Z)
    (self : VersionsFetcher) (model : VersionsTableModel) (e : exn) :
  snd (run int_version self model []) = Raise e ->
  emitted (fst (run int_version self model [])) = [].
Proof.
  unfold run, mbind, Worker_bind, effect, lift, mret, Worker_ret. cbn.
  case_bool_decide.
  - destruct (fetcher_mc self) as [mc|]; cbn; [ | reflexivity].
    destruct (project_info mc (fetcher_project_name self)); cbn; [ | reflexivity].
    destruct (int_version (version a)); cbn; [ | reflexivity].
    destruct (project_versions mc (fetcher_project_name self) _ _); cbn;
      [discriminate | reflexivity].
  - destruct (oldest_version int_version model); cbn; [ | reflexivity].
    destruct (fetcher_mc self) as [mc|]; cbn; [ | reflexivity].
    destruct (project_versions mc (fetcher_project_name self) _ _); cbn;
      [discriminate | reflexivity].
Qed.

(** *** One fetch at a time *)

Lemma running_thread_is_guarded (w : World) (i : nat) (t : FetcherThread) :
  only_current_runs w ->
  threads w !! i = Some t -> isRunning t = true ->
  fetcher_is_running w = true.
Proof.
  intros Inv Hi Hrun. unfold fetcher_is_running.
  rewrite (Inv i t Hi Hrun), Hi. exact Hrun.
Qed.

Lemma fetch_from_server_invariant (w w' : World) :
  only_current_runs w -> fetch_from_server w = Ok w' -> only_current_runs w'.
Proof.
  intros Inv. unfold fetch_from_server.
  destruct (fetcher_is_running w) eqn:Hguard.
  - intros [= <-]. exact Inv.
  - destruct (History.mp (dock w)) as [p|]; cbn; [ | discriminate].
    intros [= <-]. intros i t. cbn.
    destruct (decide (i < length (threads w))%nat) as [Hlt | Hge].
    + rewrite lookup_app_l by exact Hlt. intros Hi Hrun.
      rewrite (running_thread_is_guarded w i t Inv Hi Hrun) in Hguard. discriminate.
    + intros Hi _. apply lookup_lt_Some in Hi. rewrite length_app in Hi. cbn in Hi.
      f_equal. lia.
Qed.

Lemma init_invariant (host : DockHost) (client : option MerginClient) (w : World) :
  ProjectHistoryDockWidget_init host client = Ok w -> only_current_runs w.
Proof.
  assert (Hempty : forall d, only_current_runs
                     {| dock := d; threads := []; effects := []; delivered := 0 |}).
  { intros d i t Hi. cbn in Hi. rewrite lookup_nil in Hi. discriminate. }
  unfold ProjectHistoryDockWidget_init.
  destruct client as [c|]; [ | intros [= <-]; apply Hempty].
  cbn [project_path]. destruct (mergin_project_local_path host) as [path|];
    [ | intros [= <-]; apply Hempty].
  destruct (check_mergin_subdirs host path); cbn [negb];
    [ | intros [= <-]; apply Hempty].
  destruct (workspace_id (MerginProject_open host path)) as [ws_id | e].
  - destruct (workspace_usage c ws_id) as [usage|]; cbn; [ | discriminate].
    destruct (view_history_allowed usage); cbn [negb].
    + intros [= <-]. intros [|i] t Hi _; [reflexivity | ].
      cbn in Hi. discriminate.
    + intros [= <-]. apply Hempty.
  - destruct e; try discriminate. intros [= <-]. apply Hempty.
Qed.

Section Steps.
Variable int_version : string -> option Z.

Lemma step_invariant (w : World) (ev : Event) :
  only_current_runs w -> only_current_runs (step int_version w ev).
Proof.
  intros Inv. destruct ev as [ | maximum value | | i | i | ]; cbn.
  - destruct (fetch_from_server w) as [w'|] eqn:E; cbn; [ | exact Inv].
    eapply fetch_from_server_invariant; eassumption.
  - unfold on_scrollbar_changed. case_bool_decide; cbn; [ | exact Inv].
    destruct (fetch_from_server w) as [w'|] eqn:E; cbn; [ | exact Inv].
    eapply fetch_from_server_invariant; eassumption.
  - exact Inv.
  - destruct (threads w !! i) as [t|] eqn:Hi; [ | exact Inv].
    destruct (isRunning t && negb (entered t)) eqn:Hb; [ | exact Inv].
    apply andb_true_iff in Hb as [Hrun _].
    destruct (run int_version (thread_self t) (model (dock w)) (effects w)) as [log r].
    intros j u. cbn. destruct (decide (i = j)) as [<- | Hne].
    + intros _ _. exact (Inv i t Hi Hrun).
    + rewrite list_lookup_insert_ne by exact Hne. apply Inv.
  - destruct (threads w !! i) as [t|] eqn:Hi; [ | exact Inv].
    destruct (isRunning t && entered t) eqn:Hb; [ | exact Inv].
    intros j u. cbn. destruct (decide (i = j)) as [<- | Hne].
    + rewrite list_lookup_insert_eq by (eapply lookup_lt_Some; exact Hi).
      intros [= <-]. discriminate.
    + rewrite list_lookup_insert_ne by exact Hne. apply Inv.
  - destruct (emitted (effects w) !! delivered w) as [page|]; [ | exact Inv].
    intros j u. cbn. apply Inv.
Qed.

Lemma steps_invariant (evs : list Event) (w : World) :
  only_current_runs w -> only_current_runs (steps int_version w evs).
Proof.
  revert w. induction evs as [|ev evs IH]; intros w Inv; cbn; [exact Inv | ].
  apply IH, step_invariant, Inv.
Qed.

(** Two fetcher threads are never running at once. *)
Lemma at_most_one_running (w : World) (i j : nat) (t u : FetcherThread) :
  only_current_runs w ->
  threads w !! i = Some t -> isRunning t = true ->
  threads w !! j = Some u -> isRunning u = true ->
  i = j.
Proof.
  intros Inv Hi Ht Hj Hu.
  pose proof (Inv i t Hi Ht) as E1. pose proof (Inv j u Hj Hu) as E2. congruence.
Qed.

End Steps.

(** C5.  In every state the dock reaches after it is built, by calls of
    [fetch_from_server], scrolling, clicks on the view-changes button,
    workers running and ending, and pages being delivered: if some fetcher started earlier is still running, a call
    of [fetch_from_server] returns with the dock, the ledger, the threads and
    the record of network calls exactly as they were. *)
Theorem fetch_while_running_is_noop :
  forall (int_version : string -> option Z) (host : DockHost)
         (client : option MerginClient) (w0 : World) (evs : list Event)
         (i : nat) (t : FetcherThread),
    ProjectHistoryDockWidget_init host client = Ok w0 ->
    threads (steps int_version w0 evs) !! i = Some t ->
    isRunning t = true ->
    fetch_from_server (steps int_version w0 evs) = Ok (steps int_version w0 evs).
Proof.
  intros iv host client w0 evs i t Hinit Hi Hrun.
  pose proof (steps_invariant iv evs w0 (init_invariant host client w0 Hinit)) as Inv.
  unfold fetch_from_server.
  rewrite (running_thread_is_guarded _ i t Inv Hi Hrun). reflexivity.
Qed.

Lemma fetch_while_running_is_noop_witness :
  exists w0,
    ProjectHistoryDockWidget_init Samples.dock_host (Some Samples.server) = Ok w0
    /\ fetch_from_server (steps Samples.int_version w0 [scrolled 10 10; worker_runs 0%nat]) =
         Ok (steps Samples.int_version w0 [scrolled 10 10; worker_runs 0%nat]).
Proof.
  eexists. split; [reflexivity | ].
  eapply (fetch_while_running_is_noop Samples.int_version Samples.dock_host
            (Some Samples.server) _ [scrolled 10 10; worker_runs 0%nat] 0%nat);
    reflexivity.
Defined.

(** ** Properties of the validator *)

(** *** Loops *)

(** A loop whose body never raises on the states it meets ends normally,
    and an invariant indexed by the items already handled holds at the end. *)
Lemma for_rule {A S : Type} (I : list A -> S -> Prop) (body : A -> S -> result S)
    (xs : list A) (s0 : S) :
  I [] s0 ->
  (forall done x rest s, xs = done ++ x :: rest -> I done s ->
     exists s', body x s = Ok s' /\ I (done ++ [x]) s') ->
  exists s', for_ xs body s0 = Ok s' /\ I xs s'.
Proof.
  intros H0 Hbody.
  assert (G : forall rest done s, xs = done ++ rest -> I done s ->
                exists s', for_ rest body s = Ok s' /\ I xs s').
  { induction rest as [|x rest IH]; intros done s Hxs Hs.
    - exists s. rewrite app_nil_r in Hxs. subst done. split; [reflexivity | exact Hs].
    - destruct (Hbody done x rest s Hxs Hs) as (s1 & Hb & H1).
      cbn. rewrite Hb. cbn. apply (IH (done ++ [x]) s1); [ | exact H1].
      rewrite <- app_assoc. exact Hxs. }
  apply (G xs [] s0); [reflexivity | exact H0].
Qed.

(** *** The two foundational checks *)

(** C6.  A run on a newly built validator whose directory holds no project
    file returns the list with the single issue PROJ_NOT_FOUND, and one whose
    directory holds more than one project file returns the list with the
    single issue MULTIPLE_PROJS; in both cases none of the later checks has
    run. *)
Theorem run_checks_without_single_project :
  forall (h : Host) (mergin_project : option MerginProject),
    (find_qgis_files h (target_dir h mergin_project) = [] ->
     exists v',
       run_checks h (MerginProjectValidator_init mergin_project) =
         Ok ([MultipleLayersWarning PROJ_NOT_FOUND []], v')
       /\ stopped_early v')
    /\
    ((1 < length (find_qgis_files h (target_dir h mergin_project)))%nat ->
     exists v',
       run_checks h (MerginProjectValidator_init mergin_project) =
         Ok ([MultipleLayersWarning MULTIPLE_PROJS []], v')
       /\ stopped_early v').
Proof.
  intros h mergin_project. unfold run_checks, check_single_proj, target_dir.
  cbn [mp MerginProjectValidator_init].
  set (files := find_qgis_files h _). split; intros Hfiles.
  - rewrite Hfiles. cbn. eexists. split; [reflexivity | ]. repeat split.
  - rewrite bool_decide_eq_true_2 by exact Hfiles. cbn.
    eexists. split; [reflexivity | ]. repeat split.
Qed.

Lemma run_checks_without_single_project_witness :
  issue_list (run_checks (Samples.host ["data.gpkg"]%string)
                (MerginProjectValidator_init (Some Samples.project))) =
    Ok [MultipleLayersWarning PROJ_NOT_FOUND []]
  /\ issue_list (run_checks (Samples.host ["a.qgs"; "b.qgz"]%string)
                   (MerginProjectValidator_init (Some Samples.project))) =
       Ok [MultipleLayersWarning MULTIPLE_PROJS []].
Proof.
  split.
  - destruct (run_checks_without_single_project
                (Samples.host ["data.gpkg"]%string) (Some Samples.project))
      as [Hnone _].
    destruct (Hnone eq_refl) as (v' & -> & _). reflexivity.
  - destruct (run_checks_without_single_project
                (Samples.host ["a.qgs"; "b.qgz"]%string) (Some Samples.project))
      as [_ Hmany].
    destruct (Hmany ltac:(vm_compute; lia)) as (v' & -> & _). reflexivity.
Defined.

(** *** The checks one by one *)

Lemma elem_of_flat_map {A B : Type} (f : A -> list B) (l : list A) (y : B) :
  y ∈ flat_map f l <-> exists x, x ∈ l /\ y ∈ f x.
Proof.
  rewrite list_elem_of_In, in_flat_map. split; intros (x & Hx & Hy); exists x.
  - rewrite !list_elem_of_In. auto.
  - rewrite <- !list_elem_of_In. auto.
Qed.

Lemma flat_map_snoc {A B : Type} (f : A -> list B) (l : list A) (x : A) :
  flat_map f (l ++ [x]) = flat_map f l ++ f x.
Proof.
  rewrite flat_map_app. cbn. rewrite app_nil_r. reflexivity.
Qed.

Lemma NoDup_keys_unique {A B : Type} (l : list (A * B)) (k : A) (x y : B) :
  NoDup (map fst l) -> (k, x) ∈ l -> (k, y) ∈ l -> x = y.
Proof.
  induction l as [|[k0 z] l IH]; cbn; intros Hnd Hx Hy.
  - apply elem_of_nil in Hx. contradiction.
  - apply NoDup_cons in Hnd as [Hnotin Hnd].
    apply elem_of_cons in Hx as [Hx | Hx]; apply elem_of_cons in Hy as [Hy | Hy].
    + congruence.
    + exfalso. apply Hnotin. apply (list_elem_of_fmap_2 fst) in Hy.
      injection Hx as <- _. exact Hy.
    + exfalso. apply Hnotin. apply (list_elem_of_fmap_2 fst) in Hx.
      injection Hy as <- _. exact Hx.
    + apply IH; assumption.
Qed.

Section CheckFacts.
Variable h : Host.

(** [check_widget] appends to the list it is given. *)
Lemma check_widget_acc (lid : string) (ws : option QgsEditorWidgetSetup) (acc : list Issue) :
  check_widget h lid ws acc =
  match check_widget h lid ws [] with
  | Ok l => Ok (acc ++ l)
  | Raise e => Raise e
  end.
Proof.
  unfold check_widget. destruct ws as [ws|]; [ | rewrite app_nil_r; reflexivity].
  destruct (negb _); [rewrite app_nil_r; reflexivity | ].
  destruct (getitem (config ws) "RelativeStorage") as [rel|]; cbn; [ | reflexivity].
  destruct (contains (config ws) "DefaultRoot").
  - destruct (getitem (config ws) "DefaultRoot") as [root|]; cbn; [ | reflexivity].
    destruct (as_str root) as [r|]; cbn; [ | reflexivity].
    destruct (eq_zero rel), (os_path_isabs h r), (QgsExpression_isValid h r),
      (contains (config ws) "UseLink");
      cbn; rewrite ?app_nil_r, <- ?app_assoc; reflexivity.
  - destruct (eq_zero rel); cbn; rewrite ?app_nil_r; reflexivity.
Qed.

Lemma check_widget_ok (lid : string) (ws : option QgsEditorWidgetSetup) (acc : list Issue) :
  widget_ok ws -> check_widget h lid ws acc = Ok (acc ++ widget_issues h lid ws).
Proof.
  intros Hok. rewrite check_widget_acc. unfold widget_issues.
  destruct (check_widget h lid ws []) as [l|e] eqn:E; [reflexivity | exfalso].
  unfold check_widget in E. destruct ws as [ws|]; [ | discriminate]. cbn in Hok.
  destruct (bool_decide (widget_type ws = "ExternalResource"%string)) eqn:Ht;
    cbn in E; [ | discriminate].
  apply bool_decide_eq_true in Ht. destruct (Hok Ht) as [[rel Hrel] Hroot].
  unfold getitem, contains in E. rewrite Hrel in E. cbn in E.
  destruct (config ws !! "DefaultRoot"%string) as [root|] eqn:Hr.
  - rewrite bool_decide_eq_true_2 in E by (eexists; reflexivity). cbn in E.
    destruct (Hroot root eq_refl) as [r ->]. cbn in E. discriminate.
  - rewrite bool_decide_eq_false_2 in E by (intros [? ?]; discriminate). discriminate.
Qed.

Lemma get_proj_layers_ok (v : MerginProjectValidator) (proj : QgsProject) :
  qgis_proj v = Some proj ->
  exists v' new,
    get_proj_layers v = Ok v'
    /\ mp v' = mp v /\ layers v' = Some (mapLayers proj)
    /\ editable v' = Some (editable_ids (mapLayers proj))
    /\ qgis_proj v' = qgis_proj v /\ qgis_proj_dir v' = qgis_proj_dir v
    /\ issues v' = issues v ++ new /\ Forall early new.
Proof.
  intros Hproj. unfold get_proj_layers. rewrite Hproj. cbn [attr mbind result_bind].
  match goal with
  | |- context [for_ ?xs ?body ?s0] =>
      destruct (for_rule (fun done (s : list string * gmap string (list string)) =>
                            fst s = editable_ids done) body xs s0) as ([ed bp] & -> & Hed)
  end.
  - reflexivity.
  - intros done [lid layer] rest [ed bp] _ Hed. cbn in Hed. subst ed.
    unfold editable_ids. rewrite omap_app. cbn. unfold is_editable.
    destruct (dataProvider layer) as [dp|].
    + destruct (defaultdict_getitem (provider_name dp) bp) as [l bp'].
      destruct (bool_decide (type layer = VectorLayer)); cbn.
      * destruct (can_edit (capabilities dp)); eexists; (split; [reflexivity | ]); cbn;
          rewrite ?app_nil_r; reflexivity.
      * eexists; (split; [reflexivity | ]); cbn; rewrite ?app_nil_r; reflexivity.
    + eexists; (split; [reflexivity | ]); cbn; rewrite ?app_nil_r; reflexivity.
  - cbn in Hed. subst ed. cbn [mbind result_bind].
    case_bool_decide.
    + eexists _, [MultipleLayersWarning NO_EDITABLE_LAYERS []].
      split; [reflexivity | ]. cbn. repeat split; try reflexivity.
      repeat constructor.
    + eexists _, []. split; [reflexivity | ]. cbn. rewrite app_nil_r.
      repeat split; try reflexivity. constructor.
Qed.

Lemma check_proj_paths_relative_ok (v : MerginProjectValidator) (proj : QgsProject) :
  qgis_proj v = Some proj ->
  snd (readEntry proj "Paths" "/Absolute") = true ->
  exists v' new,
    check_proj_paths_relative v = Ok v' /\ extends v v' new /\ Forall early new.
Proof.
  intros Hproj Hok. unfold check_proj_paths_relative. rewrite Hproj.
  cbn [attr mbind result_bind].
  destruct (readEntry proj "Paths" "/Absolute") as [abs_paths ok]. cbn in Hok. subst ok.
  cbn [negb]. destruct (negb _).
  - eexists _, [MultipleLayersWarning ABSOLUTE_PATHS []]. split; [reflexivity | ].
    split; [repeat split | ]. repeat constructor.
  - exists v, []. split; [reflexivity | ]. split; [ | constructor].
    unfold extends. rewrite app_nil_r. repeat split.
Qed.

Lemma check_saved_in_proj_dir_ok (v : MerginProjectValidator)
    (ls : list (string * QgsMapLayer)) :
  layers v = Some ls ->
  exists v' new,
    check_saved_in_proj_dir h v = Ok v' /\ extends v v' new /\ Forall early new.
Proof.
  intros Hls. unfold check_saved_in_proj_dir. rewrite Hls. cbn [attr mbind result_bind].
  match goal with
  | |- context [for_ ?xs ?body ?s0] =>
      destruct (for_rule (fun (_ : list (string * QgsMapLayer))
                              (s : gmap string (list string) * list Issue) =>
                            exists new, snd s = issues v ++ new /\ Forall early new)
                         body xs s0) as ([bp iss] & -> & new & Hiss & Hnew)
  end.
  - exists []. cbn. rewrite app_nil_r. split; [reflexivity | constructor].
  - intros _ [lid layer] _ [bp iss] _ (new & Hiss & Hnew). cbn in Hiss. subst iss.
    destruct (defaultdict_getitem "gdal" bp) as [gdal bp1].
    destruct (defaultdict_getitem "ogr" bp1) as [ogr bp2].
    destruct (negb (bool_decide (lid ∈ gdal ++ ogr))).
    + eexists. split; [reflexivity | ]. exists new. split; [reflexivity | exact Hnew].
    + destruct (negb (same_dir h _ _)); cbn [mbind result_bind].
      * eexists. split; [reflexivity | ].
        exists (new ++ [SingleLayerWarning lid EXTERNAL_SRC]). cbn.
        rewrite app_assoc. split; [reflexivity | ].
        apply Forall_app. split; [exact Hnew | ]. repeat constructor.
      * eexists. split; [reflexivity | ]. exists new. split; [reflexivity | exact Hnew].
  - cbn in Hiss. subst iss. cbn [mbind result_bind].
    eexists _, new. split; [reflexivity | ]. split; [ | exact Hnew].
    repeat split. cbn. symmetry. exact Hls.
Qed.

Lemma check_editable_vectors_format_ok (v : MerginProjectValidator)
    (ls : list (string * QgsMapLayer)) (ed : list string) :
  layers v = Some ls -> editable v = Some ed ->
  (forall lid layer, (lid, layer) ∈ ls -> lid ∈ ed -> is_Some (dataProvider layer)) ->
  exists v' new,
    check_editable_vectors_format v = Ok v' /\ extends v v' new /\ Forall early new.
Proof.
  intros Hls Hed Hdp. unfold check_editable_vectors_format. rewrite Hls, Hed.
  cbn [attr mbind result_bind].
  match goal with
  | |- context [for_ ?xs ?body ?s0] =>
      destruct (for_rule (fun (_ : list (string * QgsMapLayer)) (s : list Issue) =>
                            exists new, s = issues v ++ new /\ Forall early new)
                         body xs s0) as (iss & -> & new & -> & Hnew)
  end.
  - exists []. rewrite app_nil_r. split; [reflexivity | constructor].
  - intros done [lid layer] rest iss Hsplit (new & -> & Hnew).
    cbn [operand mbind result_bind]. case_bool_decide as Hin; cbn [negb].
    + destruct (Hdp lid layer) as [dp ->]; [ | exact Hin | ].
      { rewrite Hsplit. apply elem_of_app. right. apply elem_of_cons. left. reflexivity. }
      cbn [attr mbind result_bind]. destruct (negb _).
      * eexists. split; [reflexivity | ].
        exists (new ++ [SingleLayerWarning lid EDITABLE_NON_GPKG]).
        rewrite app_assoc. split; [reflexivity | ].
        apply Forall_app. split; [exact Hnew | ]. repeat constructor.
      * eexists. split; [reflexivity | ]. exists new. split; [reflexivity | exact Hnew].
    + eexists. split; [reflexivity | ]. exists new. split; [reflexivity | exact Hnew].
  - cbn [mbind result_bind]. eexists _, new. split; [reflexivity | ].
    split; [ | exact Hnew]. repeat split.
Qed.

Lemma check_offline_ok (v : MerginProjectValidator) (ls : list (string * QgsMapLayer)) :
  layers v = Some ls ->
  exists v' new, check_offline v = Ok v' /\ extends v v' new /\ Forall early new.
Proof.
  intros Hls. unfold check_offline. rewrite Hls. cbn [attr mbind result_bind].
  match goal with
  | |- context [for_ ?xs ?body ?s0] =>
      destruct (for_rule (fun (_ : list (string * QgsMapLayer)) (_ : list string) => True)
                         body xs s0) as (w_layers & -> & _)
  end.
  - exact I.
  - intros _ [lid layer] _ w_layers _ _. destruct (dataProvider layer) as [dp|].
    + destruct (bool_decide _); eexists; (split; [reflexivity | exact I]).
    + eexists; (split; [reflexivity | exact I]).
  - cbn [mbind result_bind]. destruct w_layers as [|l0 w_layers].
    + exists v, []. split; [reflexivity | ]. split; [ | constructor].
      unfold extends. rewrite app_nil_r. repeat split.
    + eexists _, [MultipleLayersWarning NOT_FOR_OFFLINE (l0 :: w_layers)].
      split; [reflexivity | ]. split; [repeat split | ]. repeat constructor.
Qed.

Lemma attachment_issues_snoc (done : list (string * QgsMapLayer)) (lid : string)
    (layer : QgsMapLayer) (ed : list string) :
  attachment_issues h (done ++ [(lid, layer)]) ed =
  attachment_issues h done ed ++
    (if bool_decide (lid ∈ ed)
     then flat_map (widget_issues h lid) (editorWidgetSetups layer) else []).
Proof. unfold attachment_issues. apply flat_map_snoc. Qed.

Lemma schema_issues_snoc (mergin_project : option MerginProject)
    (done : list (string * QgsMapLayer)) (lid : string) (layer : QgsMapLayer)
    (ed : list string) :
  schema_issues h mergin_project (done ++ [(lid, layer)]) ed =
  schema_issues h mergin_project done ed ++
    (if bool_decide (lid ∈ ed) && is_gpkg layer
        && negb (fst (has_schema_change h mergin_project layer))
     then [SingleLayerWarning lid DATABASE_SCHEMA_CHANGE] else []).
Proof. unfold schema_issues. apply flat_map_snoc. Qed.

Lemma check_attachment_widget_ok (v : MerginProjectValidator)
    (ls : list (string * QgsMapLayer)) (ed : list string) :
  layers v = Some ls -> editable v = Some ed ->
  Forall (fun '(_, layer) => Forall widget_ok (editorWidgetSetups layer)) ls ->
  exists v',
    check_attachment_widget h v = Ok v' /\ extends v v' (attachment_issues h ls ed).
Proof.
  intros Hls Hed Hok. unfold check_attachment_widget. rewrite Hls, Hed.
  cbn [attr mbind result_bind].
  match goal with
  | |- context [for_ ?xs ?body ?s0] =>
      destruct (for_rule (fun done (s : list Issue) =>
                            s = issues v ++ attachment_issues h done ed)
                         body xs s0) as (iss & -> & ->)
  end.
  - cbn. rewrite app_nil_r. reflexivity.
  - intros done [lid layer] rest iss Hsplit ->.
    cbn beta. rewrite attachment_issues_snoc.
    cbn [operand mbind result_bind]. case_bool_decide as Hin; cbn [negb].
    + assert (Hws : Forall widget_ok (editorWidgetSetups layer)).
      { rewrite Forall_forall in Hok. apply (Hok (lid, layer)).
        rewrite Hsplit. apply elem_of_app. right. apply elem_of_cons. left. reflexivity. }
      match goal with
      | |- context [for_ ?xs ?body ?s0] =>
          destruct (for_rule (fun done' (s : list Issue) =>
                                s = s0 ++ flat_map (widget_issues h lid) done')
                             body xs s0) as (iss' & -> & ->)
      end.
      * cbn. rewrite app_nil_r. reflexivity.
      * intros done' ws rest' s Hsplit' ->. eexists. split.
        -- apply check_widget_ok. rewrite Forall_forall in Hws. apply Hws.
           rewrite Hsplit'. apply elem_of_app. right. apply elem_of_cons. left. reflexivity.
        -- rewrite flat_map_snoc, app_assoc. reflexivity.
      * eexists. split; [reflexivity | ]. rewrite app_assoc. reflexivity.
    + eexists. split; [reflexivity | ]. rewrite app_nil_r. reflexivity.
  - cbn [mbind result_bind]. eexists. split; [reflexivity | ]. repeat split.
Qed.

Lemma check_db_schema_ok (v : MerginProjectValidator)
    (ls : list (string * QgsMapLayer)) (ed : list string) :
  layers v = Some ls -> editable v = Some ed ->
  (forall lid layer, (lid, layer) ∈ ls -> lid ∈ ed -> is_Some (dataProvider layer)) ->
  exists v',
    check_db_schema h v = Ok v' /\ extends v v' (schema_issues h (mp v) ls ed).
Proof.
  intros Hls Hed Hdp. unfold check_db_schema. rewrite Hls, Hed.
  cbn [attr mbind result_bind].
  match goal with
  | |- context [for_ ?xs ?body ?s0] =>
      destruct (for_rule (fun done (s : list Issue) =>
                            s = issues v ++ schema_issues h (mp v) done ed)
                         body xs s0) as (iss & -> & ->)
  end.
  - cbn. rewrite app_nil_r. reflexivity.
  - intros done [lid layer] rest iss Hsplit ->.
    cbn beta. rewrite schema_issues_snoc.
    cbn [operand mbind result_bind]. case_bool_decide as Hin; cbn [negb andb].
    + destruct (Hdp lid layer) as [dp Hprov]; [ | exact Hin | ].
      { rewrite Hsplit. apply elem_of_app. right. apply elem_of_cons. left. reflexivity. }
      unfold is_gpkg. rewrite Hprov. cbn [attr mbind result_bind].
      destruct (bool_decide (storageType dp = "GPKG"%string)); cbn [andb].
      * destruct (has_schema_change h (mp v) layer) as [has_change msg]. cbn [fst].
        destruct has_change; cbn [negb]; eexists; (split; [reflexivity | ]).
        -- rewrite app_nil_r. reflexivity.
        -- rewrite app_assoc. reflexivity.
      * eexists. split; [reflexivity | ]. rewrite app_nil_r. reflexivity.
    + eexists. split; [reflexivity | ]. rewrite app_nil_r. reflexivity.
  - cbn [mbind result_bind]. eexists. split; [reflexivity | ]. repeat split.
Qed.

End CheckFacts.

(** *** A whole run on a loaded project *)

Section PipelineFacts.
Variable h : Host.
Hypothesis Hwf : well_formed h.

Abbreviation ls := (mapLayers (QgsProject_instance h)).

Lemma editable_ids_spec (lid : string) (layer : QgsMapLayer) :
  (lid, layer) ∈ ls -> (lid ∈ editable_ids ls <-> is_editable layer = true).
Proof.
  intros Hin. pose proof (wf_ids h Hwf) as Hids. fold ls in Hids.
  rewrite Forall_forall in Hids. unfold editable_ids. rewrite list_elem_of_omap. split.
  - intros ([k l] & Hkl & Hsome). destruct (is_editable l) eqn:El; [ | discriminate].
    injection Hsome as <-. pose proof (Hids _ Hkl) as Hk. cbn in Hk. subst k.
    rewrite (NoDup_keys_unique ls (id l) layer l (wf_keys h Hwf) Hin Hkl). exact El.
  - intros El. exists (lid, layer). split; [exact Hin | ].
    rewrite El. pose proof (Hids _ Hin) as Hk. cbn in Hk. congruence.
Qed.

Lemma editable_has_provider (lid : string) (layer : QgsMapLayer) :
  (lid, layer) ∈ ls -> lid ∈ editable_ids ls -> is_Some (dataProvider layer).
Proof.
  intros Hin Hed. apply (editable_ids_spec lid layer Hin) in Hed.
  unfold is_editable in Hed. destruct (dataProvider layer) as [dp|]; [ | discriminate].
  eexists. reflexivity.
Qed.

(** On a loaded, well-formed project a run ends normally; its issue list is
    made of the issues of the earlier checks, then those of the
    attachment-widget check, then those of the schema check. *)
Lemma run_checks_loaded (mergin_project : option MerginProject) :
  loaded h mergin_project ->
  exists pre v',
    run_checks h (MerginProjectValidator_init mergin_project) =
      Ok (pre ++ attachment_issues h ls (editable_ids ls)
              ++ schema_issues h mergin_project ls (editable_ids ls), v')
    /\ Forall early pre.
Proof.
  intros (path & Hfiles & Hsame).
  unfold run_checks, check_single_proj. cbn [mp MerginProjectValidator_init].
  fold (target_dir h mergin_project). rewrite Hfiles.
  rewrite bool_decide_eq_false_2 by (cbn; lia).
  rewrite bool_decide_eq_false_2 by (cbn; lia).
  cbn [negb]. unfold check_proj_loaded. cbn [qgis_files operand mbind result_bind].
  rewrite Hsame. cbn [negb mbind result_bind].
  match goal with
  | |- context [get_proj_layers ?v] =>
      destruct (get_proj_layers_ok v (QgsProject_instance h) eq_refl)
        as (v1 & n1 & -> & Hmp1 & Hls1 & Hed1 & Hproj1 & Hdir1 & Hiss1 & Hn1)
  end.
  cbn in Hmp1, Hproj1, Hdir1, Hiss1. fold ls in Hls1, Hed1. cbn [mbind result_bind].
  destruct (check_proj_paths_relative_ok v1 (QgsProject_instance h) Hproj1 (wf_entry h Hwf))
    as (v2 & n2 & -> & (Hmp2 & Hls2 & Hed2 & Hproj2 & Hdir2 & Hiss2) & Hn2).
  cbn [mbind result_bind].
  rewrite Hmp1 in Hmp2. rewrite Hls1 in Hls2. rewrite Hed1 in Hed2. rewrite Hiss1 in Hiss2.
  destruct (check_saved_in_proj_dir_ok h v2 ls Hls2)
    as (v3 & n3 & -> & (Hmp3 & Hls3 & Hed3 & Hproj3 & Hdir3 & Hiss3) & Hn3).
  cbn [mbind result_bind].
  rewrite Hmp2 in Hmp3. rewrite Hls2 in Hls3. rewrite Hed2 in Hed3. rewrite Hiss2 in Hiss3.
  destruct (check_editable_vectors_format_ok v3 ls (editable_ids ls) Hls3 Hed3
              editable_has_provider)
    as (v4 & n4 & -> & (Hmp4 & Hls4 & Hed4 & Hproj4 & Hdir4 & Hiss4) & Hn4).
  cbn [mbind result_bind].
  rewrite Hmp3 in Hmp4. rewrite Hls3 in Hls4. rewrite Hed3 in Hed4. rewrite Hiss3 in Hiss4.
  destruct (check_offline_ok v4 ls Hls4)
    as (v5 & n5 & -> & (Hmp5 & Hls5 & Hed5 & Hproj5 & Hdir5 & Hiss5) & Hn5).
  cbn [mbind result_bind].
  rewrite Hmp4 in Hmp5. rewrite Hls4 in Hls5. rewrite Hed4 in Hed5. rewrite Hiss4 in Hiss5.
  destruct (check_attachment_widget_ok h v5 ls (editable_ids ls) Hls5 Hed5
              (wf_widgets h Hwf))
    as (v6 & -> & (Hmp6 & Hls6 & Hed6 & Hproj6 & Hdir6 & Hiss6)).
  cbn [mbind result_bind].
  rewrite Hmp5 in Hmp6. rewrite Hls5 in Hls6. rewrite Hed5 in Hed6. rewrite Hiss5 in Hiss6.
  destruct (check_db_schema_ok h v6 ls (editable_ids ls) Hls6 Hed6 editable_has_provider)
    as (v7 & -> & (Hmp7 & Hls7 & Hed7 & Hproj7 & Hdir7 & Hiss7)).
  cbn [mbind result_bind].
  rewrite Hiss6, Hmp6 in Hiss7.
  exists (n1 ++ n2 ++ n3 ++ n4 ++ n5), v7. split.
  - rewrite Hiss7. cbn [app]. rewrite <- !app_assoc. reflexivity.
  - rewrite !Forall_app. tauto.
Qed.

End PipelineFacts.

(** *** What the attachment-widget check reports *)

Lemma elem_of_if_singleton {A : Type} (b : bool) (x y : A) :
  x ∈ (if b then [y] else []) <-> b = true /\ x = y.
Proof.
  destruct b.
  - rewrite list_elem_of_singleton. tauto.
  - split; [intros H; apply elem_of_nil in H; contradiction | intros [[=] _]].
Qed.

Section WidgetFacts.
Variable h : Host.

(** The issues of an attachment widget, read off its configuration. *)
Lemma widget_issues_unfold (lid : string) (w : QgsEditorWidgetSetup) (rel : value) :
  widget_type w = "ExternalResource"%string ->
  config w !! "RelativeStorage"%string = Some rel ->
  widget_issues h lid (Some w) =
    match config w !! "DefaultRoot"%string with
    | Some (VStr root) =>
        (if eq_zero rel then [SingleLayerWarning lid ATTACHMENT_ABSOLUTE_PATH] else []) ++
        (if os_path_isabs h root then [SingleLayerWarning lid ATTACHMENT_LOCAL_PATH] else []) ++
        (if QgsExpression_isValid h root
         then [SingleLayerWarning lid ATTACHMENT_EXPRESSION_PATH] else []) ++
        (if contains (config w) "UseLink"
         then [SingleLayerWarning lid ATTACHMENT_HYPERLINK] else [])
    | Some _ => []                      (* the check raises *)
    | None => if eq_zero rel then [SingleLayerWarning lid ATTACHMENT_ABSOLUTE_PATH] else []
    end.
Proof.
  intros Ht Hrel. unfold widget_issues, check_widget.
  rewrite bool_decide_eq_true_2 by exact Ht. cbn [negb].
  unfold getitem, contains. rewrite Hrel. cbn [mbind result_bind].
  destruct (config w !! "DefaultRoot"%string) as [root|] eqn:Hroot.
  - rewrite bool_decide_eq_true_2 by (eexists; reflexivity).
    destruct root as [ | b | n | root]; cbn; try reflexivity.
    destruct (eq_zero rel), (os_path_isabs h root), (QgsExpression_isValid h root),
      (bool_decide (is_Some (config w !! "UseLink"%string))); reflexivity.
  - rewrite bool_decide_eq_false_2 by (intros [? ?]; discriminate).
    destruct (eq_zero rel); reflexivity.
Qed.


(** Every issue of the check is a layer issue with one of its four
    warnings. *)
Lemma widget_issues_kinds (lid : string) (ws : option QgsEditorWidgetSetup) (i : Issue) :
  i ∈ widget_issues h lid ws ->
  exists w, i = SingleLayerWarning lid w /\ w ∈ attachment_kinds.
Proof.
  unfold widget_issues. rewrite <- (app_nil_l (match _ with Ok l => l | Raise _ => [] end)).
  unfold check_widget. destruct ws as [w|]; [ | intros H; in_list H].
  destruct (negb _); [intros H; in_list H | ].
  destruct (getitem (config w) "RelativeStorage") as [rel|]; cbn; [ | intros H; in_list H].
  destruct (contains (config w) "DefaultRoot").
  - destruct (getitem (config w) "DefaultRoot") as [root|]; cbn; [ | intros H; in_list H].
    destruct (as_str root) as [r|]; cbn; [ | intros H; in_list H].
    destruct (eq_zero rel), (os_path_isabs h r), (QgsExpression_isValid h r),
      (contains (config w) "UseLink"); cbn; intros H; in_list H;
      eexists; (split; [reflexivity | unfold attachment_kinds; set_solver]).
  - destruct (eq_zero rel); cbn; intros H; in_list H.
    eexists; (split; [reflexivity | unfold attachment_kinds; set_solver]).
Qed.


End WidgetFacts.

(** *** Where an issue of a run comes from *)

Lemma in_attachment_issues (h : Host) (ls : list (string * QgsMapLayer))
    (ed : list string) (i : Issue) :
  i ∈ attachment_issues h ls ed <->
  exists lid layer ws,
    (lid, layer) ∈ ls /\ lid ∈ ed /\ ws ∈ editorWidgetSetups layer
    /\ i ∈ widget_issues h lid ws.
Proof.
  unfold attachment_issues. rewrite elem_of_flat_map. split.
  - intros ([lid layer] & Hin & Hi). case_bool_decide as Hed.
    + apply elem_of_flat_map in Hi as (ws & Hws & Hi). exists lid, layer, ws. auto.
    + apply elem_of_nil in Hi. contradiction.
  - intros (lid & layer & ws & Hin & Hed & Hws & Hi). exists (lid, layer).
    split; [exact Hin | ]. rewrite bool_decide_eq_true_2 by exact Hed.
    apply elem_of_flat_map. exists ws. auto.
Qed.

Lemma in_schema_issues (h : Host) (mergin_project : option MerginProject)
    (ls : list (string * QgsMapLayer)) (ed : list string) (i : Issue) :
  i ∈ schema_issues h mergin_project ls ed <->
  exists lid layer,
    (lid, layer) ∈ ls /\ lid ∈ ed /\ is_gpkg layer = true
    /\ fst (has_schema_change h mergin_project layer) = false
    /\ i = SingleLayerWarning lid DATABASE_SCHEMA_CHANGE.
Proof.
  unfold schema_issues. rewrite elem_of_flat_map. split.
  - intros ([lid layer] & Hin & Hi). apply elem_of_if_singleton in Hi as [Hc ->].
    apply andb_true_iff in Hc as [Hc Hchange]. apply andb_true_iff in Hc as [Hed Hg].
    apply bool_decide_eq_true in Hed. apply negb_true_iff in Hchange.
    exists lid, layer. auto.
  - intros (lid & layer & Hin & Hed & Hg & Hchange & ->). exists (lid, layer).
    split; [exact Hin | ]. apply elem_of_if_singleton. split; [ | reflexivity].
    rewrite bool_decide_eq_true_2 by exact Hed. rewrite Hg, Hchange. reflexivity.
Qed.

(** The earlier checks report neither an attachment warning nor a schema
    change. *)
Lemma early_is_not_late (pre : list Issue) (lid : string) (w : Warning) :
  Forall early pre ->
  w ∈ DATABASE_SCHEMA_CHANGE :: attachment_kinds ->
  SingleLayerWarning lid w ∉ pre.
Proof.
  intros Hpre Hw Hin. rewrite Forall_forall in Hpre. apply Hpre in Hin.
  unfold early in Hin. cbn in Hin. unfold attachment_kinds in Hw.
  in_list Hw; in_list Hin.
Qed.

(** C1 (as the code has it).  On a loaded, well-formed project, for an
    editable layer stored in a GeoPackage, the run reports
    DATABASE_SCHEMA_CHANGE for the layer exactly when [has_schema_change]
    answers false, that is when it reports no change: the test in
    [check_db_schema] is negated. *)
Theorem check_db_schema_reports_unchanged_layers :
  forall (h : Host) (mergin_project : option MerginProject)
         (lid : string) (layer : QgsMapLayer),
    well_formed h ->
    loaded h mergin_project ->
    (lid, layer) ∈ mapLayers (QgsProject_instance h) ->
    is_editable layer = true ->
    is_gpkg layer = true ->
    exists l v',
      run_checks h (MerginProjectValidator_init mergin_project) = Ok (l, v')
      /\ (SingleLayerWarning lid DATABASE_SCHEMA_CHANGE ∈ l <->
          fst (has_schema_change h mergin_project layer) = false).
Proof.
  intros h mergin_project lid layer Hwf Hloaded Hin Hedit Hgpkg.
  destruct (run_checks_loaded h Hwf mergin_project Hloaded) as (pre & v' & -> & Hpre).
  eexists _, v'. split; [reflexivity | ].
  rewrite !elem_of_app, in_schema_issues. split.
  - intros [H | [H | H]].
    + exfalso. revert H. apply early_is_not_late; [exact Hpre | set_solver].
    + exfalso. apply in_attachment_issues in H as (k & l0 & ws & _ & _ & _ & H).
      apply widget_issues_kinds in H as (w & [= _ <-] & Hw).
      unfold attachment_kinds in Hw. in_list Hw.
    + destruct H as (k & l0 & Hin0 & _ & _ & Hchange & [= <-]).
      rewrite (NoDup_keys_unique _ lid layer l0 (wf_keys h Hwf) Hin Hin0). exact Hchange.
  - intros Hchange. right. right. exists lid, layer.
    repeat split; try assumption. apply (editable_ids_spec h Hwf lid layer Hin). exact Hedit.
Qed.

(** The sample project is well formed and loaded. *)
Lemma survey_well_formed : well_formed Samples.survey.
Proof.
  split.
  - cbn. apply (bool_decide_unpack (NoDup _)). vm_compute. exact I.
  - repeat constructor.
  - reflexivity.
  - repeat match goal with
           | |- Forall _ [] => apply Forall_nil_2
           | |- Forall _ (_ :: _) => apply Forall_cons_2
           | |- True => exact I
           | |- _ = _ -> _ =>
               let Ht := fresh in
               intros Ht;
               first [ discriminate Ht
                     | split;
                       [ eexists; reflexivity
                       | let Hx := fresh in
                         intros ? Hx; vm_compute in Hx;
                         first [ discriminate Hx
                               | injection Hx as <-; eexists; reflexivity ] ] ]
           | _ => progress cbn
           end.
Qed.

Lemma survey_loaded : loaded Samples.survey (Some Samples.project).
Proof.
  exists "/home/anna/survey/survey.qgz"%string. split; reflexivity.
Qed.

(** The issue list of the sample project: the layer points_1, whose schema
    has changed, is not reported for it, and roads_1, whose schema has not
    changed, is. *)
Lemma survey_issues :
  issue_list (run_checks Samples.survey (MerginProjectValidator_init (Some Samples.project))) =
  Ok [MultipleLayersWarning NOT_FOR_OFFLINE ["osm_1"%string];
      SingleLayerWarning "points_1" ATTACHMENT_ABSOLUTE_PATH;
      SingleLayerWarning "points_1" ATTACHMENT_LOCAL_PATH;
      SingleLayerWarning "points_1" ATTACHMENT_EXPRESSION_PATH;
      SingleLayerWarning "points_1" ATTACHMENT_HYPERLINK;
      SingleLayerWarning "roads_1" DATABASE_SCHEMA_CHANGE].
Proof. vm_compute. reflexivity. Qed.

Lemma check_db_schema_reports_unchanged_layers_witness :
  fst (has_schema_change Samples.survey (Some Samples.project) Samples.roads) = false
  /\ exists l v',
       run_checks Samples.survey (MerginProjectValidator_init (Some Samples.project)) =
         Ok (l, v')
       /\ (SingleLayerWarning "roads_1" DATABASE_SCHEMA_CHANGE ∈ l <->
           fst (has_schema_change Samples.survey (Some Samples.project) Samples.roads) = false).
Proof.
  split; [reflexivity | ].
  apply (check_db_schema_reports_unchanged_layers Samples.survey (Some Samples.project)
           "roads_1" Samples.roads survey_well_formed survey_loaded);
    [repeat constructor | reflexivity | reflexivity].
Defined.

Lemma well_formed_widget (h : Host) (lid : string) (layer : QgsMapLayer)
    (ws : option QgsEditorWidgetSetup) :
  well_formed h ->
  (lid, layer) ∈ mapLayers (QgsProject_instance h) ->
  ws ∈ editorWidgetSetups layer ->
  widget_ok ws.
Proof.
  intros Hwf Hin Hws. pose proof (wf_widgets h Hwf) as H.
  rewrite Forall_forall in H. specialize (H _ Hin). cbn in H.
  rewrite Forall_forall in H. apply H. exact Hws.
Qed.

(** ** Further properties of the validator *)

Import Exact.

(** *** Loops that may raise *)

(** What every normal turn of the body keeps, a loop that ends normally
    keeps. *)
Lemma for_preserves {A S : Type} (R : S -> S -> Prop) (body : A -> S -> result S)
    (xs : list A) :
  (forall s, R s s) ->
  (forall s1 s2 s3, R s1 s2 -> R s2 s3 -> R s1 s3) ->
  (forall x s s', x ∈ xs -> body x s = Ok s' -> R s s') ->
  forall s s', for_ xs body s = Ok s' -> R s s'.
Proof.
  intros Hrefl Htrans. induction xs as [|x xs IH]; intros Hbody s s' H; cbn in H.
  - injection H as <-. apply Hrefl.
  - destruct (body x s) as [s1|] eqn:E; cbn in H; [ | discriminate].
    apply (Htrans s s1 s').
    + apply (Hbody x); [apply elem_of_cons; left; reflexivity | exact E].
    + apply IH; [ | exact H]. intros y t t' Hy. apply Hbody.
      apply elem_of_cons. right. exact Hy.
Qed.

(** A loop that meets an item on which the body always raises, raises. *)
Lemma for_raises {A S : Type} (body : A -> S -> result S) (xs : list A) (x : A) :
  x ∈ xs ->
  (forall s, exists e, body x s = Raise e) ->
  forall s, exists e, for_ xs body s = Raise e.
Proof.
  intros Hin Hx. induction xs as [|y xs IH]; intros s.
  - apply elem_of_nil in Hin. contradiction.
  - cbn. apply elem_of_cons in Hin as [<- | Hin].
    + destruct (Hx s) as [e ->]. exists e. reflexivity.
    + destruct (body y s) as [s1|e]; cbn; [apply IH; exact Hin | exists e; reflexivity].
Qed.

(** *** The issue list only grows *)

Lemma keeps_refl (v : MerginProjectValidator) : keeps v v.
Proof. repeat split; reflexivity. Qed.

Lemma keeps_trans (v1 v2 v3 : MerginProjectValidator) :
  keeps v1 v2 -> keeps v2 v3 -> keeps v1 v3.
Proof.
  intros (A1 & A2 & A3 & A4 & A5 & A6) (B1 & B2 & B3 & B4 & B5 & B6).
  repeat split; try congruence. etrans; eassumption.
Qed.

Lemma keeps_append (i : Issue) (v : MerginProjectValidator) : keeps v (append_issue i v).
Proof. repeat split. cbn. apply prefix_app_r. reflexivity. Qed.

Lemma prefix_snoc_if {A : Type} (b : bool) (l : list A) (x : A) :
  l `prefix_of` (if b then l ++ [x] else l).
Proof. destruct b; [apply prefix_app_r | ]; reflexivity. Qed.

Section Frames.
Variable h : Host.

Lemma check_widget_grows (lid : string) (ws : option QgsEditorWidgetSetup)
    (acc l : list Issue) :
  check_widget h lid ws acc = Ok l -> acc `prefix_of` l.
Proof.
  rewrite check_widget_acc. destruct (check_widget h lid ws []) as [new|]; [ | discriminate].
  intros [= <-]. apply prefix_app_r. reflexivity.
Qed.

Lemma check_proj_paths_relative_keeps (v v' : MerginProjectValidator) :
  check_proj_paths_relative v = Ok v' -> keeps v v'.
Proof.
  unfold check_proj_paths_relative. destruct (qgis_proj v) as [proj|]; cbn; [ | discriminate].
  destruct (readEntry proj "Paths" "/Absolute") as [abs_paths ok].
  destruct ok; cbn; [ | discriminate].
  destruct (negb _); intros [= <-]; [apply keeps_append | apply keeps_refl].
Qed.

Lemma check_saved_in_proj_dir_keeps (v v' : MerginProjectValidator) :
  check_saved_in_proj_dir h v = Ok v' -> keeps v v'.
Proof.
  unfold check_saved_in_proj_dir. destruct (layers v) as [ls|] eqn:Hls; cbn; [ | discriminate].
  destruct (for_ ls _ _) as [[bp iss]|] eqn:E; cbn; [ | discriminate].
  intros [= <-]. repeat split; cbn; try congruence.
  apply (for_preserves (fun s s' : gmap string (list string) * list Issue =>
                          snd s `prefix_of` snd s')) in E; [exact E | | | ].
  - intros s. reflexivity.
  - intros s1 s2 s3 H1 H2. etrans; eassumption.
  - intros [lid layer] [bp0 iss0] [bp1 iss1] _.
    destruct (defaultdict_getitem "gdal" bp0) as [gdal b1].
    destruct (defaultdict_getitem "ogr" b1) as [ogr b2].
    destruct (negb (bool_decide _)); [intros [= <- <-]; reflexivity | ].
    destruct (negb _); intros [= <- <-]; cbn; [apply prefix_app_r | ]; reflexivity.
Qed.

Lemma check_editable_vectors_format_keeps (v v' : MerginProjectValidator) :
  check_editable_vectors_format v = Ok v' -> keeps v v'.
Proof.
  unfold check_editable_vectors_format.
  destruct (layers v) as [ls|]; cbn; [ | discriminate].
  destruct (for_ ls _ _) as [iss|] eqn:E; cbn; [ | discriminate].
  intros [= <-]. repeat split; cbn.
  apply (for_preserves (fun s s' : list Issue => s `prefix_of` s')) in E; [exact E | | | ].
  - intros s. reflexivity.
  - intros s1 s2 s3 H1 H2. etrans; eassumption.
  - intros [lid layer] s s' _. destruct (editable v) as [ed|]; cbn; [ | discriminate].
    destruct (negb (bool_decide _)); [intros [= <-]; reflexivity | ].
    destruct (dataProvider layer) as [dp|]; cbn; [ | discriminate].
    destruct (negb _); intros [= <-]; [apply prefix_app_r | ]; reflexivity.
Qed.

Lemma check_offline_keeps (v v' : MerginProjectValidator) :
  check_offline v = Ok v' -> keeps v v'.
Proof.
  unfold check_offline. destruct (layers v) as [ls|]; cbn; [ | discriminate].
  destruct (for_ ls _ _) as [w_layers|]; cbn; [ | discriminate].
  destruct w_layers; intros [= <-]; [apply keeps_refl | apply keeps_append].
Qed.

Lemma check_attachment_widget_keeps (v v' : MerginProjectValidator) :
  check_attachment_widget h v = Ok v' -> keeps v v'.
Proof.
  unfold check_attachment_widget. destruct (layers v) as [ls|]; cbn; [ | discriminate].
  destruct (for_ ls _ _) as [iss|] eqn:E; cbn; [ | discriminate].
  intros [= <-]. repeat split; cbn.
  apply (for_preserves (fun s s' : list Issue => s `prefix_of` s')) in E; [exact E | | | ].
  - intros s. reflexivity.
  - intros s1 s2 s3 H1 H2. etrans; eassumption.
  - intros [lid layer] s s' _. destruct (editable v) as [ed|]; cbn; [ | discriminate].
    destruct (negb (bool_decide _)); [intros [= <-]; reflexivity | ].
    apply (for_preserves (fun s s' : list Issue => s `prefix_of` s')).
    + intros t. reflexivity.
    + intros s1 s2 s3 H1 H2. etrans; eassumption.
    + intros ws t t' _. apply check_widget_grows.
Qed.

Lemma check_db_schema_keeps (v v' : MerginProjectValidator) :
  check_db_schema h v = Ok v' -> keeps v v'.
Proof.
  unfold check_db_schema. destruct (layers v) as [ls|]; cbn; [ | discriminate].
  destruct (for_ ls _ _) as [iss|] eqn:E; cbn; [ | discriminate].
  intros [= <-]. repeat split; cbn.
  apply (for_preserves (fun s s' : list Issue => s `prefix_of` s')) in E; [exact E | | | ].
  - intros s. reflexivity.
  - intros s1 s2 s3 H1 H2. etrans; eassumption.
  - intros [lid layer] s s' _. destruct (editable v) as [ed|]; cbn; [ | discriminate].
    destruct (negb (bool_decide _)); [intros [= <-]; reflexivity | ].
    destruct (dataProvider layer) as [dp|]; cbn; [ | discriminate].
    destruct (bool_decide _); [ | intros [= <-]; reflexivity].
    destruct (has_schema_change h (mp v) layer) as [has_change msg].
    destruct (negb has_change); intros [= <-]; [apply prefix_app_r | ]; reflexivity.
Qed.

Lemma get_proj_layers_grows (v v' : MerginProjectValidator) :
  get_proj_layers v = Ok v' ->
  mp v' = mp v /\ qgis_proj v' = qgis_proj v /\ qgis_proj_dir v' = qgis_proj_dir v
  /\ issues v `prefix_of` issues v'.
Proof.
  unfold get_proj_layers. destruct (qgis_proj v) as [proj|] eqn:Hproj; cbn; [ | discriminate].
  destruct (for_ (mapLayers proj) _ _) as [[ed bp]|]; cbn; [ | discriminate].
  destruct (bool_decide _); intros [= <-]; cbn; repeat split; try congruence.
  all: try apply prefix_app_r; reflexivity.
Qed.

End Frames.

(** X1.  Whatever validator [run_checks] is called on and whatever the
    project, a run that returns hands back the validator's own issue list,
    which begins with the issues the validator held before the run, in their
    order: issues are added at the end, never removed or moved. *)
Theorem run_checks_only_appends :
  forall (h : Host) (v v' : MerginProjectValidator) (l : list Issue),
    run_checks h v = Ok (l, v') ->
    l = issues v' /\ issues v `prefix_of` l /\ mp v' = mp v.
Proof.
  intros h v v' l. unfold run_checks, check_single_proj.
  set (d := match mp v with Some p => dir p | None => _ end).
  case_bool_decide; cbn [negb].
  { intros [= <- <-]. cbn. repeat split. apply prefix_app_r. reflexivity. }
  case_bool_decide; cbn [negb].
  { intros [= <- <-]. cbn. repeat split. apply prefix_app_r. reflexivity. }
  unfold check_proj_loaded. cbn [qgis_files operand mbind result_bind].
  destruct (find_qgis_files h d) as [|f fs]; cbn [mbind result_bind]; [discriminate | ].
  destruct (same_dir h (Some f) _); cbn [negb mbind result_bind].
  2:{ intros [= <- <-]. cbn. repeat split. apply prefix_app_r. reflexivity. }
  match goal with |- context [get_proj_layers ?v0] => set (v0' := v0) end.
  destruct (get_proj_layers v0') as [v1|] eqn:E1; cbn; [ | discriminate].
  destruct (check_proj_paths_relative v1) as [v2|] eqn:E2; cbn; [ | discriminate].
  destruct (check_saved_in_proj_dir h v2) as [v3|] eqn:E3; cbn; [ | discriminate].
  destruct (check_editable_vectors_format v3) as [v4|] eqn:E4; cbn; [ | discriminate].
  destruct (check_offline v4) as [v5|] eqn:E5; cbn; [ | discriminate].
  destruct (check_attachment_widget h v5) as [v6|] eqn:E6; cbn; [ | discriminate].
  destruct (check_db_schema h v6) as [v7|] eqn:E7; cbn; [ | discriminate].
  intros [= <- <-]. split; [reflexivity | ].
  apply get_proj_layers_grows in E1 as (M1 & _ & _ & P1).
  apply check_proj_paths_relative_keeps in E2 as (M2 & _ & _ & _ & _ & P2).
  apply check_saved_in_proj_dir_keeps in E3 as (M3 & _ & _ & _ & _ & P3).
  apply check_editable_vectors_format_keeps in E4 as (M4 & _ & _ & _ & _ & P4).
  apply check_offline_keeps in E5 as (M5 & _ & _ & _ & _ & P5).
  apply check_attachment_widget_keeps in E6 as (M6 & _ & _ & _ & _ & P6).
  apply check_db_schema_keeps in E7 as (M7 & _ & _ & _ & _ & P7).
  split.
  - etrans; [exact P1 | ]. etrans; [exact P2 | ]. etrans; [exact P3 | ].
    etrans; [exact P4 | ]. etrans; [exact P5 | ]. etrans; [exact P6 | exact P7].
  - rewrite M7, M6, M5, M4, M3, M2, M1. reflexivity.
Qed.

Lemma run_checks_only_appends_witness :
  exists l v',
    run_checks Samples.survey
      (append_issue (MultipleLayersWarning PROJ_NOT_FOUND [])
         (MerginProjectValidator_init (Some Samples.project))) = Ok (l, v')
    /\ [MultipleLayersWarning PROJ_NOT_FOUND []] `prefix_of` l.
Proof.
  destruct (run_checks Samples.survey
              (append_issue (MultipleLayersWarning PROJ_NOT_FOUND [])
                 (MerginProjectValidator_init (Some Samples.project))))
    as [[l v']|e] eqn:E.
  - exists l, v'. split; [reflexivity | ].
    exact (proj1 (proj2 (run_checks_only_appends Samples.survey _ v' l E))).
  - vm_compute in E. discriminate E.
Defined.

(** *** The project that is not open, the entry that cannot be read *)

Lemma same_dir_empty (h : Host) (dir1 : option string) :
  same_dir h dir1 (Some ""%string) = false.
Proof.
  unfold same_dir. destruct dir1 as [d1|]; [ | reflexivity].
  cbn. rewrite orb_true_r. reflexivity.
Qed.

(** X2.  When the directory holds exactly one project file and QGIS does not
    have that file open, a run on a new validator returns the single issue
    PROJ_NOT_LOADED and stops: the path of the file is recorded, no layer is
    read.  This is the case in particular when no project file is open in
    QGIS at all (the path of the open project is empty). *)
Theorem run_checks_project_not_loaded :
  forall (h : Host) (mergin_project : option MerginProject) (path : string),
    find_qgis_files h (target_dir h mergin_project) = [path] ->
    same_dir h (Some path) (Some (absoluteFilePath (QgsProject_instance h))) = false
    \/ absoluteFilePath (QgsProject_instance h) = ""%string ->
    exists v',
      run_checks h (MerginProjectValidator_init mergin_project) =
        Ok ([MultipleLayersWarning PROJ_NOT_LOADED []], v')
      /\ qgis_proj_path v' = Some path
      /\ qgis_proj v' = None /\ layers v' = None /\ editable v' = None.
Proof.
  intros h mergin_project path Hfiles Hnot.
  assert (Hsame : same_dir h (Some path)
                    (Some (absoluteFilePath (QgsProject_instance h))) = false).
  { destruct Hnot as [H | H]; [exact H | rewrite H; apply same_dir_empty]. }
  unfold run_checks, check_single_proj. cbn [mp MerginProjectValidator_init].
  fold (target_dir h mergin_project). rewrite Hfiles.
  rewrite bool_decide_eq_false_2 by (cbn; lia).
  rewrite bool_decide_eq_false_2 by (cbn; lia).
  cbn [negb]. unfold check_proj_loaded. cbn [qgis_files operand mbind result_bind].
  rewrite Hsame. cbn [negb mbind result_bind].
  eexists. split; [reflexivity | ]. repeat split.
Qed.

Lemma run_checks_project_not_loaded_witness :
  exists v',
    run_checks
      {| QgsProject_instance :=
           {| absolutePath := ""; absoluteFilePath := "";
              readEntry := fun _ _ => (""%string, false); mapLayers := [] |};
         os_walk := os_walk Samples.survey;
         os_path_splitext := os_path_splitext Samples.survey;
         os_path_join := os_path_join Samples.survey;
         os_path_isabs := os_path_isabs Samples.survey;
         os_path_dirname := os_path_dirname Samples.survey;
         Path_eq := Path_eq Samples.survey;
         QgsExpression_isValid := QgsExpression_isValid Samples.survey;
         has_schema_change := has_schema_change Samples.survey |}
      (MerginProjectValidator_init (Some Samples.project)) =
      Ok ([MultipleLayersWarning PROJ_NOT_LOADED []], v')
    /\ qgis_proj_path v' = Some "/home/anna/survey/survey.qgz"%string
    /\ qgis_proj v' = None /\ layers v' = None /\ editable v' = None.
Proof.
  apply (run_checks_project_not_loaded _ (Some Samples.project)
           "/home/anna/survey/survey.qgz");
    [reflexivity | right; reflexivity].
Defined.

(** X3.  On a loaded project whose entry Paths/Absolute cannot be read (the
    flag returned with it is false), a run ends with the AssertionError of
    [check_proj_paths_relative]: no issue list is returned, whatever the
    layers are. *)
Theorem run_checks_unreadable_entry :
  forall (h : Host) (mergin_project : option MerginProject),
    loaded h mergin_project ->
    snd (readEntry (QgsProject_instance h) "Paths" "/Absolute") = false ->
    run_checks h (MerginProjectValidator_init mergin_project) = Raise AssertionError.
Proof.
  intros h mergin_project (path & Hfiles & Hsame) Hentry.
  unfold run_checks, check_single_proj. cbn [mp MerginProjectValidator_init].
  fold (target_dir h mergin_project). rewrite Hfiles.
  rewrite bool_decide_eq_false_2 by (cbn; lia).
  rewrite bool_decide_eq_false_2 by (cbn; lia).
  cbn [negb]. unfold check_proj_loaded. cbn [qgis_files operand mbind result_bind].
  rewrite Hsame. cbn [negb mbind result_bind].
  match goal with
  | |- context [get_proj_layers ?v] =>
      destruct (get_proj_layers_ok v (QgsProject_instance h) eq_refl)
        as (v1 & n1 & -> & _ & _ & _ & Hproj1 & _)
  end.
  cbn [mbind result_bind]. unfold check_proj_paths_relative. rewrite Hproj1. cbn.
  destruct (readEntry (QgsProject_instance h) "Paths" "/Absolute") as [abs_paths ok].
  cbn in Hentry. subst ok. reflexivity.
Qed.

Lemma run_checks_unreadable_entry_witness :
  run_checks
    {| QgsProject_instance :=
         {| absolutePath := absolutePath Samples.qgis_project;
            absoluteFilePath := absoluteFilePath Samples.qgis_project;
            readEntry := fun _ _ => (""%string, false);
            mapLayers := mapLayers Samples.qgis_project |};
       os_walk := os_walk Samples.survey;
       os_path_splitext := os_path_splitext Samples.survey;
       os_path_join := os_path_join Samples.survey;
       os_path_isabs := os_path_isabs Samples.survey;
       os_path_dirname := os_path_dirname Samples.survey;
       Path_eq := Path_eq Samples.survey;
       QgsExpression_isValid := QgsExpression_isValid Samples.survey;
       has_schema_change := has_schema_change Samples.survey |}
    (MerginProjectValidator_init (Some Samples.project)) = Raise AssertionError.
Proof.
  apply run_checks_unreadable_entry; [ | reflexivity].
  exists "/home/anna/survey/survey.qgz"%string. split; reflexivity.
Defined.

(** *** An attachment widget without the key RelativeStorage *)

Lemma check_widget_missing_key (h : Host) (lid : string) (w : QgsEditorWidgetSetup)
    (acc : list Issue) :
  widget_type w = "ExternalResource"%string ->
  config w !! "RelativeStorage"%string = None ->
  check_widget h lid (Some w) acc = Raise (KeyError "RelativeStorage").
Proof.
  intros Ht Hrel. unfold check_widget. rewrite bool_decide_eq_true_2 by exact Ht.
  unfold getitem. rewrite Hrel. reflexivity.
Qed.

Lemma check_attachment_widget_raises (h : Host) (v : MerginProjectValidator)
    (ls : list (string * QgsMapLayer)) (ed : list string) (lid : string)
    (layer : QgsMapLayer) (w : QgsEditorWidgetSetup) :
  layers v = Some ls -> editable v = Some ed ->
  (lid, layer) ∈ ls -> lid ∈ ed ->
  Some w ∈ editorWidgetSetups layer ->
  widget_type w = "ExternalResource"%string ->
  config w !! "RelativeStorage"%string = None ->
  exists e, check_attachment_widget h v = Raise e.
Proof.
  intros Hls Hed Hin Hlid Hw Ht Hrel. unfold check_attachment_widget.
  rewrite Hls, Hed. cbn [attr mbind result_bind].
  match goal with
  | |- context [for_ ls ?body ?s0] =>
      destruct (for_raises body ls (lid, layer) Hin) with (s := s0) as [e ->]
  end.
  - intros s. cbn [operand mbind result_bind].
    rewrite bool_decide_eq_true_2 by exact Hlid. cbn [negb].
    apply (for_raises (check_widget h lid) _ (Some w) Hw).
    intros acc. exists (KeyError "RelativeStorage").
    apply check_widget_missing_key; assumption.
  - exists e. reflexivity.
Qed.

(** X4.  On a loaded project, if an editable layer (registered under its
    own id) has a field whose attachment widget is configured without the key
    RelativeStorage, a run returns no issue list: it ends with an exception
    (the KeyError of the attachment check, unless an earlier check has
    already raised). *)
Theorem run_checks_raises_on_missing_key :
  forall (h : Host) (mergin_project : option MerginProject)
         (layer : QgsMapLayer) (w : QgsEditorWidgetSetup),
    loaded h mergin_project ->
    (id layer, layer) ∈ mapLayers (QgsProject_instance h) ->
    is_editable layer = true ->
    Some w ∈ editorWidgetSetups layer ->
    widget_type w = "ExternalResource"%string ->
    config w !! "RelativeStorage"%string = None ->
    exists e, run_checks h (MerginProjectValidator_init mergin_project) = Raise e.
Proof.
  intros h mergin_project layer w (path & Hfiles & Hsame) Hin Hedit Hw Ht Hrel.
  unfold run_checks, check_single_proj. cbn [mp MerginProjectValidator_init].
  fold (target_dir h mergin_project). rewrite Hfiles.
  rewrite bool_decide_eq_false_2 by (cbn; lia).
  rewrite bool_decide_eq_false_2 by (cbn; lia).
  cbn [negb]. unfold check_proj_loaded. cbn [qgis_files operand mbind result_bind].
  rewrite Hsame. cbn [negb mbind result_bind].
  match goal with
  | |- context [get_proj_layers ?v] =>
      destruct (get_proj_layers_ok v (QgsProject_instance h) eq_refl)
        as (v1 & n1 & -> & _ & Hls1 & Hed1 & _)
  end.
  cbn [mbind result_bind].
  destruct (check_proj_paths_relative v1) as [v2|e] eqn:E2; cbn [mbind result_bind];
    [ | eexists; reflexivity].
  destruct (check_saved_in_proj_dir h v2) as [v3|e] eqn:E3; cbn [mbind result_bind];
    [ | eexists; reflexivity].
  destruct (check_editable_vectors_format v3) as [v4|e] eqn:E4; cbn [mbind result_bind];
    [ | eexists; reflexivity].
  destruct (check_offline v4) as [v5|e] eqn:E5; cbn [mbind result_bind];
    [ | eexists; reflexivity].
  apply check_proj_paths_relative_keeps in E2 as (_ & L2 & D2 & _).
  apply check_saved_in_proj_dir_keeps in E3 as (_ & L3 & D3 & _).
  apply check_editable_vectors_format_keeps in E4 as (_ & L4 & D4 & _).
  apply check_offline_keeps in E5 as (_ & L5 & D5 & _).
  destruct (check_attachment_widget_raises h v5 (mapLayers (QgsProject_instance h))
              (editable_ids (mapLayers (QgsProject_instance h))) (id layer) layer w)
    as [e ->]; try assumption.
  - congruence.
  - congruence.
  - unfold editable_ids. apply list_elem_of_omap. exists (id layer, layer).
    split; [exact Hin | ]. rewrite Hedit. reflexivity.
  - exists e. reflexivity.
Qed.

Lemma run_checks_raises_on_missing_key_witness :
  exists e,
    run_checks (MoreSamples.host_with MoreSamples.broken_project)
      (MerginProjectValidator_init (Some Samples.project)) = Raise e.
Proof.
  eapply (run_checks_raises_on_missing_key
            (MoreSamples.host_with MoreSamples.broken_project) (Some Samples.project)
            MoreSamples.photos).
  - exists "/home/anna/survey/survey.qgz"%string. split; reflexivity.
  - repeat constructor.
  - reflexivity.
  - repeat constructor.
  - reflexivity.
  - reflexivity.
Defined.

(** *** Each check, exactly *)

Lemma defaultdict_getitem_spec (key : string) (d : gmap string (list string)) :
  fst (defaultdict_getitem key d) = default [] (d !! key)
  /\ same_groups d (snd (defaultdict_getitem key d)).
Proof.
  unfold defaultdict_getitem, same_groups. destruct (d !! key) as [l|] eqn:E; cbn.
  - split; [reflexivity | intros k; reflexivity].
  - split; [reflexivity | ]. intros k. destruct (decide (key = k)) as [<- | Hne].
    + rewrite lookup_insert_eq, E. reflexivity.
    + rewrite lookup_insert_ne by exact Hne. reflexivity.
Qed.

Lemma provider_group_snoc (name lid : string) (layer : QgsMapLayer)
    (done : list (string * QgsMapLayer)) :
  provider_group name (done ++ [(lid, layer)]) =
  provider_group name done ++
    match dataProvider layer with
    | Some dp => if bool_decide (provider_name dp = name) then [lid] else []
    | None => []
    end.
Proof.
  unfold provider_group. rewrite omap_app. cbn.
  destruct (dataProvider layer) as [dp|]; [ | reflexivity].
  destruct (bool_decide _); reflexivity.
Qed.

Lemma editable_ids_snoc (lid : string) (layer : QgsMapLayer)
    (done : list (string * QgsMapLayer)) :
  editable_ids (done ++ [(lid, layer)]) =
  editable_ids done ++ (if is_editable layer then [id layer] else []).
Proof.
  unfold editable_ids. rewrite omap_app. cbn. destruct (is_editable layer); reflexivity.
Qed.

Section ExactChecks.
Variable h : Host.

Lemma get_proj_layers_exact (v : MerginProjectValidator) (proj : QgsProject) :
  qgis_proj v = Some proj ->
  exists v',
    get_proj_layers v = Ok v'
    /\ mp v' = mp v /\ layers v' = Some (mapLayers proj)
    /\ editable v' = Some (editable_ids (mapLayers proj))
    /\ qgis_proj v' = qgis_proj v /\ qgis_proj_dir v' = qgis_proj_dir v
    /\ issues v' = issues v ++ layers_issues (mapLayers proj)
    /\ forall k, default [] (layers_by_prov v' !! k) =
                 default [] (layers_by_prov v !! k) ++ provider_group k (mapLayers proj).
Proof.
  intros Hproj. unfold get_proj_layers. rewrite Hproj. cbn [attr mbind result_bind].
  match goal with
  | |- context [for_ ?xs ?body ?s0] =>
      destruct (for_rule (fun done (s : list string * gmap string (list string)) =>
                            fst s = editable_ids done
                            /\ forall k, default [] (snd s !! k) =
                                 default [] (layers_by_prov v !! k) ++ provider_group k done)
                         body xs s0) as ([ed bp] & -> & Hed & Hbp)
  end.
  - split; [reflexivity | ]. intros k. cbn. rewrite app_nil_r. reflexivity.
  - intros done [lid layer] rest [ed bp] _ [Hed Hbp]. cbn in Hed, Hbp. subst ed.
    rewrite editable_ids_snoc. unfold is_editable.
    destruct (dataProvider layer) as [dp|] eqn:Hdp.
    + pose proof (defaultdict_getitem_spec (provider_name dp) bp) as [Hl Hsame].
      destruct (defaultdict_getitem (provider_name dp) bp) as [l bp']. cbn in Hl, Hsame.
      assert (Hgroups : forall k,
                default [] (<[provider_name dp := l ++ [lid]]> bp' !! k) =
                default [] (layers_by_prov v !! k)
                  ++ provider_group k (done ++ [(lid, layer)])).
      { intros k. rewrite provider_group_snoc, Hdp, app_assoc, <- Hbp.
        destruct (decide (provider_name dp = k)) as [<- | Hne].
        - rewrite lookup_insert_eq, bool_decide_eq_true_2 by reflexivity.
          cbn. rewrite Hl. reflexivity.
        - rewrite lookup_insert_ne by exact Hne.
          rewrite bool_decide_eq_false_2 by exact Hne. rewrite app_nil_r. apply Hsame. }
      destruct (bool_decide (type layer = VectorLayer)); cbn [andb].
      * destruct (can_edit (capabilities dp)); eexists; (split; [reflexivity | ]);
          (split; [cbn; rewrite ?app_nil_r; reflexivity | exact Hgroups]).
      * eexists; (split; [reflexivity | ]);
          (split; [cbn; rewrite ?app_nil_r; reflexivity | exact Hgroups]).
    + eexists. split; [reflexivity | ]. split; [cbn; rewrite app_nil_r; reflexivity | ].
      intros k. rewrite provider_group_snoc, Hdp, app_nil_r. apply Hbp.
  - cbn in Hed, Hbp. subst ed. cbn [mbind result_bind]. unfold layers_issues.
    case_bool_decide.
    + eexists. split; [reflexivity | ]. cbn. repeat split; try reflexivity. exact Hbp.
    + eexists. split; [reflexivity | ]. cbn. rewrite app_nil_r.
      repeat split; try reflexivity. exact Hbp.
Qed.

Lemma check_proj_paths_relative_exact (v : MerginProjectValidator) (proj : QgsProject) :
  qgis_proj v = Some proj ->
  snd (readEntry proj "Paths" "/Absolute") = true ->
  exists v',
    check_proj_paths_relative v = Ok v' /\ extends v v' (paths_issues proj)
    /\ layers_by_prov v' = layers_by_prov v.
Proof.
  intros Hproj Hok. unfold check_proj_paths_relative, paths_issues. rewrite Hproj.
  cbn [attr mbind result_bind].
  destruct (readEntry proj "Paths" "/Absolute") as [abs_paths ok]. cbn in Hok. subst ok.
  cbn [negb fst]. destruct (negb _).
  - eexists. split; [reflexivity | ]. split; [repeat split | reflexivity].
  - exists v. split; [reflexivity | ]. split; [ | reflexivity].
    unfold extends. rewrite app_nil_r. repeat split.
Qed.

Lemma external_issues_snoc (group : list string) (proj_dir : option string)
    (done : list (string * QgsMapLayer)) (lid : string) (layer : QgsMapLayer) :
  external_issues h group proj_dir (done ++ [(lid, layer)]) =
  external_issues h group proj_dir done ++
    (if bool_decide (lid ∈ group)
        && negb (same_dir h (Some (layer_dir h layer)) proj_dir)
     then [SingleLayerWarning lid EXTERNAL_SRC] else []).
Proof. unfold external_issues. apply flat_map_snoc. Qed.

Lemma check_saved_in_proj_dir_exact (v : MerginProjectValidator)
    (ls : list (string * QgsMapLayer)) :
  layers v = Some ls ->
  exists v',
    check_saved_in_proj_dir h v = Ok v'
    /\ extends v v'
         (external_issues h
            (default [] (layers_by_prov v !! "gdal"%string)
               ++ default [] (layers_by_prov v !! "ogr"%string))
            (qgis_proj_dir v) ls).
Proof.
  intros Hls. unfold check_saved_in_proj_dir. rewrite Hls. cbn [attr mbind result_bind].
  set (group := default [] (layers_by_prov v !! "gdal"%string)
                  ++ default [] (layers_by_prov v !! "ogr"%string)).
  match goal with
  | |- context [for_ ?xs ?body ?s0] =>
      destruct (for_rule (fun done (s : gmap string (list string) * list Issue) =>
                            same_groups (layers_by_prov v) (fst s)
                            /\ snd s = issues v
                                 ++ external_issues h group (qgis_proj_dir v) done)
                         body xs s0) as ([bp iss] & -> & _ & Hiss)
  end.
  - split; [intros k; reflexivity | ]. cbn. rewrite app_nil_r. reflexivity.
  - intros done [lid layer] rest [bp iss] _ [Hsame Hiss]. cbn in Hsame, Hiss. subst iss.
    rewrite external_issues_snoc.
    pose proof (defaultdict_getitem_spec "gdal" bp) as [Hg Hs1].
    destruct (defaultdict_getitem "gdal" bp) as [gdal bp1]. cbn in Hg, Hs1.
    pose proof (defaultdict_getitem_spec "ogr" bp1) as [Ho Hs2].
    destruct (defaultdict_getitem "ogr" bp1) as [ogr bp2]. cbn in Ho, Hs2.
    assert (Hgroup : gdal ++ ogr = group).
    { unfold group. rewrite Hg, Ho, (Hs1 "ogr"%string), !Hsame. reflexivity. }
    assert (Hsame2 : same_groups (layers_by_prov v) bp2).
    { intros k. rewrite Hs2, Hs1. apply Hsame. }
    rewrite Hgroup. destruct (bool_decide (lid ∈ group)); cbn [negb andb].
    + destruct (negb (same_dir h _ _)); eexists; (split; [reflexivity | ]);
        (split; [exact Hsame2 | cbn; rewrite ?app_nil_r, ?app_assoc; reflexivity]).
    + eexists. split; [reflexivity | ].
      split; [exact Hsame2 | cbn; rewrite app_nil_r; reflexivity].
  - cbn in Hiss. subst iss. cbn [mbind result_bind].
    eexists. split; [reflexivity | ]. repeat split. cbn. symmetry. exact Hls.
Qed.

Lemma format_issues_snoc (ed : list string) (done : list (string * QgsMapLayer))
    (lid : string) (layer : QgsMapLayer) :
  format_issues (done ++ [(lid, layer)]) ed =
  format_issues done ed ++
    (if bool_decide (lid ∈ ed) && negb (is_gpkg layer)
     then [SingleLayerWarning lid EDITABLE_NON_GPKG] else []).
Proof. unfold format_issues. apply flat_map_snoc. Qed.

Lemma check_editable_vectors_format_exact (v : MerginProjectValidator)
    (ls : list (string * QgsMapLayer)) (ed : list string) :
  layers v = Some ls -> editable v = Some ed ->
  (forall lid layer, (lid, layer) ∈ ls -> lid ∈ ed -> is_Some (dataProvider layer)) ->
  exists v',
    check_editable_vectors_format v = Ok v' /\ extends v v' (format_issues ls ed).
Proof.
  intros Hls Hed Hdp. unfold check_editable_vectors_format. rewrite Hls, Hed.
  cbn [attr mbind result_bind].
  match goal with
  | |- context [for_ ?xs ?body ?s0] =>
      destruct (for_rule (fun done (s : list Issue) =>
                            s = issues v ++ format_issues done ed)
                         body xs s0) as (iss & -> & ->)
  end.
  - cbn. rewrite app_nil_r. reflexivity.
  - intros done [lid layer] rest iss Hsplit ->. rewrite format_issues_snoc.
    cbn [operand mbind result_bind]. case_bool_decide as Hin; cbn [negb andb].
    + destruct (Hdp lid layer) as [dp Hprov]; [ | exact Hin | ].
      { rewrite Hsplit. apply elem_of_app. right. apply elem_of_cons. left. reflexivity. }
      unfold is_gpkg. rewrite Hprov. cbn [attr mbind result_bind].
      destruct (negb _); eexists; (split; [reflexivity | ]);
        rewrite ?app_nil_r, ?app_assoc; reflexivity.
    + eexists. split; [reflexivity | ]. rewrite app_nil_r. reflexivity.
  - cbn [mbind result_bind]. eexists. split; [reflexivity | ]. repeat split.
Qed.

Lemma check_offline_exact (v : MerginProjectValidator) (ls : list (string * QgsMapLayer)) :
  layers v = Some ls ->
  exists v', check_offline v = Ok v' /\ extends v v' (offline_issues ls).
Proof.
  intros Hls. unfold check_offline. rewrite Hls. cbn [attr mbind result_bind].
  match goal with
  | |- context [for_ ?xs ?body ?s0] =>
      destruct (for_rule (fun done (s : list string) => s = offline_layers done)
                         body xs s0) as (w_layers & -> & ->)
  end.
  - reflexivity.
  - intros done [lid layer] rest w_layers _ ->. unfold offline_layers.
    rewrite omap_app. cbn. unfold online.
    destruct (dataProvider layer) as [dp|].
    + destruct (bool_decide _); eexists; (split; [reflexivity | ]);
        rewrite ?app_nil_r; reflexivity.
    + eexists. split; [reflexivity | ]. rewrite app_nil_r. reflexivity.
  - cbn [mbind result_bind]. unfold offline_issues.
    destruct (offline_layers ls) as [|l0 rest].
    + exists v. split; [reflexivity | ]. unfold extends. rewrite app_nil_r. repeat split.
    + eexists. split; [reflexivity | ]. repeat split.
Qed.

End ExactChecks.

(** *** The issue list of a loaded project *)

(** X5.  On a loaded, well-formed project a run ends normally, and its
    issue list is, in this order: NO_EDITABLE_LAYERS if no layer is
    editable; ABSOLUTE_PATHS unless the entry Paths/Absolute reads "false";
    EXTERNAL_SRC for the GDAL and OGR layers kept outside the project
    directory; EDITABLE_NON_GPKG for the editable layers not stored in a
    GeoPackage; one NOT_FOR_OFFLINE issue for the network and database
    layers; the attachment issues; the schema issues.  Within a group the
    issues follow the order of the layer map. *)
Theorem run_checks_exact :
  forall (h : Host) (mergin_project : option MerginProject),
    well_formed h ->
    loaded h mergin_project ->
    exists v',
      run_checks h (MerginProjectValidator_init mergin_project) =
        Ok (all_issues h mergin_project, v').
Proof.
  intros h mergin_project Hwf (path & Hfiles & Hsame).
  unfold run_checks, check_single_proj. cbn [mp MerginProjectValidator_init].
  fold (target_dir h mergin_project). rewrite Hfiles.
  rewrite bool_decide_eq_false_2 by (cbn; lia).
  rewrite bool_decide_eq_false_2 by (cbn; lia).
  cbn [negb]. unfold check_proj_loaded. cbn [qgis_files operand mbind result_bind].
  rewrite Hsame. cbn [negb mbind result_bind].
  set (proj := QgsProject_instance h). set (ls := mapLayers proj).
  match goal with
  | |- context [get_proj_layers ?v] =>
      destruct (get_proj_layers_exact v proj eq_refl)
        as (v1 & -> & Hmp1 & Hls1 & Hed1 & Hproj1 & Hdir1 & Hiss1 & Hbp1)
  end.
  cbn in Hmp1, Hproj1, Hdir1, Hiss1, Hbp1. fold ls in Hls1, Hed1, Hiss1, Hbp1.
  cbn [mbind result_bind].
  destruct (check_proj_paths_relative_exact v1 proj Hproj1 (wf_entry h Hwf))
    as (v2 & -> & (Hmp2 & Hls2 & Hed2 & Hproj2 & Hdir2 & Hiss2) & Hbp2).
  cbn [mbind result_bind].
  rewrite Hmp1 in Hmp2. rewrite Hls1 in Hls2. rewrite Hed1 in Hed2. rewrite Hiss1 in Hiss2.
  rewrite Hdir1 in Hdir2.
  destruct (check_saved_in_proj_dir_exact h v2 ls Hls2)
    as (v3 & -> & (Hmp3 & Hls3 & Hed3 & Hproj3 & Hdir3 & Hiss3)).
  cbn [mbind result_bind].
  rewrite Hbp2, !Hbp1, Hdir2 in Hiss3. rewrite lookup_empty in Hiss3. cbn [default app] in Hiss3.
  rewrite Hmp2 in Hmp3. rewrite Hls2 in Hls3. rewrite Hed2 in Hed3. rewrite Hiss2 in Hiss3.
  destruct (check_editable_vectors_format_exact v3 ls (editable_ids ls) Hls3 Hed3
              (editable_has_provider h Hwf))
    as (v4 & -> & (Hmp4 & Hls4 & Hed4 & Hproj4 & Hdir4 & Hiss4)).
  cbn [mbind result_bind].
  rewrite Hmp3 in Hmp4. rewrite Hls3 in Hls4. rewrite Hed3 in Hed4. rewrite Hiss3 in Hiss4.
  destruct (check_offline_exact v4 ls Hls4)
    as (v5 & -> & (Hmp5 & Hls5 & Hed5 & Hproj5 & Hdir5 & Hiss5)).
  cbn [mbind result_bind].
  rewrite Hmp4 in Hmp5. rewrite Hls4 in Hls5. rewrite Hed4 in Hed5. rewrite Hiss4 in Hiss5.
  destruct (check_attachment_widget_ok h v5 ls (editable_ids ls) Hls5 Hed5
              (wf_widgets h Hwf))
    as (v6 & -> & (Hmp6 & Hls6 & Hed6 & Hproj6 & Hdir6 & Hiss6)).
  cbn [mbind result_bind].
  rewrite Hmp5 in Hmp6. rewrite Hls5 in Hls6. rewrite Hed5 in Hed6. rewrite Hiss5 in Hiss6.
  destruct (check_db_schema_ok h v6 ls (editable_ids ls) Hls6 Hed6
              (editable_has_provider h Hwf))
    as (v7 & -> & (Hmp7 & Hls7 & Hed7 & Hproj7 & Hdir7 & Hiss7)).
  cbn [mbind result_bind].
  rewrite Hiss6, Hmp6 in Hiss7.
  exists v7. rewrite Hiss7. unfold all_issues. fold proj. fold ls.
  cbn [app]. rewrite <- !app_assoc. reflexivity.
Qed.

Lemma mixed_well_formed : well_formed MoreSamples.mixed.
Proof.
  split.
  - cbn. apply (bool_decide_unpack (NoDup _)). vm_compute. exact I.
  - repeat constructor.
  - reflexivity.
  - widgets_ok.
Qed.

Lemma mixed_loaded : loaded MoreSamples.mixed (Some Samples.project).
Proof.
  exists "/home/anna/survey/survey.qgz"%string. split; reflexivity.
Qed.

Lemma run_checks_exact_witness :
  exists v',
    run_checks MoreSamples.mixed (MerginProjectValidator_init (Some Samples.project)) =
      Ok ([MultipleLayersWarning ABSOLUTE_PATHS [];
           SingleLayerWarning "parcels_1" EXTERNAL_SRC;
           SingleLayerWarning "parcels_1" EDITABLE_NON_GPKG;
           MultipleLayersWarning NOT_FOR_OFFLINE ["buildings_1"; "osm_1"]%string;
           SingleLayerWarning "points_1" ATTACHMENT_ABSOLUTE_PATH;
           SingleLayerWarning "points_1" ATTACHMENT_LOCAL_PATH;
           SingleLayerWarning "points_1" ATTACHMENT_EXPRESSION_PATH;
           SingleLayerWarning "points_1" ATTACHMENT_HYPERLINK], v').
Proof.
  destruct (run_checks_exact MoreSamples.mixed (Some Samples.project)
              mixed_well_formed mixed_loaded) as [v' Hrun].
  exists v'. rewrite Hrun. vm_compute. reflexivity.
Defined.

(** *** Which check an issue comes from *)

Lemma in_layers_issues (ls : list (string * QgsMapLayer)) (i : Issue) :
  i ∈ layers_issues ls <->
  editable_ids ls = [] /\ i = MultipleLayersWarning NO_EDITABLE_LAYERS [].
Proof.
  unfold layers_issues. rewrite elem_of_if_singleton, bool_decide_eq_true.
  destruct (editable_ids ls); cbn; intuition (try discriminate; try lia; auto).
Qed.

Lemma in_paths_issues (proj : QgsProject) (i : Issue) :
  i ∈ paths_issues proj <->
  fst (readEntry proj "Paths" "/Absolute") <> "false"%string
  /\ i = MultipleLayersWarning ABSOLUTE_PATHS [].
Proof.
  unfold paths_issues. rewrite elem_of_if_singleton, negb_true_iff, bool_decide_eq_false.
  reflexivity.
Qed.

Lemma in_external_issues (h : Host) (group : list string) (proj_dir : option string)
    (ls : list (string * QgsMapLayer)) (i : Issue) :
  i ∈ external_issues h group proj_dir ls <->
  exists lid layer,
    (lid, layer) ∈ ls /\ lid ∈ group
    /\ same_dir h (Some (layer_dir h layer)) proj_dir = false
    /\ i = SingleLayerWarning lid EXTERNAL_SRC.
Proof.
  unfold external_issues. rewrite elem_of_flat_map. split.
  - intros ([lid layer] & Hin & Hi). apply elem_of_if_singleton in Hi as [Hc ->].
    apply andb_true_iff in Hc as [Hg Hd]. apply bool_decide_eq_true in Hg.
    apply negb_true_iff in Hd. exists lid, layer. auto.
  - intros (lid & layer & Hin & Hg & Hd & ->). exists (lid, layer).
    split; [exact Hin | ]. apply elem_of_if_singleton. split; [ | reflexivity].
    rewrite bool_decide_eq_true_2 by exact Hg. rewrite Hd. reflexivity.
Qed.

Lemma in_format_issues (ls : list (string * QgsMapLayer)) (ed : list string) (i : Issue) :
  i ∈ format_issues ls ed <->
  exists lid layer,
    (lid, layer) ∈ ls /\ lid ∈ ed /\ is_gpkg layer = false
    /\ i = SingleLayerWarning lid EDITABLE_NON_GPKG.
Proof.
  unfold format_issues. rewrite elem_of_flat_map. split.
  - intros ([lid layer] & Hin & Hi). apply elem_of_if_singleton in Hi as [Hc ->].
    apply andb_true_iff in Hc as [Hg Hd]. apply bool_decide_eq_true in Hg.
    apply negb_true_iff in Hd. exists lid, layer. auto.
  - intros (lid & layer & Hin & Hg & Hd & ->). exists (lid, layer).
    split; [exact Hin | ]. apply elem_of_if_singleton. split; [ | reflexivity].
    rewrite bool_decide_eq_true_2 by exact Hg. rewrite Hd. reflexivity.
Qed.

Lemma in_offline_issues (ls : list (string * QgsMapLayer)) (i : Issue) :
  i ∈ offline_issues ls <->
  offline_layers ls <> [] /\ i = MultipleLayersWarning NOT_FOR_OFFLINE (offline_layers ls).
Proof.
  unfold offline_issues. destruct (offline_layers ls) as [|l0 rest].
  - split; [intros H; apply elem_of_nil in H; contradiction | intros [H _]; congruence].
  - rewrite list_elem_of_singleton. split; [intros ->; split; [discriminate | reflexivity] | tauto].
Qed.

(** An issue of a loaded project is found in the part of its warning. *)
Lemma in_all_issues (h : Host) (mergin_project : option MerginProject) (i : Issue) :
  i ∈ all_issues h mergin_project <-> i ∈ part_of h mergin_project (kind i).
Proof.
  unfold all_issues. rewrite !elem_of_app. split.
  - intros [H | [H | [H | [H | [H | [H | H]]]]]].
    + pose proof H as H'. apply in_layers_issues in H' as [_ ->]. exact H.
    + pose proof H as H'. apply in_paths_issues in H' as [_ ->]. exact H.
    + pose proof H as H'. apply in_external_issues in H' as (? & ? & _ & _ & _ & ->). exact H.
    + pose proof H as H'. apply in_format_issues in H' as (? & ? & _ & _ & _ & ->). exact H.
    + pose proof H as H'. apply in_offline_issues in H' as [_ ->]. exact H.
    + pose proof H as H'. apply in_attachment_issues in H' as (? & ? & ? & _ & _ & _ & H').
      apply widget_issues_kinds in H' as (w & -> & Hw). unfold attachment_kinds in Hw.
      cbn [kind]. in_list Hw; exact H.
    + pose proof H as H'. apply in_schema_issues in H' as (? & ? & _ & _ & _ & _ & ->). exact H.
  - unfold part_of. destruct (kind i); intros H; auto 10.
    all: apply elem_of_nil in H; contradiction.
Qed.

Lemma editable_ids_nil (ls : list (string * QgsMapLayer)) :
  editable_ids ls = [] <->
  forall lid layer, (lid, layer) ∈ ls -> is_editable layer = false.
Proof.
  unfold editable_ids. induction ls as [|[k l0] ls IH]; cbn.
  - split; [intros _ lid layer H; apply elem_of_nil in H; contradiction | reflexivity].
  - destruct (is_editable l0) eqn:E.
    + split; [discriminate | ]. intros H.
      specialize (H k l0 ltac:(apply elem_of_cons; left; reflexivity)). congruence.
    + rewrite IH. split.
      * intros H lid layer Hin. apply elem_of_cons in Hin as [[= -> ->] | Hin]; [exact E | ].
        apply (H lid). exact Hin.
      * intros H lid layer Hin. apply (H lid). apply elem_of_cons. right. exact Hin.
Qed.

Lemma in_provider_group (name lid : string) (ls : list (string * QgsMapLayer)) :
  lid ∈ provider_group name ls <->
  exists layer dp,
    (lid, layer) ∈ ls /\ dataProvider layer = Some dp /\ provider_name dp = name.
Proof.
  unfold provider_group. rewrite list_elem_of_omap. split.
  - intros ([k layer] & Hin & H). destruct (dataProvider layer) as [dp|] eqn:Hdp;
      [ | discriminate].
    case_bool_decide as Hn; [ | discriminate]. injection H as <-. exists layer, dp. auto.
  - intros (layer & dp & Hin & Hdp & Hn). exists (lid, layer). split; [exact Hin | ].
    rewrite Hdp, bool_decide_eq_true_2 by exact Hn. reflexivity.
Qed.

Lemma in_offline_layers (lid : string) (ls : list (string * QgsMapLayer)) :
  lid ∈ offline_layers ls <-> exists layer, (lid, layer) ∈ ls /\ online layer = true.
Proof.
  unfold offline_layers. rewrite list_elem_of_omap. split.
  - intros ([k layer] & Hin & H). destruct (online layer) eqn:E; [ | discriminate].
    injection H as <-. exists layer. auto.
  - intros (layer & Hin & E). exists (lid, layer). rewrite E. auto.
Qed.

Section Origins.
Variable h : Host.
Hypothesis Hwf : well_formed h.
Abbreviation ls := (mapLayers (QgsProject_instance h)).

Lemma file_group_spec (lid : string) (layer : QgsMapLayer) :
  (lid, layer) ∈ ls ->
  (lid ∈ provider_group "gdal" ls ++ provider_group "ogr" ls <-> file_based layer = true).
Proof.
  intros Hin. rewrite elem_of_app, !in_provider_group. unfold file_based. split.
  - intros [(l0 & dp & Hin0 & Hdp & Hn) | (l0 & dp & Hin0 & Hdp & Hn)];
      rewrite (NoDup_keys_unique ls lid layer l0 (wf_keys h Hwf) Hin Hin0), Hdp;
      apply bool_decide_eq_true; rewrite Hn; set_solver.
  - destruct (dataProvider layer) as [dp|] eqn:Hdp; [ | discriminate].
    intros H. apply bool_decide_eq_true in H.
    apply elem_of_cons in H as [H | H]; [left; exists layer, dp; auto | ].
    apply list_elem_of_singleton in H. right. exists layer, dp. auto.
Qed.

End Origins.

(** X6.  On a loaded, well-formed project the run reports
    NO_EDITABLE_LAYERS exactly when no layer of the project is an editable
    vector layer. *)
Theorem run_checks_no_editable_layers :
  forall (h : Host) (mergin_project : option MerginProject),
    well_formed h ->
    loaded h mergin_project ->
    exists l v',
      run_checks h (MerginProjectValidator_init mergin_project) = Ok (l, v')
      /\ (MultipleLayersWarning NO_EDITABLE_LAYERS [] ∈ l <->
          forall lid layer,
            (lid, layer) ∈ mapLayers (QgsProject_instance h) -> is_editable layer = false).
Proof.
  intros h mergin_project Hwf Hloaded.
  destruct (run_checks_exact h mergin_project Hwf Hloaded) as [v' ->].
  eexists _, v'. split; [reflexivity | ].
  rewrite in_all_issues. cbn [kind part_of]. rewrite in_layers_issues, editable_ids_nil.
  tauto.
Qed.

Lemma run_checks_no_editable_layers_witness :
  exists l v',
    run_checks MoreSamples.mixed (MerginProjectValidator_init (Some Samples.project)) =
      Ok (l, v')
    /\ (MultipleLayersWarning NO_EDITABLE_LAYERS [] ∈ l <->
        forall lid layer,
          (lid, layer) ∈ mapLayers MoreSamples.mixed_project -> is_editable layer = false).
Proof.
  exact (run_checks_no_editable_layers MoreSamples.mixed (Some Samples.project)
           mixed_well_formed mixed_loaded).
Defined.

(** X7.  On a loaded, well-formed project the run reports ABSOLUTE_PATHS
    exactly when the entry Paths/Absolute of the project is anything but the
    string "false". *)
Theorem run_checks_absolute_paths :
  forall (h : Host) (mergin_project : option MerginProject),
    well_formed h ->
    loaded h mergin_project ->
    exists l v',
      run_checks h (MerginProjectValidator_init mergin_project) = Ok (l, v')
      /\ (MultipleLayersWarning ABSOLUTE_PATHS [] ∈ l <->
          fst (readEntry (QgsProject_instance h) "Paths" "/Absolute") <> "false"%string).
Proof.
  intros h mergin_project Hwf Hloaded.
  destruct (run_checks_exact h mergin_project Hwf Hloaded) as [v' ->].
  eexists _, v'. split; [reflexivity | ].
  rewrite in_all_issues. cbn [kind part_of]. rewrite in_paths_issues. tauto.
Qed.

Lemma run_checks_absolute_paths_witness :
  exists l v',
    run_checks MoreSamples.mixed (MerginProjectValidator_init (Some Samples.project)) =
      Ok (l, v')
    /\ (MultipleLayersWarning ABSOLUTE_PATHS [] ∈ l <->
        fst (readEntry MoreSamples.mixed_project "Paths" "/Absolute") <> "false"%string).
Proof.
  exact (run_checks_absolute_paths MoreSamples.mixed (Some Samples.project)
           mixed_well_formed mixed_loaded).
Defined.

(** X8.  On a loaded, well-formed project the run reports EDITABLE_NON_GPKG
    for a layer exactly when the layer is editable and its storage type is
    not "GPKG". *)
Theorem run_checks_editable_non_gpkg :
  forall (h : Host) (mergin_project : option MerginProject)
         (lid : string) (layer : QgsMapLayer),
    well_formed h ->
    loaded h mergin_project ->
    (lid, layer) ∈ mapLayers (QgsProject_instance h) ->
    exists l v',
      run_checks h (MerginProjectValidator_init mergin_project) = Ok (l, v')
      /\ (SingleLayerWarning lid EDITABLE_NON_GPKG ∈ l <->
          is_editable layer = true /\ is_gpkg layer = false).
Proof.
  intros h mergin_project lid layer Hwf Hloaded Hin.
  destruct (run_checks_exact h mergin_project Hwf Hloaded) as [v' ->].
  eexists _, v'. split; [reflexivity | ].
  rewrite in_all_issues. cbn [kind part_of]. rewrite in_format_issues. split.
  - intros (k & l0 & Hin0 & Hed & Hg & [= <-]).
    rewrite (NoDup_keys_unique _ lid layer l0 (wf_keys h Hwf) Hin Hin0).
    split; [ | exact Hg]. apply (editable_ids_spec h Hwf lid l0 Hin0). exact Hed.
  - intros [He Hg]. exists lid, layer. repeat split; try assumption.
    apply (editable_ids_spec h Hwf lid layer Hin). exact He.
Qed.

Lemma run_checks_editable_non_gpkg_witness :
  exists l v',
    run_checks MoreSamples.mixed (MerginProjectValidator_init (Some Samples.project)) =
      Ok (l, v')
    /\ (SingleLayerWarning "parcels_1" EDITABLE_NON_GPKG ∈ l <->
        is_editable MoreSamples.parcels = true /\ is_gpkg MoreSamples.parcels = false).
Proof.
  apply (run_checks_editable_non_gpkg MoreSamples.mixed (Some Samples.project)
           "parcels_1" MoreSamples.parcels mixed_well_formed mixed_loaded).
  repeat constructor.
Defined.

(** X9.  On a loaded, well-formed project no layer is reported both for its
    storage format (EDITABLE_NON_GPKG) and for a schema change
    (DATABASE_SCHEMA_CHANGE): the schema is compared for GeoPackage layers
    only. *)
Theorem run_checks_format_or_schema :
  forall (h : Host) (mergin_project : option MerginProject) (lid : string),
    well_formed h ->
    loaded h mergin_project ->
    exists l v',
      run_checks h (MerginProjectValidator_init mergin_project) = Ok (l, v')
      /\ ~ (SingleLayerWarning lid EDITABLE_NON_GPKG ∈ l
            /\ SingleLayerWarning lid DATABASE_SCHEMA_CHANGE ∈ l).
Proof.
  intros h mergin_project lid Hwf Hloaded.
  destruct (run_checks_exact h mergin_project Hwf Hloaded) as [v' ->].
  eexists _, v'. split; [reflexivity | ].
  rewrite !in_all_issues. cbn [kind part_of]. rewrite in_format_issues, in_schema_issues.
  intros [(k1 & l1 & Hin1 & _ & Hg1 & [= <-]) (k2 & l2 & Hin2 & _ & Hg2 & _ & [= <-])].
  rewrite (NoDup_keys_unique _ lid l1 l2 (wf_keys h Hwf) Hin1 Hin2) in Hg1. congruence.
Qed.

Lemma run_checks_format_or_schema_witness :
  exists l v',
    run_checks MoreSamples.mixed (MerginProjectValidator_init (Some Samples.project)) =
      Ok (l, v')
    /\ ~ (SingleLayerWarning "parcels_1" EDITABLE_NON_GPKG ∈ l
          /\ SingleLayerWarning "parcels_1" DATABASE_SCHEMA_CHANGE ∈ l).
Proof.
  exact (run_checks_format_or_schema MoreSamples.mixed (Some Samples.project) "parcels_1"
           mixed_well_formed mixed_loaded).
Defined.

(** X10.  On a loaded, well-formed project the run reports EXTERNAL_SRC for
    a layer exactly when the layer's provider is gdal or ogr and the
    directory of its source is not the directory of the project. *)
Theorem run_checks_external_src :
  forall (h : Host) (mergin_project : option MerginProject)
         (lid : string) (layer : QgsMapLayer),
    well_formed h ->
    loaded h mergin_project ->
    (lid, layer) ∈ mapLayers (QgsProject_instance h) ->
    exists l v',
      run_checks h (MerginProjectValidator_init mergin_project) = Ok (l, v')
      /\ (SingleLayerWarning lid EXTERNAL_SRC ∈ l <->
          file_based layer = true
          /\ same_dir h (Some (layer_dir h layer))
               (Some (target_dir h mergin_project)) = false).
Proof.
  intros h mergin_project lid layer Hwf Hloaded Hin.
  destruct (run_checks_exact h mergin_project Hwf Hloaded) as [v' ->].
  eexists _, v'. split; [reflexivity | ].
  rewrite in_all_issues. cbn [kind part_of]. rewrite in_external_issues. split.
  - intros (k & l0 & Hin0 & Hg & Hd & [= <-]).
    rewrite (NoDup_keys_unique _ lid layer l0 (wf_keys h Hwf) Hin Hin0).
    split; [ | exact Hd]. apply (file_group_spec h Hwf lid l0 Hin0). exact Hg.
  - intros [Hf Hd]. exists lid, layer. repeat split; try assumption.
    apply (file_group_spec h Hwf lid layer Hin). exact Hf.
Qed.

Lemma run_checks_external_src_witness :
  exists l v',
    run_checks MoreSamples.mixed (MerginProjectValidator_init (Some Samples.project)) =
      Ok (l, v')
    /\ (SingleLayerWarning "parcels_1" EXTERNAL_SRC ∈ l <->
        file_based MoreSamples.parcels = true
        /\ same_dir MoreSamples.mixed (Some (layer_dir MoreSamples.mixed MoreSamples.parcels))
             (Some (target_dir MoreSamples.mixed (Some Samples.project))) = false).
Proof.
  apply (run_checks_external_src MoreSamples.mixed (Some Samples.project)
           "parcels_1" MoreSamples.parcels mixed_well_formed mixed_loaded).
  repeat constructor.
Defined.

(** X11.  On a loaded, well-formed project the run reports NOT_FOR_OFFLINE
    in one issue only, which lists, in the order of the layer map, the
    layers whose provider is a network or database provider; when there is
    no such layer the issue is absent.  Layers without a data provider are
    never listed. *)
Theorem run_checks_not_for_offline :
  forall (h : Host) (mergin_project : option MerginProject),
    well_formed h ->
    loaded h mergin_project ->
    exists l v',
      run_checks h (MerginProjectValidator_init mergin_project) = Ok (l, v')
      /\ (forall lids,
            MultipleLayersWarning NOT_FOR_OFFLINE lids ∈ l <->
            lids <> [] /\ lids = offline_layers (mapLayers (QgsProject_instance h)))
      /\ (forall lid,
            lid ∈ offline_layers (mapLayers (QgsProject_instance h)) <->
            exists layer dp,
              (lid, layer) ∈ mapLayers (QgsProject_instance h)
              /\ dataProvider layer = Some dp
              /\ provider_name dp ∈ QGIS_NET_PROVIDERS ++ QGIS_DB_PROVIDERS).
Proof.
  intros h mergin_project Hwf Hloaded.
  destruct (run_checks_exact h mergin_project Hwf Hloaded) as [v' ->].
  eexists _, v'. split; [reflexivity | ]. split.
  - intros lids. rewrite in_all_issues. cbn [kind part_of]. rewrite in_offline_issues.
    split.
    + intros [Hne [= ->]]. auto.
    + intros [Hne ->]. auto.
  - intros lid. rewrite in_offline_layers. unfold online. split.
    + intros (layer & Hin & Hon). destruct (dataProvider layer) as [dp|] eqn:Hdp;
        [ | discriminate].
      apply bool_decide_eq_true in Hon. exists layer, dp. auto.
    + intros (layer & dp & Hin & Hdp & Hn). exists layer. split; [exact Hin | ].
      rewrite Hdp. apply bool_decide_eq_true. exact Hn.
Qed.

Lemma run_checks_not_for_offline_witness :
  exists l v',
    run_checks MoreSamples.mixed (MerginProjectValidator_init (Some Samples.project)) =
      Ok (l, v')
    /\ MultipleLayersWarning NOT_FOR_OFFLINE ["buildings_1"; "osm_1"]%string ∈ l.
Proof.
  destruct (run_checks_not_for_offline MoreSamples.mixed (Some Samples.project)
              mixed_well_formed mixed_loaded) as (l & v' & Hrun & Hiff & _).
  exists l, v'. split; [exact Hrun | ]. apply Hiff. split; [discriminate | reflexivity].
Defined.

(** X12.  On a loaded, well-formed project every issue of the run that
    names a layer names a layer of the project; an issue about the storage
    format, an attachment widget or the schema names an editable layer, and
    an issue about an external source names a GDAL or OGR layer. *)
Theorem run_checks_issue_layers :
  forall (h : Host) (mergin_project : option MerginProject),
    well_formed h ->
    loaded h mergin_project ->
    exists l v',
      run_checks h (MerginProjectValidator_init mergin_project) = Ok (l, v')
      /\ forall lid w,
           SingleLayerWarning lid w ∈ l ->
           exists layer,
             (lid, layer) ∈ mapLayers (QgsProject_instance h)
             /\ (w = EXTERNAL_SRC /\ file_based layer = true
                 \/ w ∈ EDITABLE_NON_GPKG :: DATABASE_SCHEMA_CHANGE :: attachment_kinds
                    /\ is_editable layer = true).
Proof.
  intros h mergin_project Hwf Hloaded.
  destruct (run_checks_exact h mergin_project Hwf Hloaded) as [v' ->].
  eexists _, v'. split; [reflexivity | ].
  intros lid w. rewrite in_all_issues. cbn [kind]. unfold attachment_kinds.
  destruct w; cbn [part_of]; intros H.
  1-3: apply elem_of_nil in H; contradiction.
  - apply in_paths_issues in H as [_ [=]].
  - apply in_format_issues in H as (k & layer & Hin & Hed & _ & [= <-]).
    exists layer. split; [exact Hin | right]. split; [set_solver | ].
    apply (editable_ids_spec h Hwf lid layer Hin). exact Hed.
  - apply in_external_issues in H as (k & layer & Hin & Hg & _ & [= <-]).
    exists layer. split; [exact Hin | left]. split; [reflexivity | ].
    apply (file_group_spec h Hwf lid layer Hin). exact Hg.
  - apply in_offline_issues in H as [_ [=]].
  - apply in_layers_issues in H as [_ [=]].
  - apply in_attachment_issues in H as (k & layer & ws & Hin & Hed & _ & H).
    apply widget_issues_kinds in H as (w & [= <- _] & _).
    exists layer. split; [exact Hin | right]. split; [set_solver | ].
    apply (editable_ids_spec h Hwf lid layer Hin). exact Hed.
  - apply in_attachment_issues in H as (k & layer & ws & Hin & Hed & _ & H).
    apply widget_issues_kinds in H as (w & [= <- _] & _).
    exists layer. split; [exact Hin | right]. split; [set_solver | ].
    apply (editable_ids_spec h Hwf lid layer Hin). exact Hed.
  - apply in_attachment_issues in H as (k & layer & ws & Hin & Hed & _ & H).
    apply widget_issues_kinds in H as (w & [= <- _] & _).
    exists layer. split; [exact Hin | right]. split; [set_solver | ].
    apply (editable_ids_spec h Hwf lid layer Hin). exact Hed.
  - apply in_attachment_issues in H as (k & layer & ws & Hin & Hed & _ & H).
    apply widget_issues_kinds in H as (w & [= <- _] & _).
    exists layer. split; [exact Hin | right]. split; [set_solver | ].
    apply (editable_ids_spec h Hwf lid layer Hin). exact Hed.
  - apply in_schema_issues in H as (k & layer & Hin & Hed & _ & _ & [= <-]).
    exists layer. split; [exact Hin | right]. split; [set_solver | ].
    apply (editable_ids_spec h Hwf lid layer Hin). exact Hed.
Qed.

Lemma run_checks_issue_layers_witness :
  exists l v',
    run_checks MoreSamples.mixed (MerginProjectValidator_init (Some Samples.project)) =
      Ok (l, v')
    /\ forall lid w,
         SingleLayerWarning lid w ∈ l ->
         exists layer, (lid, layer) ∈ mapLayers MoreSamples.mixed_project.
Proof.
  destruct (run_checks_issue_layers MoreSamples.mixed (Some Samples.project)
              mixed_well_formed mixed_loaded) as (l & v' & Hrun & Hall).
  exists l, v'. split; [exact Hrun | ]. intros lid w Hin.
  destruct (Hall lid w Hin) as (layer & Hlayer & _). exists layer. exact Hlayer.
Defined.

(** ** Runs that end normally *)

(** An invariant of the turns that end normally holds when the loop ends
    normally. *)
Lemma for_inv {A S : Type} (I : list A -> S -> Prop) (body : A -> S -> result S)
    (xs : list A) (s0 s' : S) :
  I [] s0 ->
  (forall done x rest s s1, xs = done ++ x :: rest -> I done s -> body x s = Ok s1 ->
     I (done ++ [x]) s1) ->
  for_ xs body s0 = Ok s' -> I xs s'.
Proof.
  intros H0 Hbody.
  assert (G : forall rest done s, xs = done ++ rest -> I done s ->
                for_ rest body s = Ok s' -> I xs s').
  { induction rest as [|x rest IH]; intros done s Hxs Hs H.
    - cbn in H. injection H as <-. rewrite app_nil_r in Hxs. subst done. exact Hs.
    - cbn in H. destruct (body x s) as [s1|] eqn:E; cbn in H; [ | discriminate].
      apply (IH (done ++ [x]) s1); [rewrite <- app_assoc; exact Hxs | | exact H].
      apply (Hbody done x rest s s1 Hxs Hs E). }
  apply (G xs [] s0); [reflexivity | exact H0].
Qed.

Lemma adds_refl (P : Issue -> Prop) (l : list Issue) : adds P l l.
Proof. exists []. rewrite app_nil_r. split; [reflexivity | constructor]. Qed.

Lemma adds_trans (P : Issue -> Prop) (l1 l2 l3 : list Issue) :
  adds P l1 l2 -> adds P l2 l3 -> adds P l1 l3.
Proof.
  intros (n1 & -> & H1) (n2 & -> & H2). exists (n1 ++ n2).
  rewrite app_assoc. split; [reflexivity | apply Forall_app; auto].
Qed.

Lemma adds_snoc (P : Issue -> Prop) (l : list Issue) (i : Issue) :
  P i -> adds P l (l ++ [i]).
Proof. intros Hi. exists [i]. split; [reflexivity | repeat constructor; exact Hi]. Qed.

Section NormalRuns.
Variable h : Host.

(** A field that is handled without an exception is configured as
    [check_widget] expects. *)
Lemma check_widget_Ok_inv (lid : string) (ws : option QgsEditorWidgetSetup)
    (acc l : list Issue) :
  check_widget h lid ws acc = Ok l -> widget_ok ws.
Proof.
  unfold check_widget. destruct ws as [w|]; [ | intros _; exact I].
  cbn [widget_ok]. intros H Ht. rewrite bool_decide_eq_true_2 in H by exact Ht.
  cbn [negb] in H. unfold getitem, contains in H.
  destruct (config w !! "RelativeStorage"%string) as [rel|] eqn:Hrel; [ | discriminate H].
  split; [eauto | ]. intros x Hx. rewrite Hx in H.
  rewrite bool_decide_eq_true_2 in H by eauto. cbn in H.
  destruct x; cbn in H; try discriminate H. eauto.
Qed.

Lemma passes_widget_ok (lid : string) (ws : option QgsEditorWidgetSetup) :
  passes h lid ws <-> widget_ok ws.
Proof.
  split.
  - intros [l Hl]. apply (check_widget_Ok_inv lid ws [] l Hl).
  - intros Hok. eexists. apply check_widget_ok. exact Hok.
Qed.

Lemma check_widget_Ok (lid : string) (ws : option QgsEditorWidgetSetup)
    (acc l : list Issue) :
  check_widget h lid ws acc = Ok l ->
  l = acc ++ widget_issues h lid ws /\ passes h lid ws.
Proof.
  intros H. pose proof (check_widget_Ok_inv lid ws acc l H) as Hok.
  rewrite (check_widget_ok h lid ws acc Hok) in H. injection H as <-.
  split; [reflexivity | apply passes_widget_ok; exact Hok].
Qed.

Lemma check_attachment_widget_Ok (v v' : MerginProjectValidator)
    (ls : list (string * QgsMapLayer)) (ed : list string) :
  layers v = Some ls -> editable v = Some ed ->
  check_attachment_widget h v = Ok v' ->
  issues v' = issues v ++ attachment_issues h ls ed
  /\ forall lid layer ws,
       (lid, layer) ∈ ls -> lid ∈ ed -> ws ∈ editorWidgetSetups layer -> passes h lid ws.
Proof.
  intros Hls Hed. unfold check_attachment_widget. rewrite Hls, Hed.
  cbn [attr mbind result_bind].
  destruct (for_ ls _ _) as [iss|] eqn:E; cbn [mbind result_bind]; [ | discriminate].
  intros [= <-]. cbn [issues set_issues].
  apply (for_inv (fun done (s : list Issue) =>
                    s = issues v ++ attachment_issues h done ed
                    /\ forall lid layer ws,
                         (lid, layer) ∈ done -> lid ∈ ed ->
                         ws ∈ editorWidgetSetups layer -> passes h lid ws)) in E;
    [exact E | | ].
  - split; [cbn; rewrite app_nil_r; reflexivity | ].
    intros lid layer ws Hin. apply elem_of_nil in Hin. contradiction.
  - intros done [lid layer] rest s s1 _ [-> Hpass].
    rewrite attachment_issues_snoc. cbn [operand mbind result_bind].
    case_bool_decide as Hin; cbn [negb].
    + intros Hfor.
      apply (for_inv (fun done' (t : list Issue) =>
                        t = (issues v ++ attachment_issues h done ed)
                              ++ flat_map (widget_issues h lid) done'
                        /\ forall ws, ws ∈ done' -> passes h lid ws)) in Hfor.
      * destruct Hfor as [-> Hws]. split; [rewrite app_assoc; reflexivity | ].
        intros k l0 ws Hk Hked Hw. apply elem_of_app in Hk as [Hk | Hk].
        -- apply (Hpass k l0 ws Hk Hked Hw).
        -- apply list_elem_of_singleton in Hk. injection Hk as -> ->. apply Hws. exact Hw.
      * split; [cbn; rewrite app_nil_r; reflexivity | ].
        intros ws Hw. apply elem_of_nil in Hw. contradiction.
      * intros done' ws rest' t t1 _ [-> Hws] Hw.
        apply check_widget_Ok in Hw as [-> Hp]. split.
        -- rewrite flat_map_snoc, app_assoc. reflexivity.
        -- intros ws' Hin'. apply elem_of_app in Hin' as [Hin' | Hin'];
             [apply Hws; exact Hin' | ].
           apply list_elem_of_singleton in Hin'. subst ws'. exact Hp.
    + intros [= <-]. split; [rewrite app_nil_r; reflexivity | ].
      intros k l0 ws Hk Hked Hw. apply elem_of_app in Hk as [Hk | Hk].
      * apply (Hpass k l0 ws Hk Hked Hw).
      * apply list_elem_of_singleton in Hk. injection Hk as -> ->. contradiction.
Qed.

Lemma early_kind (w : Warning) (lids : list string) :
  w ∈ [NO_EDITABLE_LAYERS; ABSOLUTE_PATHS; NOT_FOR_OFFLINE] ->
  early (MultipleLayersWarning w lids).
Proof. unfold early. cbn. intros H. in_list H; repeat constructor. Qed.

Lemma check_proj_paths_relative_adds (v v' : MerginProjectValidator) :
  check_proj_paths_relative v = Ok v' -> adds early (issues v) (issues v').
Proof.
  unfold check_proj_paths_relative. destruct (qgis_proj v) as [proj|]; cbn; [ | discriminate].
  destruct (readEntry proj "Paths" "/Absolute") as [abs_paths ok].
  destruct ok; cbn; [ | discriminate].
  destruct (negb _); intros [= <-]; [ | apply adds_refl].
  apply adds_snoc, early_kind. repeat constructor.
Qed.

Lemma check_saved_in_proj_dir_adds (v v' : MerginProjectValidator) :
  check_saved_in_proj_dir h v = Ok v' -> adds early (issues v) (issues v').
Proof.
  unfold check_saved_in_proj_dir. destruct (layers v) as [ls|]; cbn; [ | discriminate].
  destruct (for_ ls _ _) as [[bp iss]|] eqn:E; cbn; [ | discriminate].
  intros [= <-]. cbn.
  apply (for_preserves (fun s s' : gmap string (list string) * list Issue =>
                          adds early (snd s) (snd s'))) in E; [exact E | | | ].
  - intros s. apply adds_refl.
  - intros s1 s2 s3. apply adds_trans.
  - intros [lid layer] [bp0 iss0] [bp1 iss1] _.
    destruct (defaultdict_getitem "gdal" bp0) as [gdal b1].
    destruct (defaultdict_getitem "ogr" b1) as [ogr b2].
    destruct (negb (bool_decide _)); [intros [= <- <-]; apply adds_refl | ].
    destruct (negb _); intros [= <- <-]; cbn; [ | apply adds_refl].
    apply adds_snoc. unfold early. cbn. repeat constructor.
Qed.

Lemma check_editable_vectors_format_adds (v v' : MerginProjectValidator) :
  check_editable_vectors_format v = Ok v' -> adds early (issues v) (issues v').
Proof.
  unfold check_editable_vectors_format.
  destruct (layers v) as [ls|]; cbn; [ | discriminate].
  destruct (for_ ls _ _) as [iss|] eqn:E; cbn; [ | discriminate].
  intros [= <-]. cbn.
  apply (for_preserves (fun s s' : list Issue => adds early s s')) in E; [exact E | | | ].
  - intros s. apply adds_refl.
  - intros s1 s2 s3. apply adds_trans.
  - intros [lid layer] s s' _. destruct (editable v) as [ed|]; cbn; [ | discriminate].
    destruct (negb (bool_decide _)); [intros [= <-]; apply adds_refl | ].
    destruct (dataProvider layer) as [dp|]; cbn; [ | discriminate].
    destruct (negb _); intros [= <-]; [ | apply adds_refl].
    apply adds_snoc. unfold early. cbn. repeat constructor.
Qed.

Lemma check_offline_adds (v v' : MerginProjectValidator) :
  check_offline v = Ok v' -> adds early (issues v) (issues v').
Proof.
  unfold check_offline. destruct (layers v) as [ls|]; cbn; [ | discriminate].
  destruct (for_ ls _ _) as [w_layers|]; cbn; [ | discriminate].
  destruct w_layers; intros [= <-]; [apply adds_refl | ].
  apply adds_snoc, early_kind. repeat constructor.
Qed.

Lemma check_db_schema_adds (v v' : MerginProjectValidator) :
  check_db_schema h v = Ok v' ->
  adds (fun i => kind i = DATABASE_SCHEMA_CHANGE) (issues v) (issues v').
Proof.
  unfold check_db_schema. destruct (layers v) as [ls|]; cbn; [ | discriminate].
  destruct (for_ ls _ _) as [iss|] eqn:E; cbn; [ | discriminate].
  intros [= <-]. cbn.
  apply (for_preserves (fun s s' : list Issue =>
                          adds (fun i => kind i = DATABASE_SCHEMA_CHANGE) s s')) in E;
    [exact E | | | ].
  - intros s. apply adds_refl.
  - intros s1 s2 s3. apply adds_trans.
  - intros [lid layer] s s' _. destruct (editable v) as [ed|]; cbn; [ | discriminate].
    destruct (negb (bool_decide _)); [intros [= <-]; apply adds_refl | ].
    destruct (dataProvider layer) as [dp|]; cbn; [ | discriminate].
    destruct (bool_decide _); [ | intros [= <-]; apply adds_refl].
    destruct (has_schema_change h (mp v) layer) as [has_change msg].
    destruct (negb has_change); intros [= <-]; [ | apply adds_refl].
    apply adds_snoc. reflexivity.
Qed.

(** The issue list of a run on a loaded project that ends normally: the
    issues of the earlier checks, those of the attachment check, those of
    the schema check; and every field of an editable layer has passed. *)
Lemma run_checks_parts (mergin_project : option MerginProject) (l : list Issue)
    (v' : MerginProjectValidator) :
  loaded h mergin_project ->
  run_checks h (MerginProjectValidator_init mergin_project) = Ok (l, v') ->
  let ls := mapLayers (QgsProject_instance h) in
  exists pre post,
    l = pre ++ attachment_issues h ls (editable_ids ls) ++ post
    /\ Forall early pre
    /\ Forall (fun i => kind i = DATABASE_SCHEMA_CHANGE) post
    /\ forall lid layer ws,
         (lid, layer) ∈ ls -> lid ∈ editable_ids ls -> ws ∈ editorWidgetSetups layer ->
         passes h lid ws.
Proof.
  intros (path & Hfiles & Hsame). intros Hrun ls. revert Hrun.
  unfold run_checks, check_single_proj. cbn [mp MerginProjectValidator_init].
  fold (target_dir h mergin_project). rewrite Hfiles.
  rewrite bool_decide_eq_false_2 by (cbn; lia).
  rewrite bool_decide_eq_false_2 by (cbn; lia).
  cbn [negb]. unfold check_proj_loaded. cbn [qgis_files operand mbind result_bind].
  rewrite Hsame. cbn [negb mbind result_bind].
  match goal with
  | |- context [get_proj_layers ?v] =>
      destruct (get_proj_layers_ok v (QgsProject_instance h) eq_refl)
        as (v1 & n1 & -> & _ & Hls1 & Hed1 & _ & _ & Hiss1 & Hn1)
  end.
  cbn in Hiss1. fold ls in Hls1, Hed1. cbn [mbind result_bind].
  destruct (check_proj_paths_relative v1) as [v2|] eqn:E2; cbn; [ | discriminate].
  destruct (check_saved_in_proj_dir h v2) as [v3|] eqn:E3; cbn; [ | discriminate].
  destruct (check_editable_vectors_format v3) as [v4|] eqn:E4; cbn; [ | discriminate].
  destruct (check_offline v4) as [v5|] eqn:E5; cbn; [ | discriminate].
  destruct (check_attachment_widget h v5) as [v6|] eqn:E6; cbn; [ | discriminate].
  destruct (check_db_schema h v6) as [v7|] eqn:E7; cbn; [ | discriminate].
  intros [= <- <-].
  pose proof (check_proj_paths_relative_adds _ _ E2) as (n2 & A2 & F2).
  pose proof (check_saved_in_proj_dir_adds _ _ E3) as (n3 & A3 & F3).
  pose proof (check_editable_vectors_format_adds _ _ E4) as (n4 & A4 & F4).
  pose proof (check_offline_adds _ _ E5) as (n5 & A5 & F5).
  pose proof (check_db_schema_adds _ _ E7) as (n7 & A7 & F7).
  apply check_proj_paths_relative_keeps in E2 as (_ & L2 & D2 & _).
  apply check_saved_in_proj_dir_keeps in E3 as (_ & L3 & D3 & _).
  apply check_editable_vectors_format_keeps in E4 as (_ & L4 & D4 & _).
  apply check_offline_keeps in E5 as (_ & L5 & D5 & _).
  assert (Hls5 : layers v5 = Some ls) by congruence.
  assert (Hed5 : editable v5 = Some (editable_ids ls)) by congruence.
  destruct (check_attachment_widget_Ok v5 v6 ls (editable_ids ls) Hls5 Hed5 E6)
    as [A6 Hpass].
  exists (n1 ++ n2 ++ n3 ++ n4 ++ n5), n7.
  split; [ | split; [ | split; [exact F7 | exact Hpass]]].
  - rewrite A7, A6, A5, A4, A3, A2, Hiss1. cbn [app]. rewrite <- !app_assoc. reflexivity.
  - rewrite !Forall_app. tauto.
Qed.

End NormalRuns.

(** *** The three issues of an attachment field *)

(** C9 (amended).  On a loaded project, take an editable layer, registered
    under its own id, with a field whose widget is an attachment widget,
    with RelativeStorage equal to 0 and a DefaultRoot that is an absolute
    path and a valid expression.  Every run that ends normally returns an
    issue list that holds, one after the other, ATTACHMENT_ABSOLUTE_PATH,
    ATTACHMENT_LOCAL_PATH and ATTACHMENT_EXPRESSION_PATH, each for that
    layer's id; and the run does end normally when the project is well
    formed.  (Otherwise it may end with an exception and return no list.) *)
Theorem check_attachment_widget_three_issues :
  forall (h : Host) (mergin_project : option MerginProject)
         (layer : QgsMapLayer) (w : QgsEditorWidgetSetup)
         (rel : value) (root : string),
    loaded h mergin_project ->
    (id layer, layer) ∈ mapLayers (QgsProject_instance h) ->
    is_editable layer = true ->
    Some w ∈ editorWidgetSetups layer ->
    widget_type w = "ExternalResource"%string ->
    config w !! "RelativeStorage"%string = Some rel ->
    eq_zero rel = true ->
    config w !! "DefaultRoot"%string = Some (VStr root) ->
    os_path_isabs h root = true ->
    QgsExpression_isValid h root = true ->
    (forall l v',
       run_checks h (MerginProjectValidator_init mergin_project) = Ok (l, v') ->
       exists before after,
         l = before ++ [SingleLayerWarning (id layer) ATTACHMENT_ABSOLUTE_PATH;
                        SingleLayerWarning (id layer) ATTACHMENT_LOCAL_PATH;
                        SingleLayerWarning (id layer) ATTACHMENT_EXPRESSION_PATH] ++ after)
    /\ (well_formed h ->
        exists l v', run_checks h (MerginProjectValidator_init mergin_project) = Ok (l, v')).
Proof.
  intros h mergin_project layer w rel root Hloaded Hin Hedit Hw Ht Hrel Hzero
    Hroot Habs Hvalid.
  split.
  2:{ intros Hwf. destruct (run_checks_loaded h Hwf mergin_project Hloaded)
        as (pre & v' & Hrun & _). eauto. }
  intros l v' Hrun.
  destruct (run_checks_parts h mergin_project l v' Hloaded Hrun)
    as (pre & post & -> & _ & _ & _).
  set (ls := mapLayers (QgsProject_instance h)) in *.
  set (lid := id layer) in *.
  assert (Hed : lid ∈ editable_ids ls).
  { unfold editable_ids. apply list_elem_of_omap. exists (lid, layer).
    split; [exact Hin | ]. rewrite Hedit. reflexivity. }
  apply list_elem_of_split in Hin as (ls1 & ls2 & Hls).
  apply list_elem_of_split in Hw as (ws1 & ws2 & Hws).
  assert (Hattach : attachment_issues h ls (editable_ids ls) =
            (attachment_issues h ls1 (editable_ids ls)
               ++ flat_map (widget_issues h lid) ws1)
            ++ widget_issues h lid (Some w)
            ++ (flat_map (widget_issues h lid) ws2
                  ++ attachment_issues h ls2 (editable_ids ls))).
  { rewrite Hls at 1. unfold attachment_issues. rewrite flat_map_app. cbn [flat_map].
    rewrite bool_decide_eq_true_2 by exact Hed. rewrite Hws, flat_map_app. cbn [flat_map].
    rewrite <- !app_assoc. reflexivity. }
  rewrite Hattach, (widget_issues_unfold h lid w rel Ht Hrel), Hroot, Hzero, Habs, Hvalid.
  exists
    (pre ++ attachment_issues h ls1 (editable_ids ls) ++ flat_map (widget_issues h lid) ws1),
    ((if contains (config w) "UseLink"
      then [SingleLayerWarning lid ATTACHMENT_HYPERLINK] else [])
     ++ flat_map (widget_issues h lid) ws2
     ++ attachment_issues h ls2 (editable_ids ls)
     ++ post).
  rewrite <- !app_assoc. reflexivity.
Qed.

Lemma check_attachment_widget_three_issues_witness :
  exists l v' before after,
    run_checks Samples.survey (MerginProjectValidator_init (Some Samples.project)) =
      Ok (l, v')
    /\ l = before ++ [SingleLayerWarning "points_1" ATTACHMENT_ABSOLUTE_PATH;
                      SingleLayerWarning "points_1" ATTACHMENT_LOCAL_PATH;
                      SingleLayerWarning "points_1" ATTACHMENT_EXPRESSION_PATH] ++ after.
Proof.
  destruct (check_attachment_widget_three_issues Samples.survey (Some Samples.project)
              Samples.points
              {| widget_type := "ExternalResource";
                 config := list_to_map [("RelativeStorage"%string, VInt 0);
                                        ("DefaultRoot"%string, VStr "/srv/photos");
                                        ("UseLink"%string, VBool false)] |}
              (VInt 0) "/srv/photos" survey_loaded)
    as [Hall Hruns];
    [ repeat constructor | reflexivity | cbn; right; left | reflexivity
    | reflexivity | reflexivity | reflexivity | reflexivity | reflexivity | ].
  destruct (Hruns survey_well_formed) as (l & v' & Hrun).
  destruct (Hall l v' Hrun) as (before & after & Hl).
  exists l, v', before, after. split; [exact Hrun | exact Hl].
Defined.

(** Not every loaded project with such a layer and field gets the three
    issues: here another layer has an attachment widget without the key
    RelativeStorage, the run ends with KeyError and returns no issue
    list. *)
Lemma three_issues_not_without_storage_key :
  loaded (MoreSamples.host_with MoreSamples.cluttered_project) (Some Samples.project)
  /\ ("points_1"%string, Samples.points) ∈ mapLayers MoreSamples.cluttered_project
  /\ is_editable Samples.points = true
  /\ (exists w,
        Some w ∈ editorWidgetSetups Samples.points
        /\ widget_type w = "ExternalResource"%string
        /\ config w !! "RelativeStorage"%string = Some (VInt 0)
        /\ config w !! "DefaultRoot"%string = Some (VStr "/srv/photos")
        /\ os_path_isabs (MoreSamples.host_with MoreSamples.cluttered_project)
             "/srv/photos" = true
        /\ QgsExpression_isValid (MoreSamples.host_with MoreSamples.cluttered_project)
             "/srv/photos" = true)
  /\ run_checks (MoreSamples.host_with MoreSamples.cluttered_project)
       (MerginProjectValidator_init (Some Samples.project))
     = Raise (KeyError "RelativeStorage")
  /\ ~ (exists l v',
         run_checks (MoreSamples.host_with MoreSamples.cluttered_project)
           (MerginProjectValidator_init (Some Samples.project)) = Ok (l, v')).
Proof.
  split; [exists "/home/anna/survey/survey.qgz"%string; split; reflexivity | ].
  split; [cbn; right; left | ].
  split; [reflexivity | ].
  split; [ | split; [vm_compute; reflexivity | ]].
  - eexists. split; [cbn; right; left | ].
    repeat split; reflexivity.
  - intros (l & v' & H). vm_compute in H. discriminate H.
Qed.

(** *** The hyperlink warning *)




(** ** A second run on the same validator *)



Lemma same_groups_members (bp bp1 bp' bp1' : gmap string (list string)) :
  same_members bp bp' -> same_groups bp bp1 -> same_groups bp' bp1' ->
  same_members bp1 bp1'.
Proof. intros H H1 H1' k x. rewrite H1', H1. apply H. Qed.

Section SecondRun.
Variable h : Host.
Variable pre : list Issue.










End SecondRun.

(** The checks after [get_proj_layers] leave the lists of the provider map
    as they are. *)
Section Groups.
Variable h : Host.







End Groups.




(** ** Further properties of the version history *)

(** *** What one worker does *)

(** [run] only adds to the log, and what it adds does not depend on the log
    it starts from. *)
Lemma run_delta (int_version : string -> option Z) (self : VersionsFetcher)
    (model : VersionsTableModel) (log : list Effect) :
  run int_version self model log =
  (log ++ fst (run int_version self model []), snd (run int_version self model [])).
Proof.
  unfold run, mbind, Worker_bind, effect, lift, mret, Worker_ret. cbn.
  case_bool_decide.
  - destruct (fetcher_mc self) as [mc|]; cbn; [ | reflexivity].
    destruct (project_info mc (fetcher_project_name self)) as [info|]; cbn;
      [ | rewrite <- !app_assoc; reflexivity].
    destruct (int_version (version info)); cbn; [ | rewrite <- !app_assoc; reflexivity].
    destruct (project_versions mc (fetcher_project_name self) _ _); cbn;
      rewrite <- !app_assoc; reflexivity.
  - destruct (oldest_version int_version model); cbn; [ | reflexivity].
    destruct (fetcher_mc self) as [mc|]; cbn; [ | reflexivity].
    destruct (project_versions mc (fetcher_project_name self) _ _); cbn;
      rewrite <- !app_assoc; reflexivity.
Qed.

(** X13.  One execution of [run], whatever the server answers and whether
    it ends normally or not: it sends at most one list request and emits at
    most one page, and a page only after a list request; it asks for the
    project info at most once, and never when the ledger has entries.  The
    list request names the fetcher's project, its upper bound is the one
    computed from the ledger or the project info, and its lower bound is
    never negative; when the upper bound is at least 1 the lower bound does
    not exceed it and the window spans at most 100 versions. *)
Theorem run_requests :
  forall (int_version : string -> option Z) (self : VersionsFetcher)
         (model : VersionsTableModel),
    let log := fst (run int_version self model []) in
    (length (list_requests log) <= 1)%nat
    /\ (length (emitted log) <= length (list_requests log))%nat
    /\ (length (info_requests log) <= 1)%nat
    /\ (versions model <> [] -> info_requests log = [])
    /\ forall p since to,
         (p, since, to) ∈ list_requests log ->
         p = fetcher_project_name self
         /\ upper_bound int_version self model = Some to
         /\ since = window_since to
         /\ 0 <= since
         /\ (1 <= to -> since <= to /\ to - since <= 100).
Proof.
  intros iv self model.
  assert (Hw : forall to, 0 <= window_since to
                 /\ (1 <= to -> window_since to <= to /\ to - window_since to <= 100)).
  { intros to. destruct (window_since_cases to) as [[? ->] | [[? ->] | [? ->]]]; lia. }
  unfold run, upper_bound, mbind, Worker_bind, effect, lift, mret, Worker_ret. cbn.
  destruct (versions model) as [|v0 vs] eqn:Hvs.
  - cbn [length]. rewrite bool_decide_eq_true_2 by reflexivity.
    destruct (fetcher_mc self) as [mc|]; cbn.
    2:{ split; [lia | ]. split; [lia | ]. split; [lia | ].
        split; [intros _; reflexivity | ]. intros p since to H. in_list H. }
    destruct (project_info mc (fetcher_project_name self)) as [info|]; cbn.
    2:{ split; [lia | ]. split; [lia | ]. split; [lia | ].
        split; [intros Hne; exfalso; apply Hne; reflexivity | ].
        intros p since to H. in_list H. }
    destruct (iv (version info)) as [to0|]; cbn.
    2:{ split; [lia | ]. split; [lia | ]. split; [lia | ].
        split; [intros Hne; exfalso; apply Hne; reflexivity | ].
        intros p since to H. in_list H. }
    destruct (project_versions mc (fetcher_project_name self) _ _); cbn;
      (split; [lia | ]); (split; [lia | ]); (split; [lia | ]);
      (split; [intros Hne; exfalso; apply Hne; reflexivity | ]);
      intros p since to H; apply list_elem_of_singleton in H; injection H as -> -> ->;
      destruct (Hw to0); auto.
  - cbn [length]. rewrite bool_decide_eq_false_2 by discriminate.
    unfold oldest_version. rewrite Hvs.
    destruct (last (v0 :: vs) ≫= _) as [to0|]; cbn.
    2:{ split; [lia | ]. split; [lia | ]. split; [lia | ].
        split; [intros _; reflexivity | ]. intros p since to H. in_list H. }
    destruct (fetcher_mc self) as [mc|]; cbn.
    2:{ split; [lia | ]. split; [lia | ]. split; [lia | ].
        split; [intros _; reflexivity | ]. intros p since to H. in_list H. }
    destruct (project_versions mc (fetcher_project_name self) _ _); cbn;
      (split; [lia | ]); (split; [lia | ]); (split; [lia | ]);
      (split; [intros _; reflexivity | ]);
      intros p since to H; apply list_elem_of_singleton in H; injection H as -> -> ->;
      destruct (Hw to0); auto.
Qed.

(** *** The dock over time *)

Lemma fetch_from_server_frame (w w' : World) :
  fetch_from_server w = Ok w' ->
  model (dock w') = model (dock w) /\ History.mp (dock w') = History.mp (dock w)
  /\ effects w' = effects w /\ delivered w' = delivered w
  /\ (w' = w \/ exists t, threads w' = threads w ++ [t] /\ entered t = false).
Proof.
  unfold fetch_from_server. destruct (fetcher_is_running w).
  - intros [= <-]. repeat split. left. reflexivity.
  - destruct (History.mp (dock w)) as [p|] eqn:Hp; cbn; [ | discriminate].
    intros [= <-]. cbn. repeat split; [exact Hp | ].
    right. eexists. split; reflexivity.
Qed.

Section DockFacts.
Variable int_version : string -> option Z.

(** X14.  Whatever happens to a dock (fetch requests, scrolling, clicks,
    workers running and ending, deliveries), the ledger only grows at its
    tail: the entries it had stay where they were, in their order. *)
Theorem ledger_only_grows :
  forall (w : World) (evs : list Event),
    versions (model (dock w))
      `prefix_of` versions (model (dock (steps int_version w evs))).
Proof.
  intros w evs. revert w. induction evs as [|ev evs IH]; intros w; [reflexivity | ].
  cbn. etrans; [ | apply IH]. clear IH.
  destruct ev as [ | maximum value | | i | i | ]; cbn.
  - destruct (fetch_from_server w) as [w'|] eqn:E; cbn; [ | reflexivity].
    apply fetch_from_server_frame in E as [-> _]. reflexivity.
  - unfold on_scrollbar_changed. case_bool_decide; cbn; [ | reflexivity].
    destruct (fetch_from_server w) as [w'|] eqn:E; cbn; [ | reflexivity].
    apply fetch_from_server_frame in E as [-> _]. reflexivity.
  - apply prefix_app_r. reflexivity.
  - destruct (threads w !! i) as [t|]; [ | reflexivity].
    destruct (isRunning t && negb (entered t)); [ | reflexivity].
    destruct (run _ _ _ _). reflexivity.
  - destruct (threads w !! i) as [t|]; [ | reflexivity].
    destruct (isRunning t && entered t); reflexivity.
  - destruct (emitted (effects w) !! delivered w) as [page|]; [ | reflexivity].
    cbn. apply prefix_app_r. reflexivity.
Qed.

Lemma entered_count_app (ts1 ts2 : list FetcherThread) :
  entered_count (ts1 ++ ts2) = (entered_count ts1 + entered_count ts2)%nat.
Proof. induction ts1 as [|t ts1 IH]; cbn; [reflexivity | rewrite IH; lia]. Qed.

Lemma entered_count_insert (ts : list FetcherThread) (i : nat) (t t' : FetcherThread) :
  ts !! i = Some t ->
  (entered_count (<[i := t']> ts) + (if entered t then 1 else 0)
   = entered_count ts + (if entered t' then 1 else 0))%nat.
Proof.
  revert i. induction ts as [|t0 ts IH]; intros i Hi; [discriminate | ].
  destruct i as [|i].
  - cbn in *. injection Hi as ->. destruct (entered t), (entered t'); lia.
  - change (<[S i := t']> (t0 :: ts)) with (t0 :: <[i := t']> ts).
    cbn [entered_count]. specialize (IH i Hi). revert IH.
    destruct (entered t), (entered t'), (entered t0); lia.
Qed.

Lemma entered_count_le (ts : list FetcherThread) :
  (entered_count ts <= length ts)%nat.
Proof.
  induction ts as [|t ts IH]; cbn; [lia | destruct (entered t); lia].
Qed.

Lemma bounded_fetch (w w' : World) :
  bounded w -> fetch_from_server w = Ok w' -> bounded w'.
Proof.
  intros (B1 & B2 & B3 & B4) E.
  apply fetch_from_server_frame in E as (_ & _ & He & Hd & [-> | (t & Ht & Hent)]).
  - repeat split; assumption.
  - unfold bounded. rewrite He, Hd, Ht, entered_count_app, length_app. cbn.
    rewrite Hent. repeat split; lia.
Qed.

Lemma bounded_step (w : World) (ev : Event) :
  bounded w -> bounded (step int_version w ev).
Proof.
  intros B. destruct ev as [ | maximum value | | i | i | ]; cbn.
  - destruct (fetch_from_server w) as [w'|] eqn:E; cbn; [ | exact B].
    eapply bounded_fetch; eassumption.
  - unfold on_scrollbar_changed. case_bool_decide; cbn; [ | exact B].
    destruct (fetch_from_server w) as [w'|] eqn:E; cbn; [ | exact B].
    eapply bounded_fetch; eassumption.
  - exact B.
  - destruct (threads w !! i) as [t|] eqn:Hi; [ | exact B].
    destruct (isRunning t && negb (entered t)) eqn:Hb; [ | exact B].
    apply andb_true_iff in Hb as [_ Hent]. apply negb_true_iff in Hent.
    rewrite run_delta.
    pose proof (run_requests int_version (thread_self t) (model (dock w)))
      as (R1 & R2 & _).
    cbn zeta in R1, R2. destruct B as (B1 & B2 & B3 & B4).
    pose proof (entered_count_insert (threads w) i t
                  {| thread_self := thread_self t; isRunning := true; entered := true |} Hi)
      as Hc.
    rewrite Hent in Hc. cbn in Hc.
    pose proof (entered_count_le
                  (<[i := {| thread_self := thread_self t; isRunning := true;
                             entered := true |}]> (threads w))) as Hle.
    rewrite length_insert in Hle.
    unfold bounded. cbn [effects threads delivered]. rewrite emitted_app, list_requests_app, !length_app, length_insert.
    repeat split; lia.
  - destruct (threads w !! i) as [t|] eqn:Hi; [ | exact B].
    destruct (isRunning t && entered t) eqn:Hb; [ | exact B].
    apply andb_true_iff in Hb as [_ Hent].
    pose proof (entered_count_insert (threads w) i t
                  {| thread_self := thread_self t; isRunning := false; entered := true |} Hi)
      as Hc.
    rewrite Hent in Hc. cbn in Hc. destruct B as (B1 & B2 & B3 & B4).
    unfold bounded. cbn [effects threads delivered]. rewrite length_insert. repeat split; lia.
  - destruct (emitted (effects w) !! delivered w) as [page|] eqn:Hp; [ | exact B].
    apply lookup_lt_Some in Hp. destruct B as (B1 & B2 & B3 & B4).
    unfold bounded. cbn [effects threads delivered]. repeat split; lia.
Qed.

Lemma bounded_init (host : DockHost) (client : option MerginClient) (w : World) :
  ProjectHistoryDockWidget_init host client = Ok w -> bounded w.
Proof.
  assert (Hempty : forall d, bounded
                     {| dock := d; threads := []; effects := []; delivered := 0 |}).
  { intros d. repeat split; cbn; lia. }
  unfold ProjectHistoryDockWidget_init.
  destruct client as [c|]; [ | intros [= <-]; apply Hempty].
  cbn [project_path]. destruct (mergin_project_local_path host) as [path|];
    [ | intros [= <-]; apply Hempty].
  destruct (check_mergin_subdirs host path); cbn [negb];
    [ | intros [= <-]; apply Hempty].
  destruct (workspace_id (MerginProject_open host path)) as [ws_id | e].
  - destruct (workspace_usage c ws_id) as [usage|]; cbn [mbind result_bind]; [ | discriminate].
    destruct (view_history_allowed usage); cbn [negb].
    + apply bounded_fetch, Hempty.
    + intros [= <-]. apply Hempty.
  - destruct e; try discriminate. intros [= <-]. apply Hempty.
Qed.

(** X15.  In every state a dock reaches after it is built, each list
    request sent to the server belongs to a fetcher whose [run] was
    executed, at most one request per fetcher; no more pages were emitted
    than requests sent, and no more pages delivered to the ledger than
    emitted. *)
Theorem requests_are_bounded :
  forall (host : DockHost) (client : option MerginClient) (w0 : World)
         (evs : list Event),
    ProjectHistoryDockWidget_init host client = Ok w0 ->
    let w := steps int_version w0 evs in
    (delivered w <= length (emitted (effects w)))%nat
    /\ (length (emitted (effects w)) <= length (list_requests (effects w)))%nat
    /\ (length (list_requests (effects w)) <= entered_count (threads w))%nat
    /\ (entered_count (threads w) <= length (threads w))%nat.
Proof.
  intros host client w0 evs Hinit. apply bounded_init in Hinit.
  revert w0 Hinit. induction evs as [|ev evs IH]; intros w0 B; [exact B | ].
  cbn. apply IH, bounded_step, B.
Qed.

(** X16.  In every state a dock reaches after it is built, at most one
    fetcher thread is running. *)
Theorem one_fetcher_at_a_time :
  forall (host : DockHost) (client : option MerginClient) (w0 : World)
         (evs : list Event) (i j : nat) (t u : FetcherThread),
    ProjectHistoryDockWidget_init host client = Ok w0 ->
    threads (steps int_version w0 evs) !! i = Some t -> isRunning t = true ->
    threads (steps int_version w0 evs) !! j = Some u -> isRunning u = true ->
    i = j.
Proof.
  intros host client w0 evs i j t u Hinit Hi Ht Hj Hu.
  pose proof (steps_invariant int_version evs w0 (init_invariant host client w0 Hinit))
    as Inv.
  pose proof (Inv i t Hi Ht) as E1. pose proof (Inv j u Hj Hu) as E2. congruence.
Qed.

(** X17.  A dock built without a client, for a project that is not saved,
    or in a directory that is not a Mergin project shows its message page,
    and nothing that happens afterwards makes it start a fetcher or contact
    the server. *)
Theorem unconfigured_dock_never_fetches :
  forall (host : DockHost) (client : option MerginClient) (evs : list Event),
    client = None
    \/ mergin_project_local_path host = None
    \/ (exists path, mergin_project_local_path host = Some path
                     /\ check_mergin_subdirs host path = false) ->
    exists w0,
      ProjectHistoryDockWidget_init host client = Ok w0
      /\ stackedWidget (dock w0) = 0
      /\ threads (steps int_version w0 evs) = []
      /\ effects (steps int_version w0 evs) = [].
Proof.
  intros host client evs Hcase.
  assert (Hquiet : forall w, History.mp (dock w) = None -> threads w = [] ->
                     effects w = [] ->
                     threads (steps int_version w evs) = []
                     /\ effects (steps int_version w evs) = []).
  { induction evs as [|ev evs IH]; intros w Hmp Hts Hes; [split; assumption | ].
    cbn. assert (Hstep : History.mp (dock (step int_version w ev)) = None
                         /\ threads (step int_version w ev) = []
                         /\ effects (step int_version w ev) = []).
    { destruct ev as [ | maximum value | | i | i | ]; cbn.
      - unfold fetch_from_server, fetcher_is_running. rewrite Hts, Hmp.
        destruct (fetcher (dock w)); cbn; auto.
      - unfold on_scrollbar_changed, fetch_from_server, fetcher_is_running.
        rewrite Hts, Hmp. case_bool_decide; destruct (fetcher (dock w)); cbn; auto.
      - auto.
      - rewrite Hts. cbn. auto.
      - rewrite Hts. cbn. auto.
      - rewrite Hes. cbn. auto. }
    destruct Hstep as (H1 & H2 & H3). apply IH; assumption. }
  unfold ProjectHistoryDockWidget_init.
  destruct client as [c|].
  2:{ eexists. split; [reflexivity | ]. split; [reflexivity | ]. apply Hquiet; reflexivity. }
  cbn [project_path]. destruct (mergin_project_local_path host) as [path|] eqn:Hpath.
  2:{ eexists. split; [reflexivity | ]. split; [reflexivity | ]. apply Hquiet; reflexivity. }
  destruct Hcase as [[=] | [[=] | (p & [= <-] & Hsub)]].
  rewrite Hsub. cbn [negb].
  eexists. split; [reflexivity | ]. split; [reflexivity | ]. apply Hquiet; reflexivity.
Qed.

End DockFacts.

Lemma requests_are_bounded_witness :
  exists w0,
    ProjectHistoryDockWidget_init Samples.dock_host (Some Samples.server) = Ok w0
    /\ (length (list_requests
                  (effects (steps Samples.int_version w0
                              [worker_runs 0%nat; page_delivered; scrolled 3 3])))
        <= entered_count
             (threads (steps Samples.int_version w0
                         [worker_runs 0%nat; page_delivered; scrolled 3 3])))%nat.
Proof.
  eexists. split; [reflexivity | ].
  refine (proj1 (proj2 (proj2
            (requests_are_bounded Samples.int_version Samples.dock_host
               (Some Samples.server) _ [worker_runs 0%nat; page_delivered; scrolled 3 3]
               eq_refl)))).
Defined.

Lemma one_fetcher_at_a_time_witness :
  exists w0 t,
    ProjectHistoryDockWidget_init Samples.dock_host (Some Samples.server) = Ok w0
    /\ threads (steps Samples.int_version w0 [worker_runs 0%nat; scrolled 3 3]) !! 0%nat
       = Some t
    /\ isRunning t = true
    /\ 0%nat = 0%nat.
Proof.
  eexists _, _. split; [reflexivity | ]. split; [reflexivity | ]. split; [reflexivity | ].
  eapply (one_fetcher_at_a_time Samples.int_version Samples.dock_host
            (Some Samples.server) _ [worker_runs 0%nat; scrolled 3 3]);
    reflexivity.
Defined.

Lemma unconfigured_dock_never_fetches_witness :
  exists w0,
    ProjectHistoryDockWidget_init Samples.dock_host None = Ok w0
    /\ stackedWidget (dock w0) = 0
    /\ threads (steps Samples.int_version w0 [scrolled 5 5; fetch_requested]) = []
    /\ effects (steps Samples.int_version w0 [scrolled 5 5; fetch_requested]) = [].
Proof.
  apply (unconfigured_dock_never_fetches Samples.int_version Samples.dock_host None
           [scrolled 5 5; fetch_requested]).
  left. reflexivity.
Defined.

(** *** One page, from the request to the ledger *)

(** X18.  Take a dock with a project and a client, no fetcher running and
    every emitted page delivered.  If the upper bound of the next window is
    known and the server answers the request with a page, then a fetch
    request, the execution of the new worker and the delivery of its page
    leave the ledger with the page appended in reverse order; one list
    request has been added to the log, no page is left undelivered, and the
    new fetcher is still running. *)
Theorem fetch_run_deliver :
  forall (int_version : string -> option Z) (w : World) (p : MerginProject)
         (c : MerginClient) (to : Z) (page : list Version),
    fetcher_is_running w = false ->
    History.mp (dock w) = Some p ->
    mc (dock w) = Some c ->
    delivered w = length (emitted (effects w)) ->
    upper_bound int_version (VersionsFetcher_init (Some c) (project_full_name p))
      (model (dock w)) = Some to ->
    project_versions c (project_full_name p) (window_since to) to = Ok page ->
    let w' := steps int_version w
                [fetch_requested; worker_runs (length (threads w)); page_delivered] in
    versions (model (dock w')) = versions (model (dock w)) ++ rev page
    /\ list_requests (effects w') =
         list_requests (effects w) ++ [(project_full_name p, window_since to, to)]
    /\ delivered w' = length (emitted (effects w'))
    /\ fetcher_is_running w' = true.
Proof.
  intros iv w p c to page Hidle Hmp Hmc Hdel Hto Hpage.
  set (f := VersionsFetcher_init (Some c) (project_full_name p)) in *.
  set (n := length (threads w)).
  set (d1 := set_fetcher (Some n) (dock w)).
  set (w1 := {| dock := d1;
                threads := threads w ++ [{| thread_self := f; isRunning := true;
                                            entered := false |}];
                effects := effects w; delivered := delivered w |}).
  assert (H1 : step iv w fetch_requested = w1).
  { cbn [step]. unfold fetch_from_server. rewrite Hidle, Hmp, Hmc. reflexivity. }
  destruct (run_unfold iv f (model (dock w)) c to page (effects w) eq_refl Hto Hpage)
    as (pre & Hpre & Hrun).
  destruct (quiet_prefix pre Hpre) as [Hem Hreq].
  set (log := effects w ++ pre ++
                [call_project_versions (fetcher_project_name f) (window_since to) to;
                 finished_emit (rev page)]) in *.
  set (ts2 := <[n := {| thread_self := f; isRunning := true; entered := true |}]>
                (threads w1)).
  set (w2 := {| dock := d1; threads := ts2; effects := log; delivered := delivered w |}).
  assert (H2 : step iv w1 (worker_runs n) = w2).
  { cbn [step threads w1]. unfold n at 1. rewrite lookup_app_r by lia.
    rewrite Nat.sub_diag. cbn [lookup list_lookup isRunning entered andb negb thread_self].
    change (model (dock w1)) with (model (dock w)). cbn [effects w1]. rewrite Hrun.
    reflexivity. }
  assert (Hlog : emitted log = emitted (effects w) ++ [rev page]).
  { unfold log. rewrite !emitted_app, Hem. reflexivity. }
  set (w3 := {| dock := set_model (add_versions (rev page) (model d1)) d1;
                threads := ts2; effects := log; delivered := S (delivered w) |}).
  assert (H3 : step iv w2 page_delivered = w3).
  { cbn [step effects delivered w2]. rewrite Hlog, Hdel. rewrite lookup_app_r by lia.
    rewrite Nat.sub_diag. cbn [lookup list_lookup]. rewrite <- Hdel. reflexivity. }
  cbn zeta. unfold steps. cbn [foldl]. rewrite H1, H2, H3.
  split; [reflexivity | ]. split.
  { cbn [effects w3]. unfold log. rewrite !list_requests_app, Hreq. reflexivity. }
  split.
  { cbn [effects delivered w3]. rewrite Hlog, length_app, Hdel. cbn. lia. }
  unfold fetcher_is_running. cbn [dock w3 fetcher set_model d1 set_fetcher threads].
  unfold ts2. rewrite list_lookup_insert_eq; [reflexivity | ].
  cbn [threads w1]. rewrite length_app. cbn. lia.
Qed.

Lemma fetch_run_deliver_witness :
  versions (model (dock
    (steps Samples.int_version
       {| dock :=
            {| mc := Some Samples.server; History.mp := Some Samples.project;
               project_path := None; fetcher := None; model := Samples.ledger [];
               local_project_version := None; info_label := ""; stackedWidget := 1 |};
          threads := []; effects := []; delivered := 0 |}
       [fetch_requested; worker_runs 0%nat; page_delivered]))) =
  [Samples.ver "v3"; Samples.ver "v2"; Samples.ver "v1"].
Proof.
  refine (proj1 (fetch_run_deliver Samples.int_version
                   {| dock :=
                        {| mc := Some Samples.server; History.mp := Some Samples.project;
                           project_path := None; fetcher := None;
                           model := Samples.ledger [];
                           local_project_version := None; info_label := "";
                           stackedWidget := 1 |};
                      threads := []; effects := []; delivered := 0 |}
                   Samples.project Samples.server 3
                   [Samples.ver "v1"; Samples.ver "v2"; Samples.ver "v3"]
                   eq_refl eq_refl eq_refl eq_refl eq_refl eq_refl)).
Defined.

(** *** Newer versions at the head *)

Lemma numbers_app_2 (int_version : string -> option Z) (l1 l2 : list Version)
    (n1 n2 : list Z) :
  numbers int_version l1 = Some n1 -> numbers int_version l2 = Some n2 ->
  numbers int_version (l1 ++ l2) = Some (n1 ++ n2).
Proof.
  revert n1. induction l1 as [|v l1 IH]; intros n1 H1 H2; cbn in *.
  - injection H1 as <-. exact H2.
  - destruct (int_version (name v)) as [n|]; [ | discriminate].
    destruct (numbers int_version l1) as [ns|]; [ | discriminate].
    injection H1 as <-. rewrite (IH ns eq_refl H2). reflexivity.
Qed.

Lemma numbers_head (int_version : string -> option Z) (l : list Version) (ns : list Z) :
  numbers int_version l = Some ns ->
  head l ≫= (fun v => int_version (name v)) = head ns.
Proof.
  destruct l as [|v l]; cbn; intros H.
  - injection H as <-. reflexivity.
  - destruct (int_version (name v)) as [n|]; [ | discriminate].
    destruct (numbers int_version l); [ | discriminate]. injection H as <-. reflexivity.
Qed.

Lemma last_rev_head {A : Type} (l : list A) : last (rev l) = head l.
Proof. destruct l as [|x l]; [reflexivity | ]. cbn. apply last_snoc. Qed.

Lemma descending_app (n1 n2 : list Z) :
  descending n1 = true -> descending n2 = true ->
  (forall a b, last n1 = Some a -> head n2 = Some b -> b < a) ->
  descending (n1 ++ n2) = true.
Proof.
  induction n1 as [|a n1 IH]; intros H1 H2 Hlink; [exact H2 | ].
  destruct n1 as [|b n1].
  - destruct n2 as [|c n2]; [reflexivity | ]. cbn.
    rewrite bool_decide_eq_true_2 by (apply Hlink; reflexivity). exact H2.
  - cbn in H1 |- *. apply andb_true_iff in H1 as [-> H1]. cbn.
    apply IH; [exact H1 | exact H2 | ]. intros x y Hx. apply Hlink. exact Hx.
Qed.

(** X19.  [prepend_versions] puts the versions it is given at the head of
    the ledger in reverse order.  So when they come in ascending order of
    version number and are all newer than the ledger's newest entry, the
    ledger stays strictly descending, its newest version becomes the last of
    the versions given, and its oldest version is unchanged. *)
Theorem prepend_versions_order :
  forall (int_version : string -> option Z) (m : VersionsTableModel)
         (vs : list Version) (ns_new ns_old : list Z),
    numbers int_version vs = Some ns_new ->
    numbers int_version (versions m) = Some ns_old ->
    ascending ns_new = true ->
    descending ns_old = true ->
    (forall a b, head ns_new = Some a -> head ns_old = Some b -> b < a) ->
    numbers int_version (versions (prepend_versions vs m)) = Some (rev ns_new ++ ns_old)
    /\ descending (rev ns_new ++ ns_old) = true
    /\ (vs <> [] -> latest_version int_version (prepend_versions vs m) = last ns_new)
    /\ (versions m <> [] ->
        oldest_version int_version (prepend_versions vs m) = oldest_version int_version m).
Proof.
  intros iv m vs ns_new ns_old Hnew Hold Hasc Hdesc Hlink.
  assert (Hall : numbers iv (versions (prepend_versions vs m)) = Some (rev ns_new ++ ns_old)).
  { cbn. apply numbers_app_2; [apply numbers_rev; exact Hnew | exact Hold]. }
  split; [exact Hall | ]. split.
  { apply descending_app; [apply ascending_rev; exact Hasc | exact Hdesc | ].
    intros a b Ha. apply Hlink. rewrite <- Ha. symmetry. apply last_rev_head. }
  split.
  - intros Hvs. pose proof (numbers_head iv _ _ Hall) as Hh.
    unfold latest_version. cbn in Hh |- *.
    destruct vs as [|v vs] using rev_ind; [contradiction | ].
    clear IHvs. rewrite rev_unit in Hh |- *. cbn in Hh |- *. rewrite Hh.
    apply numbers_app in Hnew as (n1 & n2 & _ & H2 & ->).
    cbn in H2. destruct (iv (name v)) as [k|]; [ | discriminate]. injection H2 as <-.
    rewrite rev_unit, last_snoc. reflexivity.
  - intros Hm. rewrite !oldest_version_last. cbn.
    destruct (versions m) as [|v0 rest] using rev_ind; [contradiction | ].
    rewrite app_assoc, !last_snoc. reflexivity.
Qed.

Lemma prepend_versions_order_witness :
  numbers Samples.int_version
    (versions (prepend_versions [Samples.ver "v4"; Samples.ver "v5"]
                 (Samples.ledger [Samples.ver "v3"; Samples.ver "v2"]))) =
    Some (rev [4; 5] ++ [3; 2])
  /\ descending (rev [4; 5] ++ [3; 2]) = true.
Proof.
  destruct (prepend_versions_order Samples.int_version
              (Samples.ledger [Samples.ver "v3"; Samples.ver "v2"])
              [Samples.ver "v4"; Samples.ver "v5"] [4; 5] [3; 2]
              eq_refl eq_refl eq_refl eq_refl) as (H1 & H2 & _).
  - intros a b [= <-] [= <-]. lia.
  - split; [exact H1 | exact H2].
Defined.

(** ** Properties of the helpers in [utils.py] *)

Import Utils Registry.

(** *** Project files *)

Lemma foldl_snoc_if {A B : Type} (P : A -> bool) (g : A -> B) (l : list A) (acc : list B) :
  foldl (fun acc x => if P x then acc ++ [g x] else acc) acc l =
  acc ++ map g (List.filter P l).
Proof.
  revert acc. induction l as [|x l IH]; intros acc; cbn.
  - rewrite app_nil_r. reflexivity.
  - rewrite IH. destruct (P x); cbn; [rewrite <- app_assoc | ]; reflexivity.
Qed.

Lemma find_qgis_files_fold (h : Host) (walk : list (string * list string * list string))
    (acc : list string) :
  foldl (fun qgis_files '(root, _, files) =>
           foldl (fun qgis_files f =>
                    let ext := snd (os_path_splitext h f) in
                    if bool_decide (ext ∈ [".qgs"; ".qgz"]%string)
                    then qgis_files ++ [os_path_join h root f]
                    else qgis_files)
                 qgis_files files)
        acc walk =
  acc ++ project_files h walk.
Proof.
  revert acc. induction walk as [|[[root dirs] files] walk IH]; intros acc; cbn.
  - rewrite app_nil_r. reflexivity.
  - rewrite IH.
    rewrite (foldl_snoc_if
               (fun f => bool_decide (snd (os_path_splitext h f) ∈ [".qgs"; ".qgz"]%string))
               (os_path_join h root)).
    rewrite <- app_assoc. reflexivity.
Qed.

(** X20.  [find_qgis_files] returns the files of the directory tree whose
    extension is .qgs or .qgz, each joined to the directory it is in, in the
    order of the walk and of the file lists, without leaving any out and
    without repeating one. *)
Theorem find_qgis_files_exact :
  forall (h : Host) (directory : string),
    find_qgis_files h directory = project_files h (os_walk h directory)
    /\ forall path,
         path ∈ find_qgis_files h directory <->
         exists root dirs files f,
           (root, dirs, files) ∈ os_walk h directory /\ f ∈ files
           /\ snd (os_path_splitext h f) ∈ [".qgs"; ".qgz"]%string
           /\ path = os_path_join h root f.
Proof.
  intros h directory.
  assert (E : find_qgis_files h directory = project_files h (os_walk h directory)).
  { unfold find_qgis_files. apply (find_qgis_files_fold h (os_walk h directory) []). }
  split; [exact E | ]. intros path. rewrite E. unfold project_files.
  rewrite elem_of_flat_map. split.
  - intros ([[root dirs] files] & Hin & Hp).
    apply list_elem_of_fmap in Hp as (f & -> & Hf).
    apply list_elem_of_In, filter_In in Hf as [Hf Hext].
    apply bool_decide_eq_true in Hext. apply list_elem_of_In in Hf.
    exists root, dirs, files, f. auto.
  - intros (root & dirs & files & f & Hin & Hf & Hext & ->).
    exists (root, dirs, files). split; [exact Hin | ].
    apply list_elem_of_fmap. exists f. split; [reflexivity | ].
    apply list_elem_of_In, filter_In. split; [apply list_elem_of_In; exact Hf | ].
    apply bool_decide_eq_true. exact Hext.
Qed.

(** *** The local projects of the settings *)

Lemma settings_value_is_Some (d : Desktop) (key : string) :
  key ∈ map fst (local_projects d) -> is_Some (settings_value d key).
Proof.
  intros Hin. apply list_elem_of_fmap in Hin as ([k v] & -> & Hin).
  unfold settings_value.
  destruct (list_find _ _) as [r|] eqn:E; [cbn; eauto | ].
  apply list_find_None in E. rewrite Forall_forall in E.
  exfalso. apply (E (k, v)); [exact Hin | reflexivity].
Qed.

Lemma settings_value_elem_of (d : Desktop) (key value : string) :
  settings_value d key = Some value -> (key, value) ∈ local_projects d.
Proof.
  unfold settings_value. intros H.
  destruct (list_find _ _) as [[i [k v]]|] eqn:E; [ | discriminate H].
  cbn in H. injection H as <-.
  apply list_find_Some in E as (Hi & Hk & _). cbn in Hk. subst k.
  eapply list_elem_of_lookup_2. exact Hi.
Qed.

Lemma local_projects_info_fold (d : Desktop) (keys : list string)
    (acc : list (string * string * string)) :
  (forall key, key ∈ keys -> key ∈ map fst (local_projects d)) ->
  for_ keys
    (fun key (local_projects_info : list (string * string * string)) =>
       let key_parts := split "/" key in
       if bool_decide (2 < length key_parts)%nat
          && bool_decide (key_parts !! 2%nat = Some "path"%string) then
         local_path ← operand (settings_value d key);
         if negb (os_path_exists d local_path) then Ok local_projects_info
         else
           owner ← match key_parts !! 0%nat with Some x => Ok x | None => Raise IndexError end;
           name ← match key_parts !! 1%nat with Some x => Ok x | None => Raise IndexError end;
           Ok (local_projects_info ++ [(local_path, owner, name)])
       else Ok local_projects_info)
    acc
  = Ok (acc ++ omap (local_project d) keys).
Proof.
  revert acc. induction keys as [|key keys IH]; intros acc Hkeys.
  - cbn. rewrite app_nil_r. reflexivity.
  - assert (Hrest : forall k, k ∈ keys -> k ∈ map fst (local_projects d)).
    { intros k Hk. apply Hkeys. right. exact Hk. }
    destruct (settings_value_is_Some d key (Hkeys key ltac:(left))) as [value Hv].
    cbn [for_ omap list_omap]. unfold local_project at 1.
    cbn zeta. rewrite Hv.
    destruct (split "/" key) as [|owner [|name [|part parts]]] eqn:Hs;
      cbn [length lookup list_lookup andb mbind result_bind operand].
    1-3: rewrite bool_decide_eq_false_2 by (cbn; lia);
         cbn [andb mbind result_bind]; apply IH; exact Hrest.
    rewrite bool_decide_eq_true_2 by (cbn; lia). cbn [andb].
    destruct (decide (part = "path"%string)) as [-> | Hne].
    + rewrite !bool_decide_eq_true_2 by reflexivity.
      cbn [mbind result_bind operand].
      destruct (os_path_exists d value); cbn [negb mbind result_bind].
      * rewrite IH by exact Hrest. rewrite <- app_assoc. reflexivity.
      * apply IH. exact Hrest.
    + rewrite !bool_decide_eq_false_2 by congruence.
      cbn [mbind result_bind]. apply IH. exact Hrest.
Qed.

(** X21.  [get_local_mergin_projects_info] never raises.  It returns, in
    the order of the settings keys, one entry for each key that has at least
    three parts between slashes, the third being "path", and whose stored
    directory exists: the directory with the first two parts of the key as
    owner and name.  So every directory it lists exists, and is the value
    stored under a key of the group. *)
Theorem local_projects_info_exact :
  forall d : Desktop,
    get_local_mergin_projects_info d
    = Ok (omap (local_project d) (map fst (local_projects d)))
    /\ forall local_path owner name,
         (local_path, owner, name) ∈ omap (local_project d) (map fst (local_projects d)) ->
         os_path_exists d local_path = true
         /\ exists key parts,
              (key, local_path) ∈ local_projects d
              /\ split "/" key = owner :: name :: "path"%string :: parts.
Proof.
  intros d. split.
  - unfold get_local_mergin_projects_info.
    exact (local_projects_info_fold d (map fst (local_projects d)) []
             (fun key Hkey => Hkey)).
  - intros local_path owner name Hin.
    apply list_elem_of_omap in Hin as (key & Hkey & Hlp).
    unfold local_project in Hlp.
    destruct (split "/" key) as [|o [|n [|part parts]]] eqn:Hs; try discriminate Hlp.
    case_bool_decide as Hpart; [subst part | discriminate Hlp].
    destruct (settings_value d key) as [value|] eqn:Hv; [ | discriminate Hlp].
    destruct (os_path_exists d value) eqn:Hex; [ | discriminate Hlp].
    injection Hlp as <- <- <-. split; [exact Hex | ].
    exists key, parts. split; [apply settings_value_elem_of; exact Hv | exact Hs].
Qed.

Lemma local_projects_info_eq (d : Desktop) :
  get_local_mergin_projects_info d
  = Ok (omap (local_project d) (map fst (local_projects d))).
Proof.
  exact (local_projects_info_fold d (map fst (local_projects d)) []
           (fun key Hkey => Hkey)).
Qed.

Lemma first_same_dir_Some (d : Desktop) (p : string)
    (infos : list (string * string * string)) (r : string) :
  first_same_dir d p infos = Some r ->
  r = p /\ exists local_path owner name,
             (local_path, owner, name) ∈ infos
             /\ same_dir (qgis d) (Some local_path) (Some p) = true.
Proof.
  induction infos as [|[[local_path owner] name] infos IH]; cbn [first_same_dir];
    [discriminate | ].
  destruct (same_dir (qgis d) (Some local_path) (Some p)) eqn:E.
  - intros [= <-]. split; [reflexivity | ].
    exists local_path, owner, name. split; [left | exact E].
  - intros H. destruct (IH H) as (-> & lp & o & n & Hin & Hs).
    split; [reflexivity | ]. exists lp, o, n. split; [right; exact Hin | exact Hs].
Qed.

Lemma first_same_dir_None (d : Desktop) (p : string)
    (infos : list (string * string * string)) :
  first_same_dir d p infos = None ->
  forall local_path owner name,
    (local_path, owner, name) ∈ infos ->
    same_dir (qgis d) (Some local_path) (Some p) = false.
Proof.
  induction infos as [|[[lp o] n] infos IH]; cbn [first_same_dir];
    intros H local_path owner name Hin.
  - apply elem_of_nil in Hin. contradiction.
  - destruct (same_dir (qgis d) (Some lp) (Some p)) eqn:E; [discriminate H | ].
    apply elem_of_cons in Hin as [[= -> -> ->] | Hin]; [exact E | ].
    eapply IH; eassumption.
Qed.

Lemma same_dir_empty_r (h : Host) (dir1 : option string) :
  same_dir h dir1 (Some ""%string) = false.
Proof.
  unfold same_dir. destruct dir1 as [d1|]; [ | reflexivity].
  destruct (falsy (Some d1)); reflexivity.
Qed.

(** X22.  Without a project name, [mergin_project_local_path] never
    raises.  What it returns is never a directory read from the settings:
    it is either [None] or the directory of the project open in QGIS, and
    the latter exactly when that directory is not empty and is the same
    directory as one listed by [get_local_mergin_projects_info]. *)
Theorem local_path_of_current_project :
  forall d : Desktop,
    let current := absolutePath (QgsProject_instance (qgis d)) in
    exists r,
      mergin_project_local_path d None = Ok r
      /\ (forall p, r = Some p ->
            p = current /\ p <> ""%string
            /\ exists key local_path owner name,
                 key ∈ map fst (local_projects d)
                 /\ local_project d key = Some (local_path, owner, name)
                 /\ same_dir (qgis d) (Some local_path) (Some current) = true)
      /\ (r = None ->
          forall key local_path owner name,
            key ∈ map fst (local_projects d) ->
            local_project d key = Some (local_path, owner, name) ->
            same_dir (qgis d) (Some local_path) (Some current) = false).
Proof.
  intros d current. unfold mergin_project_local_path. fold current.
  case_bool_decide as Hempty.
  - exists None. split; [reflexivity | ]. split; [discriminate | ].
    intros _ key local_path owner name _ _. rewrite Hempty. apply same_dir_empty_r.
  - rewrite local_projects_info_eq. cbn [mbind result_bind].
    eexists. split; [reflexivity | ]. split.
    + intros p Hp. apply first_same_dir_Some in Hp as (-> & lp & o & n & Hin & Hs).
      split; [reflexivity | ]. split; [exact Hempty | ].
      apply list_elem_of_omap in Hin as (key & Hkey & Hlp).
      exists key, lp, o, n. auto.
    + intros Hnone key local_path owner name Hkey Hlp.
      apply (first_same_dir_None d current _ Hnone local_path owner name).
      apply list_elem_of_omap. exists key. auto.
Qed.

(** *** A project looked up by its name *)

Lemma string_app_cons (x : Ascii.ascii) (a b : string) :
  String x a +:+ b = String x (a +:+ b).
Proof. reflexivity. Qed.

Lemma string_app_assoc (a b c : string) : (a +:+ b) +:+ c = a +:+ (b +:+ c).
Proof.
  induction a as [|x a IH]; [reflexivity | ].
  rewrite !string_app_cons, IH. reflexivity.
Qed.

Lemma split_app_sep (c : Ascii.ascii) (a rest : string) :
  has_char c a = false -> split c (a +:+ String c rest) = a :: split c rest.
Proof.
  induction a as [|x a IH]; intros H.
  - change ("" +:+ String c rest) with (String c rest). cbn [split].
    rewrite bool_decide_eq_true_2 by reflexivity. reflexivity.
  - cbn [has_char] in H. apply orb_false_iff in H as [Hx Ha].
    rewrite string_app_cons. cbn [split]. rewrite Hx, (IH Ha). reflexivity.
Qed.

Lemma split_project_key (owner name : string) :
  has_char "/" owner = false -> has_char "/" name = false ->
  split "/" (owner +:+ "/" +:+ name +:+ "/path") = [owner; name; "path"%string].
Proof.
  intros Ho Hn.
  change (owner +:+ "/" +:+ name +:+ "/path")
    with (owner +:+ String "/" (name +:+ String "/" "path")).
  rewrite (split_app_sep "/" owner _ Ho), (split_app_sep "/" name _ Hn). reflexivity.
Qed.

(** X23.  A project found by its name is a listed project: when owner and
    name hold no slash and [mergin_project_local_path("owner/name")]
    returns a directory that is not the empty string, that directory exists
    and [get_local_mergin_projects_info] lists it with this owner and
    name. *)
Theorem named_project_is_listed :
  forall (d : Desktop) (owner name p : string),
    has_char "/" owner = false -> has_char "/" name = false -> p <> ""%string ->
    mergin_project_local_path d (Some (owner +:+ "/" +:+ name)) = Ok (Some p) ->
    os_path_exists d p = true
    /\ exists infos,
         get_local_mergin_projects_info d = Ok infos /\ (p, owner, name) ∈ infos.
Proof.
  intros d owner name p Ho Hn Hp H.
  unfold mergin_project_local_path in H.
  rewrite !string_app_assoc in H.
  destruct (settings_value d (owner +:+ "/" +:+ name +:+ "/path")) as [v|] eqn:Hv;
    [ | discriminate H].
  assert (Hex : v = p /\ os_path_exists d p = true).
  { case_bool_decide as Hv0; cbn [negb] in H.
    - injection H as <-. contradiction.
    - destruct (os_path_exists d v) eqn:Hex; cbn [negb] in H; [ | discriminate H].
      injection H as <-. auto. }
  destruct Hex as [-> Hex]. split; [exact Hex | ].
  exists (omap (local_project d) (map fst (local_projects d))).
  split; [apply local_projects_info_eq | ].
  apply list_elem_of_omap. exists (owner +:+ "/" +:+ name +:+ "/path").
  split.
  - apply list_elem_of_fmap. exists (owner +:+ "/" +:+ name +:+ "/path", p).
    split; [reflexivity | apply settings_value_elem_of; exact Hv].
  - unfold local_project. rewrite (split_project_key owner name Ho Hn).
    rewrite bool_decide_eq_true_2 by reflexivity. rewrite Hv, Hex. reflexivity.
Qed.

Lemma named_project_is_listed_witness :
  os_path_exists MoreSamples.desktop "/home/anna/survey" = true
  /\ exists infos,
       get_local_mergin_projects_info MoreSamples.desktop = Ok infos
       /\ ("/home/anna/survey"%string, "anna"%string, "survey"%string) ∈ infos.
Proof.
  apply (named_project_is_listed MoreSamples.desktop "anna" "survey" "/home/anna/survey").
  - reflexivity.
  - reflexivity.
  - discriminate.
  - reflexivity.
Defined.

(** *** The dock of a project that is not registered *)

(** X24.  When the directory of the project open in QGIS is not the
    directory of a listed local project (in particular when the project is
    not saved), a dock built with a client shows its message page with the
    text "Current project is not saved. Project history is not available.",
    also for a project that is saved, and starts no fetcher. *)
Theorem dock_of_unregistered_project :
  forall (d : Desktop) (subdirs : string -> bool)
         (open_project : string -> History.MerginProject) (c : MerginClient),
    (forall key local_path owner name,
       key ∈ map fst (local_projects d) ->
       local_project d key = Some (local_path, owner, name) ->
       same_dir (qgis d) (Some local_path)
         (Some (absolutePath (QgsProject_instance (qgis d)))) = false) ->
    exists h w0,
      Utils.dock_host d subdirs open_project = Ok h
      /\ ProjectHistoryDockWidget_init h (Some c) = Ok w0
      /\ stackedWidget (dock w0) = 0
      /\ info_label (dock w0)
         = "Current project is not saved. Project history is not available."%string
      /\ threads w0 = [] /\ effects w0 = [].
Proof.
  intros d subdirs open_project c Hnot.
  assert (Hpath : mergin_project_local_path d None = Ok None).
  { unfold mergin_project_local_path. case_bool_decide as Hempty; [reflexivity | ].
    rewrite local_projects_info_eq. cbn [mbind result_bind].
    destruct (first_same_dir _ _ _) as [r|] eqn:E; [ | reflexivity].
    apply first_same_dir_Some in E as (_ & lp & o & n & Hin & Hs).
    apply list_elem_of_omap in Hin as (key & Hkey & Hlp).
    rewrite (Hnot key lp o n Hkey Hlp) in Hs. discriminate Hs. }
  unfold Utils.dock_host. rewrite Hpath. cbn [mbind result_bind].
  eexists _, _. split; [reflexivity | ].
  unfold ProjectHistoryDockWidget_init. cbn.
  repeat split; reflexivity.
Qed.

Lemma dock_of_unregistered_project_witness :
  exists h w0,
    Utils.dock_host MoreSamples.unregistered (fun _ => true) (fun _ => Samples.project) = Ok h
    /\ ProjectHistoryDockWidget_init h (Some Samples.server) = Ok w0
    /\ stackedWidget (dock w0) = 0
    /\ info_label (dock w0)
       = "Current project is not saved. Project history is not available."%string
    /\ threads w0 = [] /\ effects w0 = [].
Proof.
  apply (dock_of_unregistered_project MoreSamples.unregistered (fun _ => true)
           (fun _ => Samples.project) Samples.server).
  intros key local_path owner name Hkey Hlp.
  cbn in Hkey. apply list_elem_of_singleton in Hkey. subst key.
  vm_compute in Hlp. injection Hlp as <- <- <-. reflexivity.
Defined.

(** *** A file name that is free *)

Lemma first_free_Ok (isfile : string -> bool) (cand : nat -> result string)
    (fuel i r : nat) :
  first_free isfile cand fuel i = Some (Ok r) ->
  (i <= r < i + fuel)%nat
  /\ (exists name, cand r = Ok name /\ isfile name = false)
  /\ forall j, (i <= j < r)%nat -> exists name, cand j = Ok name /\ isfile name = true.
Proof.
  revert i. induction fuel as [|fuel IH]; intros i; cbn [first_free]; [discriminate | ].
  destruct (cand i) as [name|e] eqn:Hc; [ | discriminate].
  destruct (isfile name) eqn:E.
  - intros H. apply IH in H as (Hr & Hfree & Hbelow).
    split; [lia | ]. split; [exact Hfree | ].
    intros j Hj. destruct (decide (j = i)) as [-> | Hne]; [eauto | ].
    apply Hbelow. lia.
  - intros [= <-]. split; [lia | ]. split; [eauto | ]. intros j Hj. lia.
Qed.

Lemma first_free_enough (isfile : string -> bool) (cand : nat -> result string)
    (names : nat -> string) (fuel i k : nat) :
  (i <= k < i + fuel)%nat ->
  (forall j, (i <= j <= k)%nat -> cand j = Ok (names j)) ->
  isfile (names k) = false ->
  exists r, first_free isfile cand fuel i = Some (Ok r).
Proof.
  revert i. induction fuel as [|fuel IH]; intros i Hk Hnames Hfree; [lia | ].
  cbn [first_free]. rewrite (Hnames i) by lia.
  destruct (isfile (names i)) eqn:E; [ | eauto].
  apply IH; [ | intros j Hj; apply Hnames; lia | exact Hfree].
  destruct (decide (k = i)) as [-> | Hne]; [congruence | lia].
Qed.

Lemma first_free_raises (isfile : string -> bool) (cand : nat -> result string)
    (names : nat -> string) (fuel i k : nat) (e : exn) :
  (i <= k < i + fuel)%nat ->
  (forall j, (i <= j < k)%nat -> cand j = Ok (names j) /\ isfile (names j) = true) ->
  cand k = Raise e ->
  first_free isfile cand fuel i = Some (Raise e).
Proof.
  revert i. induction fuel as [|fuel IH]; intros i Hk Hnames Hraise; [lia | ].
  cbn [first_free]. destruct (decide (k = i)) as [-> | Hne].
  - rewrite Hraise. reflexivity.
  - destruct (Hnames i ltac:(lia)) as [-> ->].
    apply IH; [lia | intros j Hj; apply Hnames; lia | exact Hraise].
Qed.

(** X25.  [get_unique_filename] returns the given name, without formatting
    anything, when that name does not exist and its directory does.
    Otherwise it tries the numbered names from 0 on.  If they can be
    formatted up to one that is not a file, it returns the numbered name with
    the least number that is not a file, even when the given name does not
    exist (its directory missing); a numbered name is tested with [isfile]
    only, so it may be the name of an existing directory.  If [format]
    raises on a numbered name before a free one is found, as it does for a
    name with braces in it, the call ends with that exception. *)
Theorem get_unique_filename_free :
  forall (d : Desktop) (fuel : nat) (filename : string) (k : nat) (names : nat -> string),
    (k < fuel)%nat ->
    (os_path_exists d filename = false ->
     os_path_exists d (os_path_dirname (qgis d) filename) = true ->
     get_unique_filename d fuel filename = Some (Ok filename))
    /\
    (os_path_exists d filename = true
       \/ os_path_exists d (os_path_dirname (qgis d) filename) = false ->
     (forall j, (j < k)%nat ->
        candidate d filename j = Ok (names j) /\ os_path_isfile d (names j) = true) ->
     (candidate d filename k = Ok (names k) ->
      os_path_isfile d (names k) = false ->
      get_unique_filename d fuel filename = Some (Ok (names k)))
     /\ (forall e, candidate d filename k = Raise e ->
         get_unique_filename d fuel filename = Some (Raise e))).
Proof.
  intros d fuel filename k names Hk. unfold get_unique_filename, candidate. split.
  - intros -> ->. reflexivity.
  - intros Hnot Hbelow.
    assert (Hc : negb (os_path_exists d filename)
                 && os_path_exists d (os_path_dirname (qgis d) filename) = false).
    { destruct Hnot as [-> | ->]; [reflexivity | apply andb_false_r]. }
    rewrite Hc. clear Hc.
    destruct (os_path_splitext (qgis d) filename) as [file_path_name ext].
    cbn [fst snd] in Hbelow |- *. cbv beta iota. split.
    + intros Hname Hfree.
      destruct (first_free_enough (os_path_isfile d)
                  (str_format d (file_path_name +:+ "_{}" +:+ ext)) names fuel 0 k)
        as [r Hr]; [lia | | exact Hfree | ].
      { intros j Hj. destruct (decide (j = k)) as [-> | Hne]; [exact Hname | ].
        apply Hbelow. lia. }
      rewrite Hr. destruct (first_free_Ok _ _ _ _ _ Hr) as (_ & (n & Hn & Hnf) & Hlow).
      destruct (decide (r = k)) as [-> | Hne]; [rewrite Hname; reflexivity | exfalso].
      destruct (decide (r < k)%nat) as [Hlt | Hge].
      * destruct (Hbelow r Hlt) as [Hnr Hfile]. rewrite Hnr in Hn.
        injection Hn as <-. congruence.
      * destruct (Hlow k ltac:(lia)) as (n' & Hn' & Hfile').
        rewrite Hname in Hn'. injection Hn' as <-. congruence.
    + intros e Hraise.
      rewrite (first_free_raises (os_path_isfile d)
                 (str_format d (file_path_name +:+ "_{}" +:+ ext)) names fuel 0 k e);
        [reflexivity | lia | intros j Hj; apply Hbelow; lia | exact Hraise].
Qed.

Lemma get_unique_filename_free_witness :
  get_unique_filename MoreSamples.desktop 10 "/home/anna/survey/export.gpkg"
  = Some (Ok "/home/anna/survey/export_1.gpkg"%string)
  /\ get_unique_filename MoreSamples.desktop 10 "/nonexistent/a{b}.gpkg"
     = Some (Raise (KeyError "/nonexistent/a{b}_{}.gpkg"))
  /\ get_unique_filename MoreSamples.desktop 10 "/home/anna/new.gpkg"
     = Some (Ok "/home/anna/new.gpkg"%string).
Proof.
  split; [ | split].
  - apply (get_unique_filename_free MoreSamples.desktop 10 "/home/anna/survey/export.gpkg"
             1 (fun j => ("/home/anna/survey/export_" +:+ pretty j +:+ ".gpkg")%string)
             ltac:(lia)).
    + left. reflexivity.
    + intros j Hj. assert (j = 0)%nat as -> by lia. split; reflexivity.
    + reflexivity.
    + reflexivity.
  - apply (get_unique_filename_free MoreSamples.desktop 10
             "/nonexistent/a{b}.gpkg" 0 (fun _ => ""%string) ltac:(lia)).
    + right. reflexivity.
    + intros j Hj. lia.
    + reflexivity.
  - apply (get_unique_filename_free MoreSamples.desktop 10 "/home/anna/new.gpkg"
             0 (fun _ => ""%string) ltac:(lia)); reflexivity.
Defined.

(** *** The file of a new project *)

Lemma string_length_app (a b : string) :
  String.length (a +:+ b) = (String.length a + String.length b)%nat.
Proof.
  induction a as [|x a IH]; [reflexivity | ].
  rewrite string_app_cons. cbn [String.length]. rewrite IH. reflexivity.
Qed.

Lemma substring_all (b : string) : String.substring 0 (String.length b) b = b.
Proof. induction b as [|x b IH]; cbn; [ | rewrite IH]; reflexivity. Qed.

Lemma substring_app_r (a b : string) :
  String.substring (String.length a) (String.length b) (a +:+ b) = b.
Proof.
  induction a as [|x a IH].
  - apply substring_all.
  - rewrite string_app_cons. cbn [String.length String.substring]. exact IH.
Qed.

Lemma endswith_app (suffix s : string) : endswith suffix (s +:+ suffix) = true.
Proof.
  unfold endswith. rewrite string_length_app.
  rewrite bool_decide_eq_true_2 by lia. cbn [andb].
  replace (String.length s + String.length suffix - String.length suffix)%nat
    with (String.length s) by lia.
  rewrite substring_app_r. apply String.eqb_refl.
Qed.

(** X26.  A path that [get_new_qgis_project_filepath] returns is not empty
    and ends with .qgs or .qgz: the extension .qgz is added to any other
    name. *)
Theorem new_project_filepath_extension :
  forall (d : Desktop) (project_name : option string) (r : string),
    get_new_qgis_project_filepath d project_name = Some r ->
    r <> ""%string /\ (endswith ".qgs" r = true \/ endswith ".qgz" r = true).
Proof.
  intros d project_name r. unfold get_new_qgis_project_filepath.
  set (project_file := match project_name with
                       | Some name => _
                       | None => _
                       end).
  case_bool_decide as Hempty; cbn [negb]; [discriminate | ].
  destruct (endswith ".qgs" project_file || endswith ".qgz" project_file) eqn:Hext;
    cbn [negb]; intros [= <-].
  - split; [exact Hempty | ]. apply orb_true_iff in Hext. exact Hext.
  - split.
    + destruct project_file; [contradiction | discriminate].
    + right. apply endswith_app.
Qed.

Lemma new_project_filepath_extension_witness :
  "/home/anna/new project.qgz"%string <> ""%string
  /\ (endswith ".qgs" "/home/anna/new project.qgz" = true
      \/ endswith ".qgz" "/home/anna/new project.qgz" = true).
Proof.
  apply (new_project_filepath_extension MoreSamples.desktop None).
  reflexivity.
Defined.

(** *** The layers that can be packaged *)

Lemma is_layer_packable_spec (layer : QgsMapLayer) :
  is_layer_packable layer
  = if has_provider layer then Ok (packable layer) else Raise AttributeError.
Proof.
  unfold is_layer_packable, has_provider, packable.
  destruct (dataProvider layer) as [dp|]; cbn [attr mbind result_bind]; [ | reflexivity].
  case_bool_decide; reflexivity.
Qed.

Lemma find_packable_layers_fold (ls : list (string * QgsMapLayer)) (acc : list string) :
  for_ ls
    (fun '(lid, layer) (packable : list string) =>
       b ← is_layer_packable layer;
       if b : bool then Ok (packable ++ [lid]) else Ok packable)
    acc
  = if forallb (fun '(_, layer) => has_provider layer) ls
    then Ok (acc ++ map fst (List.filter (fun '(_, layer) => packable layer) ls))
    else Raise AttributeError.
Proof.
  revert acc. induction ls as [|[lid layer] ls IH]; intros acc.
  - cbn. rewrite app_nil_r. reflexivity.
  - cbn [for_ forallb List.filter]. rewrite is_layer_packable_spec.
    destruct (has_provider layer); cbn [mbind result_bind andb]; [ | reflexivity].
    destruct (packable layer); cbn [mbind result_bind]; rewrite IH;
      destruct (forallb _ ls); try reflexivity.
    cbn [map fst]. rewrite <- app_assoc. reflexivity.
Qed.

(** X27.  [find_packable_layers] ends with an AttributeError when a layer
    of the project has no data provider.  Otherwise it returns, in the order
    of the layer map, the keys of the layers that are vector layers of a
    database provider or layers of the providers ogr, gdal, delimitedtext,
    gpx and memory. *)
Theorem find_packable_layers_exact :
  forall (d : Desktop) (qgis_project : option QgsProject),
    let proj := match qgis_project with
                | Some p => p
                | None => QgsProject_instance (qgis d)
                end in
    find_packable_layers d qgis_project
    = if forallb (fun '(_, layer) => has_provider layer) (mapLayers proj)
      then Ok (map fst (List.filter (fun '(_, layer) => packable layer) (mapLayers proj)))
      else Raise AttributeError.
Proof.
  intros d qgis_project proj. unfold find_packable_layers.
  destruct qgis_project as [p|]; exact (find_packable_layers_fold _ []).
Qed.

(** X28.  A layer that [check_offline] reports and [is_layer_packable]
    accepts is a vector layer of a database provider: no layer of a network
    provider can be packaged. *)
Theorem packable_offline_layer :
  forall layer : QgsMapLayer,
    is_layer_packable layer = Ok true -> online layer = true ->
    type layer = VectorLayer
    /\ exists dp, dataProvider layer = Some dp /\ provider_name dp ∈ QGIS_DB_PROVIDERS.
Proof.
  intros layer. unfold is_layer_packable, online.
  destruct (dataProvider layer) as [dp|]; cbn [attr mbind result_bind]; [ | discriminate].
  remember (provider_name dp) as n eqn:Hn.
  case_bool_decide as Hdb.
  - intros [= Hv] _. apply bool_decide_eq_true in Hv. split; [exact Hv | ].
    exists dp. split; [reflexivity | rewrite <- Hn; exact Hdb].
  - intros [= Hp] Hon. exfalso.
    apply bool_decide_eq_true in Hp. apply bool_decide_eq_true in Hon.
    apply elem_of_app in Hon as [Hnet | Hd]; [ | contradiction].
    clear Hn Hdb. unfold PACKABLE_PROVIDERS in Hp. unfold QGIS_NET_PROVIDERS in Hnet.
    in_list Hp; in_list Hnet.
Qed.

Lemma packable_offline_layer_witness :
  type MoreSamples.buildings = VectorLayer
  /\ exists dp, dataProvider MoreSamples.buildings = Some dp
                /\ provider_name dp ∈ QGIS_DB_PROVIDERS.
Proof.
  apply (packable_offline_layer MoreSamples.buildings); reflexivity.
Defined.

(** *** The version of QGIS *)

(** X29.  For a version number made of a major part, a minor part below
    100 and a patch below 100, [get_qgis_version_str] is the three parts in
    decimal with dots between them: no part is lost or merged with its
    neighbour. *)
Theorem qgis_version_str_parts :
  forall (d : Desktop) (major minor patch : Z),
    0 <= minor < 100 -> 0 <= patch < 100 ->
    QGIS_VERSION_INT d = major * 10000 + minor * 100 + patch ->
    get_qgis_version_str d
    = pretty major +:+ "." +:+ pretty minor +:+ "." +:+ pretty patch.
Proof.
  intros d major minor patch Hminor Hpatch Hv. unfold get_qgis_version_str.
  cbv zeta. rewrite Hv.
  assert (E1 : (major * 10000 + minor * 100 + patch) `div` 10000 = major).
  { symmetry. apply (Z.div_unique _ 10000 major (minor * 100 + patch)); lia. }
  assert (E2 : (major * 10000 + minor * 100 + patch) `mod` 10000 = minor * 100 + patch).
  { symmetry. apply (Z.mod_unique _ 10000 major (minor * 100 + patch)); lia. }
  assert (E3 : (minor * 100 + patch) `div` 100 = minor).
  { symmetry. apply (Z.div_unique _ 100 minor patch); lia. }
  assert (E4 : (major * 10000 + minor * 100 + patch) `mod` 100 = patch).
  { symmetry. apply (Z.mod_unique _ 100 (major * 100 + minor) patch); lia. }
  rewrite E1, E2, E3, E4. reflexivity.
Qed.

Lemma qgis_version_str_parts_witness :
  get_qgis_version_str MoreSamples.desktop = "3.22.8"%string.
Proof.
  exact (qgis_version_str_parts MoreSamples.desktop 3 22 8
           ltac:(lia) ltac:(lia) eq_refl).
Defined.

(** ** The messages of the warnings *)

Import Display.

(** X30.  Two different warnings never have the same message, whatever
    links the help supplies. *)
Theorem warning_messages_distinct :
  forall (help_mgr : MerginHelp) (w1 w2 : Warning),
    w1 <> w2 ->
    warning_display_string help_mgr w1 <> warning_display_string help_mgr w2.
Proof.
  intros help_mgr w1 w2 Hne.
  destruct w1, w2; try (exfalso; apply Hne; reflexivity);
    cbv [warning_display_string String.append]; discriminate.
Qed.

Lemma warning_messages_distinct_witness :
  warning_display_string {| howto_background_maps := "https://merginmaps.com/docs/maps";
                            howto_attachment_widget := "https://merginmaps.com/docs/photos" |}
    NOT_FOR_OFFLINE
  <> warning_display_string {| howto_background_maps := "https://merginmaps.com/docs/maps";
                               howto_attachment_widget := "https://merginmaps.com/docs/photos" |}
       EXTERNAL_SRC.
Proof.
  apply (warning_messages_distinct _ NOT_FOR_OFFLINE EXTERNAL_SRC).
  discriminate.
Defined.
